(** * Catalog synchronisation core of the multi-store e-commerce backend

    A shallow embedding of
    - [backend/app/services/sync_engine.py] ([SyncEngine], [TierManager]),
    - [backend/app/middleware/rate_limit.py] ([RateLimitMiddleware]),
    - [backend/app/core/redis.py] ([RedisClient], [CacheKeys]),
    - [backend/app/schemas/schemas.py] (the sync request schemas),
    - [backend/app/api/v1/endpoints/sync.py] (the batch endpoint),
    - [backend/app/core/database.py] (the session of a request),
    - [backend/app/models/models.py] (the tables),
    - [backend/app/core/config.py] (the rate-limit settings),
    - [sync-agent/sync_agent.py] (the batches of [sync_products]),
    and the properties of the synchronisation subsystem stated over it.

    Conventions.  Python [int] is [Z]; [str] is [string] (the model is exact
    for ASCII text); [datetime] is a number of microseconds; [UUID] is a
    natural number.  [Optional[T]] and nullable columns are [option].
    Python floats and their formatting are library code: they are taken
    through the interface [PyFloat].  The relational store and the session are
    a record of tables threaded through a state-and-exception monad. *)

From Stdlib Require Import ZArith Ascii String List Bool Lia.
From stdpp Require Import base option list strings gmap pretty.

Open Scope Z_scope.

(** ** Tier classification ([TierManager]) *)

Module Tier.

(** [class StoreTier(str, enum.Enum)] of [models.py]. *)
Inductive StoreTier := TIER1 | TIER2 | TIER3 | TIER4.

#[global] Instance StoreTier_eq_dec : EqDecision StoreTier.
Proof. solve_decision. Defined.

(** The dictionary returned by [_get_activity_metrics]. *)
Record Metrics := {
  orders_per_day : Z;
  products_updated_per_day : Z;
  total_products : Z
}.

(** [TierManager._calculate_tier]. *)
Definition _calculate_tier (metrics : Metrics) : StoreTier :=
  let orders := orders_per_day metrics in
  let updates := products_updated_per_day metrics in
  if (50 <=? orders) || (100 <=? updates) then TIER1
  else if (20 <=? orders) || (30 <=? updates) then TIER2
  else if (5 <=? orders) || (10 <=? updates) then TIER3
  else TIER4.

(** The [intervals] dictionary shared by [_get_sync_interval] and
    [_calculate_next_sync_time]. *)
Definition intervals : list (StoreTier * Z) :=
  [(TIER1, 5); (TIER2, 15); (TIER3, 60); (TIER4, 240)].

(** [dict.get(key, default)] on an association list. *)
Fixpoint dict_get (d : list (StoreTier * Z)) (key : option StoreTier) (default : Z) : Z :=
  match d with
  | [] => default
  | (k, v) :: d' => if decide (key = Some k) then v else dict_get d' key default
  end.

(** [TierManager._get_sync_interval]; the tier column is nullable, hence
    the [option]. *)
Definition _get_sync_interval (tier : option StoreTier) : Z :=
  dict_get intervals tier 60.

(** The classification as the specification words it: the first matching
    row of the table, top down. *)
Definition classify_spec (orders mutations : Z) : StoreTier * Z :=
  if decide (orders >= 50 \/ mutations >= 100) then (TIER1, 5)
  else if decide (orders >= 20 \/ mutations >= 30) then (TIER2, 15)
  else if decide (orders >= 5 \/ mutations >= 10) then (TIER3, 60)
  else (TIER4, 240).

(** What [evaluate_and_adjust_tier] stores for a metrics dictionary. *)
Definition classify (metrics : Metrics) : StoreTier * Z :=
  let new_tier := _calculate_tier metrics in
  (new_tier, _get_sync_interval (Some new_tier)).

End Tier.


(** ** The shared cache ([RedisClient], [CacheKeys]) *)

Module Redis.

(** A Redis value: an integer counter or any other string. *)
Inductive RedisVal := RInt (n : Z) | RStr (s : string).

Record Entry := { value : RedisVal; expire_at : option Z }.

(** The server behind the connection pool: [reachable] is false when its
    commands raise (connection lost). *)
Record Server := { reachable : bool; keys : gmap string Entry }.

(** [self.redis]: [None] when [_connect] failed. *)
Definition RedisClient := option Server.

Definition live (now : Z) (e : Entry) : bool :=
  match expire_at e with
  | Some t => now <? t
  | None => true
  end.

Definition lookup_live (now : Z) (srv : Server) (key : string) : option Entry :=
  match keys srv !! key with
  | Some e => if live now e then Some e else None
  | None => None
  end.

(** The commands used by the client; [None] stands for a raised error. *)
Definition INCRBY (key : string) (amount now : Z) (srv : Server) : option (Z * Server) :=
  if negb (reachable srv) then None
  else match lookup_live now srv key with
       | Some e =>
           match value e with
           | RInt n =>
               Some (n + amount,
                     {| reachable := reachable srv;
                        keys := <[key := {| value := RInt (n + amount);
                                            expire_at := expire_at e |}]> (keys srv) |})
           | RStr _ => None
           end
       | None =>
           Some (amount,
                 {| reachable := reachable srv;
                    keys := <[key := {| value := RInt amount;
                                        expire_at := None |}]> (keys srv) |})
       end.

Definition EXPIRE (key : string) (ttl now : Z) (srv : Server) : option Server :=
  if negb (reachable srv) then None
  else match lookup_live now srv key with
       | Some e =>
           Some {| reachable := reachable srv;
                   keys := <[key := {| value := value e;
                                       expire_at := Some (now + ttl) |}]> (keys srv) |}
       | None => Some srv
       end.

Definition DEL (ks : list string) (srv : Server) : option (Z * Server) :=
  if negb (reachable srv) then None
  else Some (Z.of_nat (length (filter (fun k => is_Some (keys srv !! k)) ks)),
             {| reachable := reachable srv;
                keys := foldr (fun k m => delete k m) (keys srv) ks |}).

(** Glob matching of [KEYS pattern]; the patterns built by the code use
    the star as their only special character. *)
Fixpoint glob (p s : list ascii) : bool :=
  match p with
  | [] => match s with [] => true | _ :: _ => false end
  | c :: p' =>
      if Ascii.eqb c "*"%char then
        (fix star (s : list ascii) : bool :=
           glob p' s || match s with [] => false | _ :: s' => star s' end) s
      else match s with
           | [] => false
           | d :: s' => Ascii.eqb c d && glob p' s'
           end
  end.

Definition KEYS (pattern : string) (srv : Server) : option (list string) :=
  if negb (reachable srv) then None
  else Some (filter (fun k => Is_true (glob (list_ascii_of_string pattern)
                                         (list_ascii_of_string k)))
                    (map fst (map_to_list (keys srv)))).

(** Python truthiness of an [Optional[int]]. *)
Definition truthy (ttl : option Z) : bool :=
  match ttl with
  | Some t => negb (t =? 0)
  | None => false
  end.

(** [RedisClient.increment(key, amount=1, ttl=None)]. *)
Definition increment (key : string) (amount : Z) (ttl : option Z) (now : Z)
    (self : RedisClient) : Z * RedisClient :=
  match self with
  | None => (0, self)
  | Some srv =>
      match INCRBY key amount now srv with
      | None => (0, self)
      | Some (value, srv1) =>
          if truthy ttl && (value =? amount) then
            match EXPIRE key (default 0 ttl) now srv1 with
            | Some srv2 => (value, Some srv2)
            | None => (0, Some srv1)
            end
          else (value, Some srv1)
      end
  end.

(** [RedisClient.delete], called with a list of keys. *)
Definition delete (ks : list string) (self : RedisClient) : Z * RedisClient :=
  match self with
  | None => (0, self)
  | Some srv =>
      match DEL ks srv with
      | Some (n, srv') => (n, Some srv')
      | None => (0, self)
      end
  end.

(** [RedisClient.delete_pattern(pattern)]. *)
Definition delete_pattern (pattern : string) (self : RedisClient) : Z * RedisClient :=
  match self with
  | None => (0, self)
  | Some srv =>
      match KEYS pattern srv with
      | Some [] => (0, self)
      | Some ks =>
          match DEL ks srv with
          | Some (n, srv') => (n, Some srv')
          | None => (0, self)
          end
      | None => (0, self)
      end
  end.

End Redis.

(** [class CacheKeys]. *)
Module CacheKeys.

Definition inventory (store_id product_id : string) : string :=
  "store:" +:+ store_id +:+ ":inventory:" +:+ product_id.

Definition rate_limit (store_id endpoint : string) (minute : Z) : string :=
  "ratelimit:" +:+ store_id +:+ ":" +:+ endpoint +:+ ":" +:+ pretty minute.

End CacheKeys.

(** ** Admission control ([RateLimitMiddleware]) *)

Module RateLimit.

(** [RateLimitMiddleware.check_rate_limit]; [now] is the reading of
    [time.time()] in whole seconds.  [int(x)] truncates, hence [Z.quot].
    The soft-limit warning only logs and is left out. *)
Definition check_rate_limit (identifier endpoint : string) (limit window : Z)
    (now : Z) (redis_client : Redis.RedisClient) : (bool * Z * Z) * Redis.RedisClient :=
  let current_minute := Z.quot now window in
  let cache_key :=
    "ratelimit:" +:+ identifier +:+ ":" +:+ endpoint +:+ ":" +:+ pretty current_minute in
  let '(count, redis_client') :=
    Redis.increment cache_key 1 (Some window) now redis_client in
  let remaining := Z.max 0 (limit - count) in
  let reset_time := (current_minute + 1) * window in
  let allowed := count <=? limit in
  ((allowed, remaining, reset_time), redis_client').

(** Successive requests of one caller, one per reading of the clock. *)
Fixpoint requests (identifier endpoint : string) (limit window : Z)
    (times : list Z) (redis_client : Redis.RedisClient)
    : list (bool * Z * Z) * Redis.RedisClient :=
  match times with
  | [] => ([], redis_client)
  | now :: times' =>
      let '(r, c1) := check_rate_limit identifier endpoint limit window now redis_client in
      let '(rs, c2) := requests identifier endpoint limit window times' c1 in
      (r :: rs, c2)
  end.

(** A connected, empty cache. *)
Definition fresh : Redis.RedisClient :=
  Some {| Redis.reachable := true; Redis.keys := ∅ |}.

End RateLimit.

(** ** Library code used by the engine *)

(** [hashlib.md5]: the MD5 digest (RFC 1321) over the bytes of the text. *)
Module MD5.

Definition mask32 (x : Z) : Z := Z.land x 0xffffffff.

Definition rotl (x c : Z) : Z :=
  mask32 (Z.lor (Z.shiftl x c) (Z.shiftr x (32 - c))).

Definition K : list Z :=
  [ 0xd76aa478; 0xe8c7b756; 0x242070db; 0xc1bdceee;
    0xf57c0faf; 0x4787c62a; 0xa8304613; 0xfd469501;
    0x698098d8; 0x8b44f7af; 0xffff5bb1; 0x895cd7be;
    0x6b901122; 0xfd987193; 0xa679438e; 0x49b40821;
    0xf61e2562; 0xc040b340; 0x265e5a51; 0xe9b6c7aa;
    0xd62f105d; 0x02441453; 0xd8a1e681; 0xe7d3fbc8;
    0x21e1cde6; 0xc33707d6; 0xf4d50d87; 0x455a14ed;
    0xa9e3e905; 0xfcefa3f8; 0x676f02d9; 0x8d2a4c8a;
    0xfffa3942; 0x8771f681; 0x6d9d6122; 0xfde5380c;
    0xa4beea44; 0x4bdecfa9; 0xf6bb4b60; 0xbebfbc70;
    0x289b7ec6; 0xeaa127fa; 0xd4ef3085; 0x04881d05;
    0xd9d4d039; 0xe6db99e5; 0x1fa27cf8; 0xc4ac5665;
    0xf4292244; 0x432aff97; 0xab9423a7; 0xfc93a039;
    0x655b59c3; 0x8f0ccc92; 0xffeff47d; 0x85845dd1;
    0x6fa87e4f; 0xfe2ce6e0; 0xa3014314; 0x4e0811a1;
    0xf7537e82; 0xbd3af235; 0x2ad7d2bb; 0xeb86d391 ].

Definition S : list Z :=
  [ 7; 12; 17; 22; 7; 12; 17; 22; 7; 12; 17; 22; 7; 12; 17; 22;
    5; 9; 14; 20; 5; 9; 14; 20; 5; 9; 14; 20; 5; 9; 14; 20;
    4; 11; 16; 23; 4; 11; 16; 23; 4; 11; 16; 23; 4; 11; 16; 23;
    6; 10; 15; 21; 6; 10; 15; 21; 6; 10; 15; 21; 6; 10; 15; 21 ].

(** Little-endian bytes of a word. *)
Definition le_bytes (n : nat) (x : Z) : list Z :=
  map (fun i => Z.land (Z.shiftr x (8 * Z.of_nat i)) 0xff) (seq 0 n).

Fixpoint le_word (bs : list Z) : Z :=
  match bs with
  | [] => 0
  | b :: bs' => b + 256 * le_word bs'
  end.

(** The message followed by the bit 1, zeros up to 56 modulo 64 and the
    length in bits. *)
Definition pad (msg : list Z) : list Z :=
  let len := Z.of_nat (length msg) in
  let zeros := Z.to_nat ((55 - len) mod 64) in
  msg ++ [0x80] ++ replicate zeros 0 ++ le_bytes 8 (8 * len).

Fixpoint chunks (fuel : nat) (n : nat) (bs : list Z) : list (list Z) :=
  match fuel with
  | O => []
  | Datatypes.S fuel' =>
      match bs with
      | [] => []
      | _ :: _ => take n bs :: chunks fuel' n (drop n bs)
      end
  end.

Definition step (M : list Z) (st : Z * Z * Z * Z) (i : nat) : Z * Z * Z * Z :=
  let '(a, b, c, d) := st in
  let zi := Z.of_nat i in
  let '(f, g) :=
    if zi <? 16 then (Z.lor (Z.land b c) (Z.land (Z.lxor b 0xffffffff) d), zi)
    else if zi <? 32 then (Z.lor (Z.land d b) (Z.land (Z.lxor d 0xffffffff) c), (5 * zi + 1) mod 16)
    else if zi <? 48 then (Z.lxor (Z.lxor b c) d, (3 * zi + 5) mod 16)
    else (Z.lxor c (Z.lor b (Z.lxor d 0xffffffff)), (7 * zi) mod 16) in
  let f := mask32 (f + a + nth i K 0 + nth (Z.to_nat g) M 0) in
  (d, mask32 (b + rotl f (nth i S 0)), b, c).

Definition block (st : Z * Z * Z * Z) (blk : list Z) : Z * Z * Z * Z :=
  let M := map le_word (chunks 16 4 blk) in
  let '(a, b, c, d) := st in
  let '(a', b', c', d') := fold_left (step M) (seq 0 64) st in
  (mask32 (a + a'), mask32 (b + b'), mask32 (c + c'), mask32 (d + d')).

Definition hex_digit (n : Z) : ascii :=
  if n <? 10 then ascii_of_nat (Z.to_nat (48 + n)) else ascii_of_nat (Z.to_nat (87 + n)).

Definition hex_byte (b : Z) : list ascii := [hex_digit (b / 16); hex_digit (b mod 16)].

(** [hashlib.md5(s.encode()).hexdigest()] for ASCII text. *)
Definition hexdigest (s : string) : string :=
  let msg := map (fun c => Z.of_nat (nat_of_ascii c)) (list_ascii_of_string s) in
  let bs := pad msg in
  let '(a, b, c, d) :=
    fold_left block (chunks (length bs) 64 bs)
              (0x67452301, 0xefcdab89, 0x98badcfe, 0x10325476) in
  string_of_list_ascii (concat (map hex_byte (le_bytes 4 a ++ le_bytes 4 b ++ le_bytes 4 c ++ le_bytes 4 d))).

End MD5.

(** Python's [float] with the operations the engine and the schemas apply
    to it, and its formatting inside an f-string. *)
Class PyFloat := {
  float : Type;
  float_of_Z : Z -> float;
  fsub : float -> float -> float;
  fdiv : float -> float -> float;
  fmul : float -> float -> float;
  feqb : float -> float -> bool;
  fltb : float -> float -> bool;
  fleb : float -> float -> bool;
  fround : float -> Z -> float;
  float_str : float -> string
}.

Definition UUID := nat.
Definition datetime := Z.

(** [str(uuid)]; the model prints the number. *)
Definition uuid_str (u : UUID) : string := pretty u.

(** ** Request schemas ([schemas.py]) *)

(** A product entry of the JSON body before validation.  [None] is a key
    that is absent; for the fields declared [Optional] it is also a key
    that holds [null].  The two differ for [gst_percent] only, which has a
    default and admits [null]: [None] is the absent key, [Some None] the
    key holding [null]. *)
Module RawItem.
Record t {F : Type} := {
  external_id : option string;
  name : option string;
  description : option string;
  mrp : option F;
  selling_price : option F;
  quantity : option Z;
  unit : option string;
  sku : option string;
  barcode : option string;
  category : option string;
  hsn_code : option string;
  gst_percent : option (option F);
  updated_at : option datetime
}.
Arguments t : clear implicits.

End RawItem.

(** [class SyncProductItem(BaseModel)]. *)
Module SyncProductItem.
Record t {F : Type} := {
  external_id : string;
  name : string;
  description : option string;
  mrp : F;
  selling_price : F;
  quantity : Z;
  unit : option string;
  sku : option string;
  barcode : option string;
  category : option string;
  hsn_code : option string;
  gst_percent : option F;
  updated_at : option datetime
}.
Arguments t : clear implicits.

Section WithLib.
Context {L : PyFloat}.

(** Field validation: [external_id] required with [min_length=1], [name]
    required with [min_length=2], [mrp] and [selling_price] required with
    [gt=0], [quantity] defaulting to 0 with [ge=0], [gst_percent]
    defaulting to 0 when the key is absent, [None] when it holds [null],
    and checked against [ge=0, le=100] when it holds a number. *)
Definition validate (r : RawItem.t float) : option (t float) :=
  match RawItem.external_id r, RawItem.name r, RawItem.mrp r, RawItem.selling_price r with
  | Some ext, Some nm, Some m, Some sp =>
      let q := default 0 (RawItem.quantity r) in
      let g := default (Some (float_of_Z 0)) (RawItem.gst_percent r) in
      if (1 <=? String.length ext)%nat
         && (2 <=? String.length nm)%nat
         && fltb (float_of_Z 0) m
         && fltb (float_of_Z 0) sp
         && (0 <=? q)
         && match RawItem.gst_percent r with
            | Some (Some x) => fleb (float_of_Z 0) x && fleb x (float_of_Z 100)
            | Some None | None => true
            end
      then Some {| external_id := ext; name := nm;
                   description := RawItem.description r;
                   mrp := m; selling_price := sp; quantity := q;
                   unit := RawItem.unit r; sku := RawItem.sku r;
                   barcode := RawItem.barcode r; category := RawItem.category r;
                   hsn_code := RawItem.hsn_code r; gst_percent := g;
                   updated_at := RawItem.updated_at r |}
      else None
  | _, _, _, _ => None
  end.

End WithLib.
End SyncProductItem.

(** [class SyncBatchRequest(BaseModel)]. *)
Module SyncBatchRequest.
(** The JSON body as received. *)
Record raw {F : Type} := {
  raw_store_id : UUID;
  raw_sync_type : string;
  raw_timestamp : datetime;
  raw_products : list (RawItem.t F)
}.
Arguments raw : clear implicits.

Record t {F : Type} := {
  store_id : UUID;
  sync_type : string;
  timestamp : datetime;
  products : list (SyncProductItem.t F)
}.
Arguments t : clear implicits.

Section WithLib.
Context {L : PyFloat}.

(** [pattern="^(delta|full|inventory_only)$"]. *)
Definition sync_type_pattern (s : string) : bool :=
  String.eqb s "delta" || String.eqb s "full" || String.eqb s "inventory_only".

(** The [@validator('products')] of the class. *)
Definition validate_products (v : list (SyncProductItem.t float))
    : option (list (SyncProductItem.t float)) :=
  if (length v =? 0)%nat then None else Some v.

(** Validation of the body: every entry must validate as a
    [SyncProductItem], the list holds at most [max_items=1000] entries, and
    the class validator refuses the empty list.  [None] is the validation
    error that rejects the request. *)
Definition validate (r : raw float) : option (t float) :=
  if sync_type_pattern (raw_sync_type r) then
    match mapM SyncProductItem.validate (raw_products r) with
    | Some items =>
        if (length items <=? 1000)%nat then
          match validate_products items with
          | Some v => Some {| store_id := raw_store_id r;
                              sync_type := raw_sync_type r;
                              timestamp := raw_timestamp r;
                              products := v |}
          | None => None
          end
        else None
    | None => None
    end
  else None.

End WithLib.
End SyncBatchRequest.

(** [class SyncBatchResponse(BaseModel)]. *)
Module SyncBatchResponse.

Record t := {
  success : bool;
  sync_id : UUID;
  processed : Z;
  created : Z;
  updated : Z;
  failed : Z;
  errors : list (string * string);
  next_sync_recommended_at : datetime;
  duration_seconds : Z
}.

End SyncBatchResponse.

(** ** Tables ([models.py]) *)

(** [class Store(Base)], the columns the sync path reads or writes. *)
Module Store.

Record t := {
  id : UUID;
  name : string;
  sync_tier : option Tier.StoreTier;
  sync_interval_minutes : Z;
  last_sync_at : option datetime;
  sync_api_key : string;
  is_active : bool;
  updated_at : datetime
}.

End Store.

(** [class Product(Base)], the columns the sync path reads or writes. *)
Module Product.
Record t {F : Type} := {
  id : UUID;
  store_id : UUID;
  external_id : string;
  name : string;
  slug : string;
  description : option string;
  category_id : option UUID;
  mrp : F;
  selling_price : F;
  discount_percent : F;
  quantity : Z;
  unit : option string;
  sku : option string;
  barcode : option string;
  hsn_code : option string;
  gst_percent : F;
  is_active : bool;
  is_in_stock : bool;
  last_synced_at : option datetime;
  sync_version : Z;
  sync_checksum : option string;
  created_at : datetime;
  updated_at : datetime
}.
Arguments t : clear implicits.

End Product.

(** [class Order(Base)], the columns counted by the tier manager. *)
Module Order.

Record t := {
  id : UUID;
  store_id : UUID;
  created_at : datetime
}.

End Order.

(** [class SyncLog(Base)]. *)
Module SyncLog.

Record t := {
  id : UUID;
  store_id : UUID;
  sync_type : string;
  status : string;
  records_received : Z;
  records_created : Z;
  records_updated : Z;
  records_failed : Z;
  duration_seconds : Z;
  error_details : option (list (string * string));
  started_at : datetime;
  completed_at : datetime
}.

End SyncLog.

(** ** The store, the session and the effects of the engine *)

(** The relational store as the engine sees it.  [flush_error p] is the
    error with which the store refuses to flush the row [p] (a value too
    long for its column, an integer out of range, ...), [None] when it
    accepts the row.  A refused flush raises inside [commit]; the
    transaction is rolled back, so the table is as it was, and the session
    stays inactive until [rollback()] is called on it: every later query
    or commit raises [PendingRollbackError]. *)
Class Backend {L : PyFloat} := {
  flush_error : Product.t float -> option string
}.

Module Session.
Section WithFloat.
Context {F : Type}.

(** The tables, the cache, the clock, the identifier supply and the state
    of the session; [F] is the type of the float columns.
    [pending_rollback] holds the error of a failed flush that has not been
    rolled back ([None] for an active session). *)
Record World := {
  stores : list Store.t;
  products : list (Product.t F);
  orders : list Order.t;
  sync_logs : list SyncLog.t;
  redis_client : Redis.RedisClient;
  clock : datetime;
  next_uuid : UUID;
  pending_rollback : option string
}.

(** Exceptions that travel through the engine and the endpoint. *)
Inductive exn :=
| ValueError (msg : string)
| HTTPException (status_code : Z) (detail : string)
| DBAPIError (msg : string)
| PendingRollbackError (original : string).

(** [str(e)]. *)
Definition exn_str (e : exn) : string :=
  match e with
  | ValueError msg => msg
  | HTTPException _ detail => detail
  | DBAPIError msg => msg
  | PendingRollbackError original =>
      "This Session's transaction has been rolled back due to a previous "
      +:+ "exception during flush. To begin a new transaction with this "
      +:+ "Session, first issue Session.rollback(). Original exception was: "
      +:+ original
  end.

Inductive result (A : Type) :=
| Ok (a : A)
| Raise (e : exn).
Arguments Ok {A} a.
Arguments Raise {A} e.

(** Computations over the world that return or raise. *)
Definition M (A : Type) : Type := World -> result A * World.

Definition ret {A} (a : A) : M A := fun w => (Ok a, w).

Definition bind {A C} (m : M A) (k : A -> M C) : M C :=
  fun w => match m w with
           | (Ok a, w') => k a w'
           | (Raise e, w') => (Raise e, w')
           end.

Definition raise {A} (e : exn) : M A := fun w => (Raise e, w).

(** [try: m except Exception as e: h e]. *)
Definition try_except {A} (m : M A) (h : exn -> M A) : M A :=
  fun w => match m w with
           | (Ok a, w') => (Ok a, w')
           | (Raise e, w') => h e w'
           end.

Definition get : M World := fun w => (Ok w, w).

(** The value a run returned, if it did not raise. *)
Definition returned {A} (run : result A * World) : option A :=
  match fst run with
  | Ok a => Some a
  | Raise _ => None
  end.

#[local] Notation "x <- c1 ;; c2" := (bind c1 (fun x => c2))
  (at level 100, c1 at next level, right associativity).

(** [datetime.utcnow()]: a logical clock, every reading later than the
    one before. *)
Definition utcnow : M datetime :=
  fun w => (Ok (clock w),
            {| stores := stores w; products := products w; orders := orders w;
               sync_logs := sync_logs w; redis_client := redis_client w;
               clock := clock w + 1; next_uuid := next_uuid w;
               pending_rollback := pending_rollback w |}).

(** [uuid4()]: identifiers are drawn from a supply. *)
Definition uuid4 : M UUID :=
  fun w => (Ok (next_uuid w),
            {| stores := stores w; products := products w; orders := orders w;
               sync_logs := sync_logs w; redis_client := redis_client w;
               clock := clock w; next_uuid := S (next_uuid w);
               pending_rollback := pending_rollback w |}).

Definition set_products (ps : list (Product.t F)) (w : World) : World :=
  {| stores := stores w; products := ps; orders := orders w;
     sync_logs := sync_logs w; redis_client := redis_client w;
     clock := clock w; next_uuid := next_uuid w;
     pending_rollback := pending_rollback w |}.

Definition set_stores (ss : list Store.t) (w : World) : World :=
  {| stores := ss; products := products w; orders := orders w;
     sync_logs := sync_logs w; redis_client := redis_client w;
     clock := clock w; next_uuid := next_uuid w;
     pending_rollback := pending_rollback w |}.

Definition set_sync_logs (ls : list SyncLog.t) (w : World) : World :=
  {| stores := stores w; products := products w; orders := orders w;
     sync_logs := ls; redis_client := redis_client w;
     clock := clock w; next_uuid := next_uuid w;
     pending_rollback := pending_rollback w |}.

Definition set_redis (c : Redis.RedisClient) (w : World) : World :=
  {| stores := stores w; products := products w; orders := orders w;
     sync_logs := sync_logs w; redis_client := c;
     clock := clock w; next_uuid := next_uuid w;
     pending_rollback := pending_rollback w |}.

Definition set_pending_rollback (e : option string) (w : World) : World :=
  {| stores := stores w; products := products w; orders := orders w;
     sync_logs := sync_logs w; redis_client := redis_client w;
     clock := clock w; next_uuid := next_uuid w;
     pending_rollback := e |}.

(** *** Queries and flushes *)

(** [SessionLocal()]: a new session, and [db.close()]. *)
Definition SessionLocal (w : World) : World := set_pending_rollback None w.
Definition close (w : World) : World := set_pending_rollback None w.

(** What every query and every commit of the session goes through: the
    tables as they are, or [PendingRollbackError] while a failed flush has
    not been rolled back. *)
Definition connection : M World :=
  fun w => match pending_rollback w with
           | Some original => (Raise (PendingRollbackError original), w)
           | None => (Ok w, w)
           end.

(** [db.query(Store).filter(Store.id == store_id).first()]. *)
Definition query_store (store_id : UUID) (w : World) : option Store.t :=
  List.find (fun s => Nat.eqb (Store.id s) store_id) (stores w).

(** [db.query(Store).filter(Store.sync_api_key == key).first()]. *)
Definition query_store_by_key (key : string) (w : World) : option Store.t :=
  List.find (fun s => String.eqb (Store.sync_api_key s) key) (stores w).

(** [db.query(Product).filter(and_(Product.store_id == store_id,
    Product.external_id == external_id)).first()]. *)
Definition product_key (store_id : UUID) (external_id : string) (p : Product.t F)
    : bool :=
  Nat.eqb (Product.store_id p) store_id
  && String.eqb (Product.external_id p) external_id.

Definition query_product (store_id : UUID) (external_id : string) (w : World)
    : option (Product.t F) :=
  List.find (product_key store_id external_id) (products w).

(** The UPDATE of a loaded row, by primary key. *)
Definition replace_product (p : Product.t F) (ps : list (Product.t F)) : list (Product.t F) :=
  map (fun q => if Nat.eqb (Product.id q) (Product.id p) then p else q) ps.

Definition replace_store (s : Store.t) (ss : list Store.t) : list Store.t :=
  map (fun q => if Nat.eqb (Store.id q) (Store.id s) then s else q) ss.

(** The column [stores.updated_at] has [onupdate=datetime.utcnow]. *)
Definition onupdate (s : Store.t) (now : datetime) : Store.t :=
  {| Store.id := Store.id s;
     Store.name := Store.name s;
     Store.sync_tier := Store.sync_tier s;
     Store.sync_interval_minutes := Store.sync_interval_minutes s;
     Store.last_sync_at := Store.last_sync_at s;
     Store.sync_api_key := Store.sync_api_key s;
     Store.is_active := Store.is_active s;
     Store.updated_at := now |}.

(** [db.commit()] with a modified store row pending: the UPDATE of the
    row, which also sets [updated_at] to a reading of the clock. *)
Definition commit_store (s : Store.t) : M unit :=
  _ <- connection ;;
  now <- utcnow ;;
  fun w => (Ok tt, set_stores (replace_store (onupdate s now) (stores w)) w).

(** [db.add(sync_log); db.commit()]. *)
Definition commit_sync_log (l : SyncLog.t) : M unit :=
  _ <- connection ;;
  fun w => (Ok tt, set_sync_logs (sync_logs w ++ [l]) w).

(** [await redis_client.delete(key)] and [delete_pattern(pattern)]; the
    counts they return are dropped by the callers. *)
Definition redis_delete (key : string) : M unit :=
  fun w => (Ok tt, set_redis (snd (Redis.delete [key] (redis_client w))) w).

Definition redis_delete_pattern (pattern : string) : M unit :=
  fun w => (Ok tt, set_redis (snd (Redis.delete_pattern pattern (redis_client w))) w).

End WithFloat.

Arguments World : clear implicits.
Arguments M : clear implicits.
Arguments Ok {A} a.
Arguments Raise {A} e.

Section WithBackend.
Context {L : PyFloat} {B : Backend}.

(** [db.commit()] with a modified product row pending.  The engine never
    calls [rollback()], so a refused flush leaves the session inactive. *)
Definition commit_update (p : Product.t float) : M float unit :=
  bind connection (fun _ w =>
    match flush_error p with
    | Some msg => (Raise (DBAPIError msg), set_pending_rollback (Some msg) w)
    | None => (Ok tt, set_products (replace_product p (products w)) w)
    end).

(** [db.add(p); db.commit()]. *)
Definition commit_insert (p : Product.t float) : M float unit :=
  bind connection (fun _ w =>
    match flush_error p with
    | Some msg => (Raise (DBAPIError msg), set_pending_rollback (Some msg) w)
    | None => (Ok tt, set_products (products w ++ [p]) w)
    end).

End WithBackend.

Module Notations.
Notation "x <- c1 ;; c2" := (bind c1 (fun x => c2))
  (at level 100, c1 at next level, right associativity).
Notation "c1 ;;; c2" := (bind c1 (fun _ => c2))
  (at level 100, right associativity).
End Notations.

End Session.

(** ** The synchronisation engine ([class SyncEngine]) *)

Module SyncEngine.
Import Session Session.Notations.
Section WithBackend.
Context {L : PyFloat} {B : Backend}.
#[local] Abbreviation World := (Session.World float) (only parsing).
#[local] Abbreviation M := (Session.M float) (only parsing).

(** Microseconds in a [timedelta(minutes=m)]. *)
Definition minutes (m : Z) : Z := m * 60 * 1000000.

(** [SyncEngine._calculate_checksum]. *)
Definition _calculate_checksum (product_data : SyncProductItem.t float) : string :=
  let data_str :=
    SyncProductItem.name product_data +:+ "|" +:+
    float_str (SyncProductItem.mrp product_data) +:+ "|" +:+
    float_str (SyncProductItem.selling_price product_data) +:+ "|" +:+
    pretty (SyncProductItem.quantity product_data) in
  MD5.hexdigest data_str.

(** [SyncEngine._calculate_discount]. *)
Definition _calculate_discount (mrp selling_price : float) : float :=
  if fltb (float_of_Z 0) mrp then
    fround (fmul (fdiv (fsub mrp selling_price) mrp) (float_of_Z 100)) 2
  else float_of_Z 0.

(** Character classes of the two regular expressions of [_generate_slug]. *)
Definition is_upper (c : ascii) : bool :=
  let n := nat_of_ascii c in (65 <=? n)%nat && (n <=? 90)%nat.
Definition is_lower (c : ascii) : bool :=
  let n := nat_of_ascii c in (97 <=? n)%nat && (n <=? 122)%nat.
Definition is_digit (c : ascii) : bool :=
  let n := nat_of_ascii c in (48 <=? n)%nat && (n <=? 57)%nat.
Definition is_space (c : ascii) : bool :=
  let n := nat_of_ascii c in
  ((9 <=? n)%nat && (n <=? 13)%nat) || ((28 <=? n)%nat && (n <=? 32)%nat).
Definition is_hyphen (c : ascii) : bool := Ascii.eqb c "-"%char.

(** [str.lower()]. *)
Definition lower (c : ascii) : ascii :=
  if is_upper c then ascii_of_nat (nat_of_ascii c + 32) else c.

(** [re.sub(r'[\s-]+', '-', slug)]; [in_run] tells that the previous
    character belonged to the run being replaced. *)
Fixpoint collapse (in_run : bool) (s : list ascii) : list ascii :=
  match s with
  | [] => []
  | c :: s' =>
      if is_space c || is_hyphen c then
        if in_run then collapse true s' else "-"%char :: collapse true s'
      else c :: collapse false s'
  end.

Fixpoint lstrip (s : list ascii) : list ascii :=
  match s with
  | c :: s' => if is_hyphen c then lstrip s' else s
  | [] => []
  end.

(** [str.strip('-')]. *)
Definition strip (s : list ascii) : list ascii :=
  rev (lstrip (rev (lstrip s))).

(** [SyncEngine._generate_slug]. *)
Definition _generate_slug (name : string) : string :=
  let slug := map lower (list_ascii_of_string name) in
  let slug := List.filter (fun c => is_lower c || is_digit c || is_space c || is_hyphen c) slug in
  let slug := collapse false slug in
  string_of_list_ascii (take 500 (strip slug)).

(** [x or 0] on an [Optional[float]]. *)
Definition or_0 (x : option float) : float :=
  match x with
  | Some v => if feqb v (float_of_Z 0) then float_of_Z 0 else v
  | None => float_of_Z 0
  end.

(** [SyncEngine._update_product_fields]. *)
Definition _update_product_fields (product : Product.t float) (data : SyncProductItem.t float)
    : Product.t float :=
  {| Product.id := Product.id product;
     Product.store_id := Product.store_id product;
     Product.external_id := Product.external_id product;
     Product.name := SyncProductItem.name data;
     Product.slug := Product.slug product;
     Product.description := SyncProductItem.description data;
     Product.category_id := Product.category_id product;
     Product.mrp := SyncProductItem.mrp data;
     Product.selling_price := SyncProductItem.selling_price data;
     Product.discount_percent :=
       _calculate_discount (SyncProductItem.mrp data) (SyncProductItem.selling_price data);
     Product.quantity := SyncProductItem.quantity data;
     Product.unit := SyncProductItem.unit data;
     Product.sku := SyncProductItem.sku data;
     Product.barcode := SyncProductItem.barcode data;
     Product.hsn_code := SyncProductItem.hsn_code data;
     Product.gst_percent := or_0 (SyncProductItem.gst_percent data);
     Product.is_active := Product.is_active product;
     Product.is_in_stock := Product.is_in_stock product;
     Product.last_synced_at := Product.last_synced_at product;
     Product.sync_version := Product.sync_version product;
     Product.sync_checksum := Product.sync_checksum product;
     Product.created_at := Product.created_at product;
     Product.updated_at := Product.updated_at product |}.

(** The four assignments that follow [_update_product_fields] in the
    update branch of [_upsert_product], and the stock flag. *)
Definition stamp_update (p : Product.t float) (checksum : string) (t1 t2 : datetime)
    : Product.t float :=
  {| Product.id := Product.id p;
     Product.store_id := Product.store_id p;
     Product.external_id := Product.external_id p;
     Product.name := Product.name p;
     Product.slug := Product.slug p;
     Product.description := Product.description p;
     Product.category_id := Product.category_id p;
     Product.mrp := Product.mrp p;
     Product.selling_price := Product.selling_price p;
     Product.discount_percent := Product.discount_percent p;
     Product.quantity := Product.quantity p;
     Product.unit := Product.unit p;
     Product.sku := Product.sku p;
     Product.barcode := Product.barcode p;
     Product.hsn_code := Product.hsn_code p;
     Product.gst_percent := Product.gst_percent p;
     Product.is_active := Product.is_active p;
     Product.is_in_stock := 0 <? Product.quantity p;
     Product.last_synced_at := Some t1;
     Product.sync_version := Product.sync_version p + 1;
     Product.sync_checksum := Some checksum;
     Product.created_at := Product.created_at p;
     Product.updated_at := t2 |}.

(** The row built in the create branch of [_upsert_product]; [created]
    and [updated] are the column defaults taken at the insert.  The
    constructor is given neither the record's [category] nor its
    [updated_at]: [category_id] stays NULL. *)
Definition new_product (id store_id : UUID) (product_data : SyncProductItem.t float)
    (checksum : string) (synced created updated : datetime) : Product.t float :=
  {| Product.id := id;
     Product.store_id := store_id;
     Product.external_id := SyncProductItem.external_id product_data;
     Product.name := SyncProductItem.name product_data;
     Product.slug := _generate_slug (SyncProductItem.name product_data);
     Product.description := SyncProductItem.description product_data;
     Product.category_id := None;
     Product.mrp := SyncProductItem.mrp product_data;
     Product.selling_price := SyncProductItem.selling_price product_data;
     Product.discount_percent :=
       _calculate_discount (SyncProductItem.mrp product_data)
                           (SyncProductItem.selling_price product_data);
     Product.quantity := SyncProductItem.quantity product_data;
     Product.unit := SyncProductItem.unit product_data;
     Product.sku := SyncProductItem.sku product_data;
     Product.barcode := SyncProductItem.barcode product_data;
     Product.hsn_code := SyncProductItem.hsn_code product_data;
     Product.gst_percent := or_0 (SyncProductItem.gst_percent product_data);
     Product.is_active := true;
     Product.is_in_stock := 0 <? SyncProductItem.quantity product_data;
     Product.last_synced_at := Some synced;
     Product.sync_version := 1;
     Product.sync_checksum := Some checksum;
     Product.created_at := created;
     Product.updated_at := updated |}.

(** [SyncEngine._upsert_product]. *)
Definition _upsert_product (store_id : UUID) (product_data : SyncProductItem.t float)
    (sync_type : string) : M string :=
  w <- connection ;;
  let existing_product :=
    query_product store_id (SyncProductItem.external_id product_data) w in
  let checksum := _calculate_checksum product_data in
  match existing_product with
  | Some existing_product =>
      if String.eqb sync_type "delta"
         && bool_decide (Product.sync_checksum existing_product = Some checksum)
      then ret "updated"
      else
        let p := _update_product_fields existing_product product_data in
        t1 <- utcnow ;;
        t2 <- utcnow ;;
        commit_update (stamp_update p checksum t1 t2) ;;;
        ret "updated"
  | None =>
      id <- uuid4 ;;
      synced <- utcnow ;;
      created <- utcnow ;;
      updated <- utcnow ;;
      commit_insert (new_product id store_id product_data checksum synced created updated) ;;;
      ret "created"
  end.

(** The assignments of the fast path of [_update_inventory_only]. *)
Definition stamp_inventory (product : Product.t float) (quantity : Z) (t1 t2 : datetime)
    : Product.t float :=
  {| Product.id := Product.id product;
     Product.store_id := Product.store_id product;
     Product.external_id := Product.external_id product;
     Product.name := Product.name product;
     Product.slug := Product.slug product;
     Product.description := Product.description product;
     Product.category_id := Product.category_id product;
     Product.mrp := Product.mrp product;
     Product.selling_price := Product.selling_price product;
     Product.discount_percent := Product.discount_percent product;
     Product.quantity := quantity;
     Product.unit := Product.unit product;
     Product.sku := Product.sku product;
     Product.barcode := Product.barcode product;
     Product.hsn_code := Product.hsn_code product;
     Product.gst_percent := Product.gst_percent product;
     Product.is_active := Product.is_active product;
     Product.is_in_stock := 0 <? quantity;
     Product.last_synced_at := Some t1;
     Product.sync_version := Product.sync_version product;
     Product.sync_checksum := Product.sync_checksum product;
     Product.created_at := Product.created_at product;
     Product.updated_at := t2 |}.

(** [SyncEngine._update_inventory_only]. *)
Definition _update_inventory_only (store_id : UUID) (product_data : SyncProductItem.t float)
    : M string :=
  w <- connection ;;
  match query_product store_id (SyncProductItem.external_id product_data) w with
  | Some product =>
      t1 <- utcnow ;;
      t2 <- utcnow ;;
      commit_update (stamp_inventory product (SyncProductItem.quantity product_data) t1 t2) ;;;
      let cache_key := CacheKeys.inventory (uuid_str store_id) (uuid_str (Product.id product)) in
      redis_delete cache_key ;;;
      ret "updated"
  | None => _upsert_product store_id product_data "full"
  end.

(** The [stats] dictionary of [process_batch_sync]. *)
Record Stats := {
  processed : Z;
  created : Z;
  updated : Z;
  failed : Z;
  errors : list (string * string)
}.

Definition stats0 : Stats :=
  {| processed := 0; created := 0; updated := 0; failed := 0; errors := [] |}.

(** The counter updates of the [try] block after the record returned. *)
Definition count_success (stats : Stats) (success : string) : Stats :=
  let stats :=
    if String.eqb success "created" then
      {| processed := processed stats; created := created stats + 1;
         updated := updated stats; failed := failed stats; errors := errors stats |}
    else if String.eqb success "updated" then
      {| processed := processed stats; created := created stats;
         updated := updated stats + 1; failed := failed stats; errors := errors stats |}
    else stats in
  {| processed := processed stats + 1; created := created stats;
     updated := updated stats; failed := failed stats; errors := errors stats |}.

(** The [except] block. *)
Definition count_failure (stats : Stats) (external_id : string) (e : exn) : Stats :=
  {| processed := processed stats; created := created stats;
     updated := updated stats; failed := failed stats + 1;
     errors := errors stats ++ [(external_id, exn_str e)] |}.

(** The call made for one record, by [sync_type]. *)
Definition sync_record (store_id : UUID) (sync_type : string)
    (product_data : SyncProductItem.t float) : M string :=
  if String.eqb sync_type "inventory_only"
  then _update_inventory_only store_id product_data
  else _upsert_product store_id product_data sync_type.

(** One iteration of the loop of [process_batch_sync]. *)
Definition sync_one (store_id : UUID) (sync_type : string) (stats : Stats)
    (product_data : SyncProductItem.t float) : M Stats :=
  try_except
    (success <- sync_record store_id sync_type product_data ;;
     ret (count_success stats success))
    (fun e => ret (count_failure stats (SyncProductItem.external_id product_data) e)).

(** [for product_data in products: ...]. *)
Fixpoint sync_loop (store_id : UUID) (sync_type : string) (stats : Stats)
    (products : list (SyncProductItem.t float)) : M Stats :=
  match products with
  | [] => ret stats
  | product_data :: rest =>
      stats' <- sync_one store_id sync_type stats product_data ;;
      sync_loop store_id sync_type stats' rest
  end.

(** [SyncEngine._invalidate_store_cache]. *)
Definition _invalidate_store_cache (store_id : UUID) : M unit :=
  let pattern := "store:" +:+ uuid_str store_id +:+ ":product*" in
  redis_delete_pattern pattern.

(** The [status] expression of [_log_sync]. *)
Definition log_status (stats : Stats) : string :=
  if failed stats =? 0 then "success"
  else if 0 <? processed stats then "partial"
  else "failed".

(** [SyncEngine._log_sync]. *)
Definition _log_sync (store_id sync_id : UUID) (sync_type : string) (stats : Stats)
    (duration : Z) : M unit :=
  t1 <- utcnow ;;
  t2 <- utcnow ;;
  let sync_log :=
    {| SyncLog.id := sync_id;
       SyncLog.store_id := store_id;
       SyncLog.sync_type := sync_type;
       SyncLog.status := log_status stats;
       SyncLog.records_received := processed stats + failed stats;
       SyncLog.records_created := created stats;
       SyncLog.records_updated := updated stats;
       SyncLog.records_failed := failed stats;
       SyncLog.duration_seconds := duration;
       SyncLog.error_details :=
         match errors stats with [] => None | _ :: _ => Some (errors stats) end;
       SyncLog.started_at := t1 - duration;
       SyncLog.completed_at := t2 |} in
  commit_sync_log sync_log.

(** [SyncEngine._calculate_next_sync_time]. *)
Definition _calculate_next_sync_time (tier : option Tier.StoreTier) : M datetime :=
  let minutes_ := Tier.dict_get Tier.intervals tier 60 in
  now <- utcnow ;;
  ret (now + minutes minutes_).

Definition set_last_sync_at (store : Store.t) (t : datetime) : Store.t :=
  {| Store.id := Store.id store;
     Store.name := Store.name store;
     Store.sync_tier := Store.sync_tier store;
     Store.sync_interval_minutes := Store.sync_interval_minutes store;
     Store.last_sync_at := Some t;
     Store.sync_api_key := Store.sync_api_key store;
     Store.is_active := Store.is_active store;
     Store.updated_at := Store.updated_at store |}.

(** [SyncEngine.process_batch_sync]; durations are kept in microseconds. *)
Definition process_batch_sync (store_id : UUID) (sync_type : string)
    (products : list (SyncProductItem.t float)) : M SyncBatchResponse.t :=
  start_time <- utcnow ;;
  sync_id <- uuid4 ;;
  w <- connection ;;
  match query_store store_id w with
  | None => raise (ValueError "Store not found")
  | Some store =>
      stats <- sync_loop store_id sync_type stats0 products ;;
      now <- utcnow ;;
      commit_store (set_last_sync_at store now) ;;;
      _invalidate_store_cache store_id ;;;
      end_time <- utcnow ;;
      let duration := end_time - start_time in
      _log_sync store_id sync_id sync_type stats duration ;;;
      next_sync_at <- _calculate_next_sync_time (Store.sync_tier store) ;;
      ret {| SyncBatchResponse.success := failed stats =? 0;
             SyncBatchResponse.sync_id := sync_id;
             SyncBatchResponse.processed := processed stats;
             SyncBatchResponse.created := created stats;
             SyncBatchResponse.updated := updated stats;
             SyncBatchResponse.failed := failed stats;
             SyncBatchResponse.errors := errors stats;
             SyncBatchResponse.next_sync_recommended_at := next_sync_at;
             SyncBatchResponse.duration_seconds := duration |}
  end.

End WithBackend.
End SyncEngine.

(** ** The tier manager over the store ([class TierManager]) *)

Module TierManager.
Import Session Session.Notations.
Section WithBackend.
Context {L : PyFloat} {B : Backend}.
#[local] Abbreviation World := (Session.World float) (only parsing).
#[local] Abbreviation M := (Session.M float) (only parsing).

(** Microseconds in [timedelta(days=1)]. *)
Definition one_day : Z := 86400 * 1000000.

(** [TierManager._get_activity_metrics]. *)
Definition _get_activity_metrics (store_id : UUID) : M Tier.Metrics :=
  now <- utcnow ;;
  w <- connection ;;
  let day_ago := now - one_day in
  let orders_count :=
    length (List.filter (fun o => Nat.eqb (Order.store_id o) store_id
                                  && (day_ago <=? Order.created_at o)) (orders w)) in
  let products_updated :=
    length (List.filter (fun p => Nat.eqb (Product.store_id p) store_id
                                  && (day_ago <=? Product.updated_at p)) (products w)) in
  let total_products_ :=
    length (List.filter (fun p => Nat.eqb (Product.store_id p) store_id) (products w)) in
  ret {| Tier.orders_per_day := Z.of_nat orders_count;
         Tier.products_updated_per_day := Z.of_nat products_updated;
         Tier.total_products := Z.of_nat total_products_ |}.

Definition set_tier (store : Store.t) (tier : Tier.StoreTier) (interval : Z) : Store.t :=
  {| Store.id := Store.id store;
     Store.name := Store.name store;
     Store.sync_tier := Some tier;
     Store.sync_interval_minutes := interval;
     Store.last_sync_at := Store.last_sync_at store;
     Store.sync_api_key := Store.sync_api_key store;
     Store.is_active := Store.is_active store;
     Store.updated_at := Store.updated_at store |}.

(** [TierManager.evaluate_and_adjust_tier]. *)
Definition evaluate_and_adjust_tier (store_id : UUID) : M unit :=
  w <- connection ;;
  match query_store store_id w with
  | None => ret tt
  | Some store =>
      metrics <- _get_activity_metrics store_id ;;
      let new_tier := Tier._calculate_tier metrics in
      if bool_decide (Some new_tier = Store.sync_tier store) then ret tt
      else commit_store (set_tier store new_tier (Tier._get_sync_interval (Some new_tier)))
  end.

End WithBackend.
End TierManager.

(** ** The batch endpoint ([endpoints/sync.py]) *)

Module Endpoint.
Import Session Session.Notations.
Section WithBackend.
Context {L : PyFloat} {B : Backend}.
#[local] Abbreviation World := (Session.World float) (only parsing).
#[local] Abbreviation M := (Session.M float) (only parsing).

(** What the client receives. *)
Inductive response :=
| Http200 (data : SyncBatchResponse.t)
| HttpError (status_code : Z) (detail : string).

(** The payload of a 200 answer. *)
Definition data (r : response) : option SyncBatchResponse.t :=
  match r with
  | Http200 d => Some d
  | HttpError _ _ => None
  end.

(** [verify_sync_api_key]. *)
Definition verify_sync_api_key (x_api_key : string) : M Store.t :=
  w <- connection ;;
  match query_store_by_key x_api_key w with
  | None => raise (HTTPException 401 "Invalid API key")
  | Some store =>
      if Store.is_active store then ret store
      else raise (HTTPException 403 "Store is not active")
  end.

(** The body of [sync_products_batch] inside its [try]. *)
Definition sync_body (request : SyncBatchRequest.t float) (store : Store.t)
    : M SyncBatchResponse.t :=
  if negb (Nat.eqb (Store.id store) (SyncBatchRequest.store_id request)) then
    raise (HTTPException 403 "API key does not match store_id")
  else
    result <- SyncEngine.process_batch_sync (SyncBatchRequest.store_id request)
                (SyncBatchRequest.sync_type request)
                (SyncBatchRequest.products request) ;;
    TierManager.evaluate_and_adjust_tier (SyncBatchRequest.store_id request) ;;;
    ret result.

(** [POST /products/batch]: [get_db] opens the session of the request
    and closes it when the request is over; the dependency resolves the
    store from the key, the framework validates the body against
    [SyncBatchRequest] (status 422 on a validation error) and only then
    runs the handler. *)
Definition sync_products_batch (x_api_key : string) (body : SyncBatchRequest.raw float)
    (w : World) : response * World :=
  let db := SessionLocal w in
  let '(response, db') :=
    match verify_sync_api_key x_api_key db with
    | (Raise e, w1) =>
        (match e with
         | HTTPException code detail => HttpError code detail
         | _ => HttpError 500 (exn_str e)
         end, w1)
    | (Ok store, w1) =>
        match SyncBatchRequest.validate body with
        | None => (HttpError 422 "validation error", w1)
        | Some request =>
            match sync_body request store w1 with
            | (Ok result, w2) => (Http200 result, w2)
            | (Raise (ValueError msg), w2) => (HttpError 400 msg, w2)
            | (Raise _, w2) => (HttpError 500 "Sync operation failed", w2)
            end
        end
    end in
  (response, close db').

End WithBackend.
End Endpoint.

(** ** Concrete instances, used to run the model *)

(** Prices with at most two decimals, held as a count of hundredths;
    products and quotients are cut to hundredths.  On such prices the
    formatting below is the one Python prints ([100.0], [75.5], [0.25]). *)
Module Decimal.

Definition of_Z (n : Z) : Z := 100 * n.
Definition mul (a b : Z) : Z := a * b / 100.
Definition div (a b : Z) : Z := a * 100 / b.

(** [round(x, ndigits)], halves to even. *)
Definition round (x ndigits : Z) : Z :=
  if 2 <=? ndigits then x
  else
    let u := 10 ^ (2 - ndigits) in
    let q := x / u in
    let r := x mod u in
    if 2 * r <? u then q * u
    else if u <? 2 * r then (q + 1) * u
    else if Z.even q then q * u else (q + 1) * u.

Definition str (x : Z) : string :=
  let a := Z.abs x in
  let r := a mod 100 in
  (if x <? 0 then "-" else "") +:+ pretty (a / 100) +:+ "." +:+
  (if r mod 10 =? 0 then pretty (r / 10) else pretty (r / 10) +:+ pretty (r mod 10)).

Definition lib : PyFloat :=
  {| float := Z;
     float_of_Z := of_Z;
     fsub := Z.sub;
     fdiv := div;
     fmul := mul;
     feqb := Z.eqb;
     fltb := Z.ltb;
     fleb := Z.leb;
     fround := round;
     float_str := str |}.

End Decimal.

(** The column types of [models.py] as PostgreSQL enforces them on a
    flush: [String(n)] columns and 32-bit [Integer] columns. *)
Module Postgres.
Section WithLib.
Context {L : PyFloat}.

Definition varchar (n : nat) (s : string) : bool := (String.length s <=? n)%nat.

Definition varchar_null (n : nat) (s : option string) : bool :=
  match s with
  | Some v => varchar n v
  | None => true
  end.

Definition integer (x : Z) : bool := (-2147483648 <=? x) && (x <=? 2147483647).

Definition check (p : Product.t float) : option string :=
  if negb (varchar 100 (Product.external_id p)) then
    Some "value too long for type character varying(100)"
  else if negb (varchar 500 (Product.name p) && varchar 500 (Product.slug p)) then
    Some "value too long for type character varying(500)"
  else if negb (varchar_null 50 (Product.unit p)) then
    Some "value too long for type character varying(50)"
  else if negb (varchar_null 100 (Product.sku p) && varchar_null 100 (Product.barcode p)) then
    Some "value too long for type character varying(100)"
  else if negb (varchar_null 20 (Product.hsn_code p)) then
    Some "value too long for type character varying(20)"
  else if negb (varchar_null 64 (Product.sync_checksum p)) then
    Some "value too long for type character varying(64)"
  else if negb (integer (Product.quantity p) && integer (Product.sync_version p)) then
    Some "integer out of range"
  else None.

Definition backend : Backend := {| flush_error := check |}.

End WithLib.
End Postgres.

(** Sample data for the examples. *)
Module Sample.

#[local] Existing Instance Decimal.lib.
#[local] Existing Instance Postgres.backend.

Definition item (external_id name : string) (mrp selling_price quantity : Z)
    : SyncProductItem.t float :=
  {| SyncProductItem.external_id := external_id;
     SyncProductItem.name := name;
     SyncProductItem.description := None;
     SyncProductItem.mrp := mrp;
     SyncProductItem.selling_price := selling_price;
     SyncProductItem.quantity := quantity;
     SyncProductItem.unit := Some "kg";
     SyncProductItem.sku := None;
     SyncProductItem.barcode := None;
     SyncProductItem.category := None;
     SyncProductItem.hsn_code := None;
     SyncProductItem.gst_percent := Some 500;
     SyncProductItem.updated_at := None |}.

(** Basmati rice, MRP 100.0 sold at 75.0, forty in stock. *)
Definition rice : SyncProductItem.t float := item "P-001" "Basmati Rice 5kg" 10000 7500 40.
Definition dal : SyncProductItem.t float := item "P-002" "Toor Dal 1kg" 20000 15000 12.
Definition oil : SyncProductItem.t float := item "P-003" "Sunflower Oil 1L" 25000 20000 0.

Definition raw_item (external_id : option string) (name : string)
    (mrp selling_price quantity : Z) : RawItem.t float :=
  {| RawItem.external_id := external_id;
     RawItem.name := Some name;
     RawItem.description := None;
     RawItem.mrp := Some mrp;
     RawItem.selling_price := Some selling_price;
     RawItem.quantity := Some quantity;
     RawItem.unit := Some "kg";
     RawItem.sku := None;
     RawItem.barcode := None;
     RawItem.category := None;
     RawItem.hsn_code := None;
     RawItem.gst_percent := Some (Some 500);
     RawItem.updated_at := None |}.

Definition store : Store.t :=
  {| Store.id := 1%nat;
     Store.name := "Corner Store";
     Store.sync_tier := Some Tier.TIER3;
     Store.sync_interval_minutes := 30;
     Store.last_sync_at := Some 1000;
     Store.sync_api_key := "sk-corner-store";
     Store.is_active := true;
     Store.updated_at := 900 |}.

(** A store with an empty catalog and a connected, empty cache. *)
Definition world0 : Session.World float :=
  {| Session.stores := [store];
     Session.products := [];
     Session.orders := [];
     Session.sync_logs := [];
     Session.redis_client := RateLimit.fresh;
     Session.clock := 5000;
     Session.next_uuid := 100%nat;
     Session.pending_rollback := None |}.

(** An external id of 101 characters: accepted by the schema, too long for
    the [String(100)] column. *)
Definition long_id : string :=
  string_of_list_ascii (replicate 101 "9"%char).

Definition batch : list (SyncProductItem.t float) := [rice; dal; oil].

(** The catalog after a full sync of [batch]. *)
Definition world1 : Session.World float :=
  Eval vm_compute in snd (SyncEngine.process_batch_sync 1%nat "full" batch world0).

(** What that sync answered. *)
Definition response1 : SyncBatchResponse.t :=
  {| SyncBatchResponse.success := true;
     SyncBatchResponse.sync_id := 100%nat;
     SyncBatchResponse.processed := 3;
     SyncBatchResponse.created := 3;
     SyncBatchResponse.updated := 0;
     SyncBatchResponse.failed := 0;
     SyncBatchResponse.errors := [];
     SyncBatchResponse.next_sync_recommended_at := 3600005015;
     SyncBatchResponse.duration_seconds := 12 |}.

(** The row it stored for the rice. *)
Definition rice_row : Product.t float :=
  Eval vm_compute in
    SyncEngine.new_product 101%nat 1%nat rice (SyncEngine._calculate_checksum rice)
      5001 5002 5003.

(** The rice again with five sold, and then with a new price. *)
Definition rice35 : SyncProductItem.t float := item "P-001" "Basmati Rice 5kg" 10000 7500 35.
Definition rice80 : SyncProductItem.t float := item "P-001" "Basmati Rice 5kg" 10000 8000 35.

(** Ten records; [fifth] stands at position five. *)
Definition ten {A : Type} (mk : string -> A) (fifth : A) : list A :=
  [mk "P-001"; mk "P-002"; mk "P-003"; mk "P-004"; fifth;
   mk "P-006"; mk "P-007"; mk "P-008"; mk "P-009"; mk "P-010"].

Definition jaggery (external_id : string) : SyncProductItem.t float :=
  item external_id "Jaggery 1kg" 6000 4500 8.

Definition raw_jaggery (external_id : option string) : RawItem.t float :=
  raw_item external_id "Jaggery 1kg" 6000 4500 8.

Definition body (products : list (RawItem.t float)) : SyncBatchRequest.raw float :=
  {| SyncBatchRequest.raw_store_id := 1%nat;
     SyncBatchRequest.raw_sync_type := "delta";
     SyncBatchRequest.raw_timestamp := 4000;
     SyncBatchRequest.raw_products := products |}.

(** Record five has no externalId. *)
Definition body_missing_id : SyncBatchRequest.raw float :=
  body (ten (fun e => raw_jaggery (Some e)) (raw_jaggery None)).


Definition items_long_id : list (SyncProductItem.t float) := ten jaggery (jaggery long_id).

End Sample.

(** ** Auxiliary notions for the statements *)

(** The counter of a rate-limit key holds [c] and, once set, outlives the
    window [k]. *)
Definition counting (key : string) (window k c : Z) (srv : Redis.Server) : Prop :=
  Redis.reachable srv = true /\
  if decide (c = 0) then Redis.keys srv !! key = None
  else exists e, Redis.keys srv !! key
                 = Some {| Redis.value := Redis.RInt c; Redis.expire_at := Some e |}
                 /\ (k + 1) * window <= e.

(** What a step of the engine leaves alone: the other tables; the clock
    and the identifier supply only move forward. *)
Definition frame {L : PyFloat} (w w' : Session.World float) : Prop :=
  Session.stores w' = Session.stores w /\
  Session.orders w' = Session.orders w /\
  Session.sync_logs w' = Session.sync_logs w /\
  Session.clock w <= Session.clock w' /\
  (Session.next_uuid w <= Session.next_uuid w')%nat.

(** Primary keys of the products table are unique and were drawn from the
    identifier supply. *)
Definition wf {L : PyFloat} (w : Session.World float) : Prop :=
  NoDup (map Product.id (Session.products w)) /\
  Forall (fun p => (Product.id p < Session.next_uuid w)%nat) (Session.products w).

(** The record [item] is stored for the store with its own fingerprint. *)
Definition synced {L : PyFloat} (store_id : UUID) (item : SyncProductItem.t float)
    (w : Session.World float) : Prop :=
  exists p, Session.query_product store_id (SyncProductItem.external_id item) w = Some p
            /\ Product.sync_checksum p = Some (SyncEngine._calculate_checksum item).

(** How the counters move over a run of the loop on [items]: every record
    is counted once, as processed or as failed; a processed record is
    counted as created or as updated; a failed one leaves an entry in
    [errors] under its external id. *)
Definition tally {L : PyFloat} (stats stats' : SyncEngine.Stats)
    (items : list (SyncProductItem.t float)) : Prop :=
  SyncEngine.processed stats' + SyncEngine.failed stats'
  = SyncEngine.processed stats + SyncEngine.failed stats + Z.of_nat (length items)
  /\ SyncEngine.processed stats <= SyncEngine.processed stats'
  /\ SyncEngine.failed stats <= SyncEngine.failed stats'
  /\ SyncEngine.created stats <= SyncEngine.created stats'
  /\ SyncEngine.updated stats <= SyncEngine.updated stats'
  /\ SyncEngine.created stats' + SyncEngine.updated stats'
     - (SyncEngine.created stats + SyncEngine.updated stats)
     = SyncEngine.processed stats' - SyncEngine.processed stats
  /\ exists es,
       SyncEngine.errors stats' = SyncEngine.errors stats ++ es
       /\ Z.of_nat (length es) = SyncEngine.failed stats' - SyncEngine.failed stats
       /\ Forall (fun e => In (fst e) (map SyncProductItem.external_id items)) es.

(** The world in which the loop of [process_batch_sync] starts: the start
    time was read and the sync id drawn. *)
Definition started {L : PyFloat} (w : Session.World float) : Session.World float :=
  snd (Session.uuid4 (snd (Session.utcnow w))).

(** The store row written at the end of a session whose loop ended in
    [w1]: [last_sync_at] is the reading that follows the loop and
    [updated_at] the one taken by the UPDATE. *)
Definition stamped_store {L : PyFloat} (store : Store.t) (w1 : Session.World float)
    : Store.t :=
  Session.onupdate (SyncEngine.set_last_sync_at store (Session.clock w1))
    (Session.clock w1 + 1).

(** What a session that returns leaves behind, the loop having ended in
    [w1] with the counters [stats]: the response [resp], the world [w'] and
    the row [log] appended to the sync log. *)
Definition completes {L : PyFloat} (store_id : UUID) (sync_type : string)
    (store : Store.t) (stats : SyncEngine.Stats) (w1 : Session.World float)
    (resp : SyncBatchResponse.t) (w' : Session.World float) (log : SyncLog.t) : Prop :=
  (SyncBatchResponse.success resp = (SyncEngine.failed stats =? 0)
   /\ SyncBatchResponse.processed resp = SyncEngine.processed stats
   /\ SyncBatchResponse.created resp = SyncEngine.created stats
   /\ SyncBatchResponse.updated resp = SyncEngine.updated stats
   /\ SyncBatchResponse.failed resp = SyncEngine.failed stats
   /\ SyncBatchResponse.errors resp = SyncEngine.errors stats
   /\ SyncBatchResponse.next_sync_recommended_at resp
      = Session.clock w1 + 5
        + SyncEngine.minutes (Tier._get_sync_interval (Store.sync_tier store)))
  /\ Session.products w' = Session.products w1
  /\ Session.stores w'
     = Session.replace_store (stamped_store store w1) (Session.stores w1)
  /\ Session.sync_logs w' = Session.sync_logs w1 ++ [log]
  /\ (SyncLog.store_id log = store_id
      /\ SyncLog.sync_type log = sync_type
      /\ SyncLog.status log = SyncEngine.log_status stats
      /\ SyncLog.records_received log
         = SyncEngine.processed stats + SyncEngine.failed stats
      /\ SyncLog.records_created log = SyncEngine.created stats
      /\ SyncLog.records_updated log = SyncEngine.updated stats
      /\ SyncLog.records_failed log = SyncEngine.failed stats
      /\ SyncLog.error_details log
         = match SyncEngine.errors stats with
           | [] => None
           | _ :: _ => Some (SyncEngine.errors stats)
           end)
  /\ Session.redis_client w'
     = snd (Redis.delete_pattern ("store:" +:+ uuid_str store_id +:+ ":product*")
              (Session.redis_client w1))
  /\ Session.orders w' = Session.orders w1
  /\ Session.clock w' = Session.clock w1 + 6
  /\ Session.next_uuid w' = Session.next_uuid w1
  /\ Session.pending_rollback w' = None.

(** The rows the engine hands to the store for a record in world [w]:
    on a create, on an update and on the inventory-only fast path. *)
Definition created_row {L : PyFloat} (store_id : UUID) (item : SyncProductItem.t float)
    (w : Session.World float) : Product.t float :=
  SyncEngine.new_product (Session.next_uuid w) store_id item
    (SyncEngine._calculate_checksum item)
    (Session.clock w) (Session.clock w + 1) (Session.clock w + 1 + 1).

Definition updated_row {L : PyFloat} (p : Product.t float) (item : SyncProductItem.t float)
    (w : Session.World float) : Product.t float :=
  SyncEngine.stamp_update (SyncEngine._update_product_fields p item)
    (SyncEngine._calculate_checksum item) (Session.clock w) (Session.clock w + 1).

Definition restocked_row {L : PyFloat} (p : Product.t float) (item : SyncProductItem.t float)
    (w : Session.World float) : Product.t float :=
  SyncEngine.stamp_inventory p (SyncProductItem.quantity item)
    (Session.clock w) (Session.clock w + 1).

(** Successive calls of [_upsert_product], one per record. *)
Fixpoint upserts {L : PyFloat} {B : Backend} (store_id : UUID) (sync_type : string)
    (items : list (SyncProductItem.t float)) : Session.M float (list string) :=
  match items with
  | [] => Session.ret []
  | item :: rest =>
      Session.bind (SyncEngine._upsert_product store_id item sync_type) (fun outcome =>
      Session.bind (upserts store_id sync_type rest) (fun outcomes =>
      Session.ret (outcome :: outcomes)))
  end.

(** Every fingerprint of the list differs from the one stored before it. *)
Fixpoint fresh_chain (prev : option string) (cs : list string) : Prop :=
  match cs with
  | [] => True
  | c :: cs' => prev <> Some c /\ fresh_chain (Some c) cs'
  end.

(** The version and fingerprint stored for a key, 0 and [None] when the
    item does not exist. *)
Definition stored_version {L : PyFloat} (store_id : UUID) (ext : string)
    (w : Session.World float) : Z :=
  match Session.query_product store_id ext w with
  | Some p => Product.sync_version p
  | None => 0
  end.

Definition stored_checksum {L : PyFloat} (store_id : UUID) (ext : string)
    (w : Session.World float) : option string :=
  match Session.query_product store_id ext w with
  | Some p => Product.sync_checksum p
  | None => None
  end.

(** What the [n]-th request of a window is answered. *)
Definition nth_answer (limit window k n : Z) : bool * Z * Z :=
  (n <=? limit, Z.max 0 (limit - n), (k + 1) * window).

(** ** The rate-limit middleware ([RateLimitMiddleware.dispatch]) *)

Module RateLimitMiddleware.

(** The rate-limit settings of [core/config.py]. *)
Record Settings := {
  RATE_LIMIT_ENABLED : bool;
  RATE_LIMIT_TIER1_SYNC : Z;
  RATE_LIMIT_TIER2_SYNC : Z;
  RATE_LIMIT_TIER3_SYNC : Z;
  RATE_LIMIT_STOREFRONT : Z;
  RATE_LIMIT_DASHBOARD : Z
}.

(** The values of [class Settings]. *)
Definition settings : Settings :=
  {| RATE_LIMIT_ENABLED := true;
     RATE_LIMIT_TIER1_SYNC := 1000;
     RATE_LIMIT_TIER2_SYNC := 500;
     RATE_LIMIT_TIER3_SYNC := 200;
     RATE_LIMIT_STOREFRONT := 100;
     RATE_LIMIT_DASHBOARD := 200 |}.

(** What the middleware reads of a request: [request.url.path], the
    attributes [store_tier] and [store_id] of [request.state] when they
    are set, and [request.client.host] when there is a client. *)
Record Request := {
  path : string;
  store_tier : option string;
  store_id : option string;
  client_host : option string
}.

(** [sub in s] on strings. *)
Fixpoint contains (sub s : string) : bool :=
  String.prefix sub s
  || match s with
     | EmptyString => false
     | String _ s' => contains sub s'
     end.

(** [get_rate_limit]: the pair (limit, window), [None] for the pair
    [(None, None)]. *)
Definition get_rate_limit (settings : Settings) (request : Request) : option (Z * Z) :=
  if contains "/api/v1/sync/" (path request) then
    let store_tier := default "tier3" (store_tier request) in
    if String.eqb store_tier "tier1" then Some (RATE_LIMIT_TIER1_SYNC settings, 60)
    else if String.eqb store_tier "tier2" then Some (RATE_LIMIT_TIER2_SYNC settings, 60)
    else Some (RATE_LIMIT_TIER3_SYNC settings, 60)
  else if contains "/api/v1/storefront/" (path request) then
    Some (RATE_LIMIT_STOREFRONT settings, 60)
  else if contains "/api/v1/dashboard/" (path request) then
    Some (RATE_LIMIT_DASHBOARD settings, 60)
  else None.

(** [get_identifier]. *)
Definition get_identifier (request : Request) : string :=
  if contains "/api/v1/sync/" (path request) then default "unknown" (store_id request)
  else default "unknown" (client_host request).

Section Dispatch.

(** The rest of the application: its state [S], its responses [R] and the
    assignment [response.headers[name] = value]. *)
Context {S R : Type}.
Variable set_header : string -> string -> R -> R.

(** What [dispatch] hands back: a response, or the [HTTPException] with
    status 429 and its [retry_after]. *)
Inductive outcome :=
| Returned (response : R)
| TooManyRequests (retry_after : Z).

(** [RateLimitMiddleware.dispatch]; [now] is the clock read by
    [check_rate_limit], [now'] the one read when the exception is built. *)
Definition dispatch (settings : Settings) (call_next : Request -> S -> R * S)
    (request : Request) (now now' : Z) (st : Redis.RedisClient * S)
    : outcome * (Redis.RedisClient * S) :=
  let '(redis_client, s) := st in
  if negb (RATE_LIMIT_ENABLED settings) then
    let '(response, s') := call_next request s in (Returned response, (redis_client, s'))
  else if String.eqb (path request) "/health" || String.eqb (path request) "/" then
    let '(response, s') := call_next request s in (Returned response, (redis_client, s'))
  else
    match get_rate_limit settings request with
    | Some (limit, window) =>
        if limit =? 0 then
          let '(response, s') := call_next request s in
          (Returned response, (redis_client, s'))
        else
          let identifier := get_identifier request in
          let '((allowed, remaining, reset_time), redis_client') :=
            RateLimit.check_rate_limit identifier (path request) limit window now
              redis_client in
          let '(response, s') := call_next request s in
          let response := set_header "X-RateLimit-Limit" (pretty limit) response in
          let response := set_header "X-RateLimit-Remaining" (pretty remaining) response in
          let response := set_header "X-RateLimit-Reset" (pretty reset_time) response in
          if negb allowed then (TooManyRequests (reset_time - now'), (redis_client', s'))
          else (Returned response, (redis_client', s'))
    | None =>
        let '(response, s') := call_next request s in
        (Returned response, (redis_client, s'))
    end.

End Dispatch.

Arguments outcome : clear implicits.
Arguments Returned {R} response.
Arguments TooManyRequests {R} retry_after.

End RateLimitMiddleware.

(** The cache does not answer for [key]: there is no connection, the
    server is unreachable, or the key holds something that is not a
    counter. *)
Definition cache_fails (key : string) (now : Z) (client : Redis.RedisClient) : Prop :=
  match client with
  | None => True
  | Some srv =>
      Redis.reachable srv = false
      \/ exists e s, Redis.lookup_live now srv key
                     = Some {| Redis.value := Redis.RStr s; Redis.expire_at := e |}
  end.

(** ** String values in the cache ([RedisClient.get], [RedisClient.set]) *)

Module RedisClient.
Import Redis.

(** The integer a string of digits (with an optional minus sign) reads as. *)
Definition read_digits (s : string) : Z :=
  fold_left (fun acc c => 10 * acc + (Z.of_nat (nat_of_ascii c) - 48))
            (list_ascii_of_string s) 0.

Definition read_int (s : string) : Z :=
  match s with
  | String "-"%char s' => - read_digits s'
  | _ => read_digits s
  end.

(** How the server holds a string: as a counter when it is the decimal
    print of an integer (the strings INCRBY accepts), as text otherwise. *)
Definition of_string (s : string) : RedisVal :=
  let n := read_int s in
  if String.eqb (pretty n) s then RInt n else RStr s.

(** What the server returns for a value (responses are decoded). *)
Definition to_string (v : RedisVal) : string :=
  match v with
  | RInt n => pretty n
  | RStr s => s
  end.

(** The commands; [None] stands for a raised error.  SETEX refuses an
    expire time that is not positive. *)
Definition GET (key : string) (now : Z) (srv : Server) : option (option string) :=
  if negb (reachable srv) then None
  else Some (to_string <$> (value <$> lookup_live now srv key)).

Definition SET (key value : string) (srv : Server) : option (bool * Server) :=
  if negb (reachable srv) then None
  else Some (true,
             {| reachable := reachable srv;
                keys := <[key := {| Redis.value := of_string value;
                                    expire_at := None |}]> (keys srv) |}).

Definition SETEX (key : string) (ttl : Z) (value : string) (now : Z) (srv : Server)
    : option (bool * Server) :=
  if negb (reachable srv) then None
  else if ttl <=? 0 then None
  else Some (true,
             {| reachable := reachable srv;
                keys := <[key := {| Redis.value := of_string value;
                                    expire_at := Some (now + ttl) |}]> (keys srv) |}).

Definition EXISTS (key : string) (now : Z) (srv : Server) : option Z :=
  if negb (reachable srv) then None
  else Some (match lookup_live now srv key with Some _ => 1 | None => 0 end).

(** [RedisClient.get]. *)
Definition get (key : string) (now : Z) (self : Redis.RedisClient) : option string :=
  match self with
  | None => None
  | Some srv =>
      match GET key now srv with
      | Some v => v
      | None => None
      end
  end.

(** [RedisClient.set(key, value, ttl=None)]. *)
Definition set (key value : string) (ttl : option Z) (now : Z) (self : Redis.RedisClient)
    : bool * Redis.RedisClient :=
  match self with
  | None => (false, self)
  | Some srv =>
      match (if truthy ttl then SETEX key (default 0 ttl) value now srv
             else SET key value srv) with
      | Some (r, srv') => (r, Some srv')
      | None => (false, self)
      end
  end.

(** [RedisClient.exists]. *)
Definition exists_ (key : string) (now : Z) (self : Redis.RedisClient) : bool :=
  match self with
  | None => false
  | Some srv =>
      match EXISTS key now srv with
      | Some n => 0 <? n
      | None => false
      end
  end.

End RedisClient.

(** ** The sync agent ([sync-agent/sync_agent.py]) *)

Module SyncAgent.

(** [range(start, stop, step)] for a positive step. *)
Definition range (start stop step : nat) : list nat :=
  map (fun j => start + j * step)%nat (seq 0 ((stop - start + step - 1) / step)).

(** The slice [l[i:j]] for [i <= j]. *)
Definition slice {A : Type} (l : list A) (i j : nat) : list A :=
  take (j - i) (drop i l).

Definition batch_size : nat := 1000.

(** The batches of [sync_products]:
    [[products[i:i + batch_size] for i in range(0, len(products), batch_size)]]. *)
Definition batches {A : Type} (products : list A) : list (list A) :=
  map (fun i => slice products i (i + batch_size)) (range 0 (length products) batch_size).

(** The payload posted for a batch. *)
Definition payload {F : Type} (store_id : UUID) (sync_type : string) (now : datetime)
    (batch : list (RawItem.t F)) : SyncBatchRequest.raw F :=
  {| SyncBatchRequest.raw_store_id := store_id;
     SyncBatchRequest.raw_sync_type := sync_type;
     SyncBatchRequest.raw_timestamp := now;
     SyncBatchRequest.raw_products := batch |}.

End SyncAgent.

(** ** Further notions: slugs *)

(** The characters of a slug. *)
Definition slug_char (c : ascii) : bool :=
  SyncEngine.is_lower c || SyncEngine.is_digit c || SyncEngine.is_hyphen c.

(** No two hyphens in a row. *)
Fixpoint no_double_hyphen (s : list ascii) : bool :=
  match s with
  | c :: s' =>
      match s' with
      | d :: _ => negb (SyncEngine.is_hyphen c && SyncEngine.is_hyphen d)
      | [] => true
      end && no_double_hyphen s'
  | [] => true
  end.

(** ** Further notions: the products table *)

(** The stock flag of a row agrees with its quantity. *)
Definition stock_ok {F : Type} (p : Product.t F) : Prop :=
  Product.is_in_stock p = (0 <? Product.quantity p).

(** The key of the unique index [idx_product_store_external]. *)
Definition index_key {F : Type} (p : Product.t F) : UUID * string :=
  (Product.store_id p, Product.external_id p).


(** The key resolves to an active store and the body validates as a
    request for that very store. *)
Definition authorised {L : PyFloat} (x_api_key : string)
    (body : SyncBatchRequest.raw float) (w : Session.World float) : Prop :=
  exists store request,
    Session.query_store_by_key x_api_key w = Some store
    /\ Store.is_active store = true
    /\ SyncBatchRequest.validate body = Some request
    /\ Store.id store = SyncBatchRequest.store_id request.

(** [pattern] matches [key] in the sense of the KEYS command. *)
Definition matches (pattern key : string) : bool :=
  Redis.glob (list_ascii_of_string pattern) (list_ascii_of_string key).

(** The special characters of the globs of the KEYS command. *)
Definition special (c : ascii) : bool :=
  Ascii.eqb c "*" || Ascii.eqb c "?" || Ascii.eqb c "[" || Ascii.eqb c "\".

(** A string without any of them stands for itself in a pattern. *)
Definition literal (s : string) : bool :=
  forallb (fun c => negb (special c)) (list_ascii_of_string s).

(** ** Sample requests and caches *)

Module Scenario.

#[local] Existing Instance Decimal.lib.
#[local] Existing Instance Postgres.backend.

(** The rice of the sample batch with a description added. *)
Definition rice_described : SyncProductItem.t float :=
  {| SyncProductItem.external_id := "P-001";
     SyncProductItem.name := "Basmati Rice 5kg";
     SyncProductItem.description := Some "Aged two years";
     SyncProductItem.mrp := 10000;
     SyncProductItem.selling_price := 7500;
     SyncProductItem.quantity := 40;
     SyncProductItem.unit := Some "bag";
     SyncProductItem.sku := Some "RICE-5";
     SyncProductItem.barcode := None;
     SyncProductItem.category := Some "Grains";
     SyncProductItem.hsn_code := None;
     SyncProductItem.gst_percent := Some 1200;
     SyncProductItem.updated_at := None |}.

(** The same record carrying the time of its last change at the
    point of sale. *)
Definition rice_dated : SyncProductItem.t float :=
  {| SyncProductItem.external_id := "P-001";
     SyncProductItem.name := "Basmati Rice 5kg";
     SyncProductItem.description := Some "Aged two years";
     SyncProductItem.mrp := 10000;
     SyncProductItem.selling_price := 7500;
     SyncProductItem.quantity := 40;
     SyncProductItem.unit := Some "bag";
     SyncProductItem.sku := Some "RICE-5";
     SyncProductItem.barcode := None;
     SyncProductItem.category := Some "Grains";
     SyncProductItem.hsn_code := None;
     SyncProductItem.gst_percent := Some 1200;
     SyncProductItem.updated_at := Some 4000 |}.







Definition aborted : Session.World float :=
  Eval vm_compute in
    snd (SyncEngine.process_batch_sync 1%nat "delta" Sample.items_long_id Sample.world0).

(** A body of one record, and the request it validates to. *)
Definition body1 : SyncBatchRequest.raw float :=
  Sample.body [Sample.raw_jaggery (Some "P-001")].

Definition request1 : SyncBatchRequest.t float :=
  {| SyncBatchRequest.store_id := 1%nat;
     SyncBatchRequest.sync_type := "delta";
     SyncBatchRequest.timestamp := 4000;
     SyncBatchRequest.products := [Sample.jaggery "P-001"] |}.

(** The same body sent for another store. *)
Definition body_other_store : SyncBatchRequest.raw float :=
  {| SyncBatchRequest.raw_store_id := 2%nat;
     SyncBatchRequest.raw_sync_type := "delta";
     SyncBatchRequest.raw_timestamp := 4000;
     SyncBatchRequest.raw_products := [Sample.raw_jaggery (Some "P-001")] |}.

Definition entry (s : string) : Redis.Entry :=
  {| Redis.value := Redis.RStr s; Redis.expire_at := None |}.

(** A cache that holds a product page and a stock figure of store 1. *)
Definition product_cache : Redis.Server :=
  {| Redis.reachable := true;
     Redis.keys := <["store:1:product:101" := entry "rice"]>
                     (<["store:1:inventory:101" := entry "40"]> ∅) |}.




(** A server that does not answer. *)
Definition down : Redis.Server := {| Redis.reachable := false; Redis.keys := ∅ |}.

(** A counter that stands at 3 and expires at second 180. *)
Definition counter3 : Redis.Server :=
  {| Redis.reachable := true;
     Redis.keys := <["hits" := {| Redis.value := Redis.RInt 3;
                                  Redis.expire_at := Some 180 |}]> ∅ |}.

(** A storefront request, and a cache in which its caller has used up the
    100 requests of minute 2. *)
Definition storefront_request : RateLimitMiddleware.Request :=
  {| RateLimitMiddleware.path := "/api/v1/storefront/products";
     RateLimitMiddleware.store_tier := None;
     RateLimitMiddleware.store_id := None;
     RateLimitMiddleware.client_host := Some "10.0.0.7" |}.

Definition used_up : Redis.Server :=
  {| Redis.reachable := true;
     Redis.keys := <["ratelimit:10.0.0.7:/api/v1/storefront/products:2"
                     := {| Redis.value := Redis.RInt 100;
                           Redis.expire_at := Some 190 |}]> ∅ |}.

(** A request outside the three rate-limited prefixes. *)
Definition orders_request : RateLimitMiddleware.Request :=
  {| RateLimitMiddleware.path := "/api/v1/orders/42";
     RateLimitMiddleware.store_tier := None;
     RateLimitMiddleware.store_id := None;
     RateLimitMiddleware.client_host := Some "10.0.0.7" |}.

(** An application that counts the requests it handles; a response is its
    list of headers. *)
Definition call_next (request : RateLimitMiddleware.Request) (handled : nat)
    : list (string * string) * nat :=
  ([("content-type", "application/json")], S handled).

Definition set_header (name value : string) (response : list (string * string))
    : list (string * string) :=
  (name, value) :: response.

(** Quiet and busy days. *)
Definition quiet : Tier.Metrics :=
  {| Tier.orders_per_day := 2; Tier.products_updated_per_day := 3;
     Tier.total_products := 40 |}.
Definition busy : Tier.Metrics :=
  {| Tier.orders_per_day := 60; Tier.products_updated_per_day := 5;
     Tier.total_products := 40 |}.

End Scenario.

(** ** Properties *)

(** C6: tier classification is a total function of the two trailing-24h
    counters only, decided top down by the first matching threshold row
    (50/100 -> tier1, 5 min; 20/30 -> tier2, 15 min; 5/10 -> tier3, 60 min;
    otherwise tier4, 240 min); orders=60, mutations=5 gives tier1 and
    orders=0, mutations=0 gives tier4 with interval 240. *)
Theorem C6_tier_first_match :
  (forall m : Tier.Metrics,
      Tier.classify m =
      Tier.classify_spec (Tier.orders_per_day m) (Tier.products_updated_per_day m))
  /\ (forall t : Z,
        Tier.classify {| Tier.orders_per_day := 60;
                         Tier.products_updated_per_day := 5;
                         Tier.total_products := t |} = (Tier.TIER1, 5))
  /\ (forall t : Z,
        Tier.classify {| Tier.orders_per_day := 0;
                         Tier.products_updated_per_day := 0;
                         Tier.total_products := t |} = (Tier.TIER4, 240)).
Proof.
  split; [| split; reflexivity].
  intros [o u t]. unfold Tier.classify, Tier._calculate_tier, Tier.classify_spec. simpl.
  repeat case_decide;
    repeat match goal with
           | |- context [?a <=? ?b] => destruct (Z.leb_spec a b)
           end; simpl; try reflexivity; lia.
Qed.

(** *** Rate limiter *)

Lemma window_bounds (now window k : Z) :
  0 < window -> 0 <= now -> now / window = k ->
  Z.quot now window = k /\ k * window <= now /\ now < (k + 1) * window.
Proof.
  intros Hw Hn Hk. split; [| split].
  - rewrite Z.quot_div_nonneg by lia. exact Hk.
  - pose proof (Z.mul_div_le now window Hw). nia.
  - pose proof (Z.mul_succ_div_gt now window Hw). nia.
Qed.

Lemma check_rate_limit_step (identifier endpoint : string) (limit window k c now : Z)
    (srv : Redis.Server) :
  0 < window -> 0 <= c -> 0 <= now -> now / window = k ->
  counting (CacheKeys.rate_limit identifier endpoint k) window k c srv ->
  exists srv',
    RateLimit.check_rate_limit identifier endpoint limit window now (Some srv)
    = (nth_answer limit window k (c + 1), Some srv')
    /\ counting (CacheKeys.rate_limit identifier endpoint k) window k (c + 1) srv'.
Proof.
  intros Hw Hc Hn Hk [Hup Hkey].
  destruct (window_bounds now window k Hw Hn Hk) as (Hq & Hlo & Hhi).
  unfold RateLimit.check_rate_limit. rewrite Hq.
  change ("ratelimit:" +:+ identifier +:+ ":" +:+ endpoint +:+ ":" +:+ pretty k)
    with (CacheKeys.rate_limit identifier endpoint k).
  set (key := CacheKeys.rate_limit identifier endpoint k) in *.
  unfold Redis.increment, Redis.INCRBY, Redis.lookup_live. rewrite Hup. simpl.
  destruct (decide (c = 0)) as [-> | Hc0].
  - rewrite Hkey. simpl.
    replace (negb (window =? 0)) with true
      by (symmetry; apply negb_true_iff, Z.eqb_neq; lia).
    simpl. unfold Redis.EXPIRE, Redis.lookup_live. simpl.
    rewrite lookup_insert_eq. simpl.
    eexists. split; [reflexivity |].
    split; [reflexivity |]. simpl.
    destruct (decide (0 + 1 = 0)) as [? | _]; [lia |].
    exists (now + window). rewrite lookup_insert_eq. split; [reflexivity | lia].
  - destruct Hkey as (e & Hkey & He). rewrite Hkey. simpl.
    unfold Redis.live. simpl.
    replace (now <? e) with true by (symmetry; apply Z.ltb_lt; lia).
    simpl.
    replace (c + 1 =? 1) with false by (symmetry; apply Z.eqb_neq; lia).
    rewrite andb_false_r.
    eexists. split; [reflexivity |].
    split; [reflexivity |]. simpl.
    destruct (decide (c + 1 = 0)) as [? | _]; [lia |].
    exists e. rewrite lookup_insert_eq. split; [reflexivity | lia].
Qed.

Lemma requests_in_window (identifier endpoint : string) (limit window k : Z)
    (times : list Z) :
  0 < window ->
  Forall (fun now => 0 <= now /\ now / window = k) times ->
  forall (c : Z) (srv : Redis.Server),
    0 <= c ->
    counting (CacheKeys.rate_limit identifier endpoint k) window k c srv ->
    fst (RateLimit.requests identifier endpoint limit window times (Some srv))
    = map (nth_answer limit window k) (seqZ (c + 1) (Z.of_nat (length times))).
Proof.
  intros Hw Htimes. induction Htimes as [| now times [Hn Hk] _ IH]; intros c srv Hc Hcount.
  - reflexivity.
  - destruct (check_rate_limit_step identifier endpoint limit window k c now srv
                Hw Hc Hn Hk Hcount) as (srv' & Hstep & Hcount').
    cbn [RateLimit.requests]. rewrite Hstep.
    specialize (IH (c + 1) srv' ltac:(lia) Hcount').
    destruct (RateLimit.requests identifier endpoint limit window times (Some srv'))
      as [rs c2] eqn:Hrest.
    cbn [fst] in *. rewrite IH.
    cbn [length]. rewrite Nat2Z.inj_succ.
    rewrite (seqZ_cons (c + 1) (Z.succ (Z.of_nat (length times)))) by lia. cbn [map].
    replace (Z.pred (Z.succ (Z.of_nat (length times)))) with (Z.of_nat (length times)) by lia.
    replace (Z.succ (c + 1)) with (c + 1 + 1) by lia.
    reflexivity.
Qed.

(** C5: the limiter is a fixed-window counter kept under the key built
    from the identifier, the endpoint and floor(now/window); the n-th
    request of a window is answered allowed = (n <= limit),
    remaining = max(0, limit - n) and resetAt = (window index + 1) * window.
    At limit 5 and window 60 the six answers are 4, 3, 2, 1, 0 remaining and
    then a refusal with 0 remaining (the witness below). *)
Theorem C5_fixed_window_counter :
  forall (identifier endpoint : string) (limit window k : Z) (times : list Z)
         (srv : Redis.Server),
    0 < window ->
    Redis.reachable srv = true ->
    Redis.keys srv !! CacheKeys.rate_limit identifier endpoint k = None ->
    Forall (fun now => 0 <= now /\ now / window = k) times ->
    fst (RateLimit.requests identifier endpoint limit window times (Some srv))
    = map (fun n => (n <=? limit, Z.max 0 (limit - n), (k + 1) * window))
          (seqZ 1 (Z.of_nat (length times))).
Proof.
  intros identifier endpoint limit window k times srv Hw Hup Hkey Htimes.
  apply (requests_in_window identifier endpoint limit window k times Hw Htimes 0 srv);
    [lia |].
  split; [exact Hup |]. destruct (decide (0 = 0)); [exact Hkey | lia].
Qed.

Lemma C5_fixed_window_counter_witness :
  fst (RateLimit.requests "10.0.0.7" "/api/v1/storefront/products" 5 60
         [120; 121; 130; 150; 170; 179] RateLimit.fresh)
  = [(true, 4, 180); (true, 3, 180); (true, 2, 180); (true, 1, 180);
     (true, 0, 180); (false, 0, 180)].
Proof.
  apply (C5_fixed_window_counter "10.0.0.7" "/api/v1/storefront/products" 5 60 2
           [120; 121; 130; 150; 170; 179]
           {| Redis.reachable := true; Redis.keys := ∅ |}).
  - lia.
  - reflexivity.
  - apply lookup_empty.
  - repeat constructor; try lia; reflexivity.
Defined.

(** *** The engine: one record *)

Section EngineFacts.
Import Session SyncEngine.
Context {L : PyFloat} {B : Backend}.
#[local] Abbreviation World := (Session.World float) (only parsing).
#[local] Abbreviation M := (Session.M float) (only parsing).

#[local] Ltac frame_solve :=
  unfold frame; cbn; repeat split; try reflexivity; try lia.

Lemma frame_refl (w : World) : frame w w.
Proof. unfold frame. repeat split; lia. Qed.

Lemma frame_trans (w1 w2 w3 : World) : frame w1 w2 -> frame w2 w3 -> frame w1 w3.
Proof.
  unfold frame. intros (? & ? & ? & ? & ?) (? & ? & ? & ? & ?).
  repeat split; try congruence; lia.
Qed.

(** The first row of a key after the UPDATE of that row. *)
Lemma find_replace_same (store_id : UUID) (ext : string) (p p' : Product.t float)
    (ps : list (Product.t float)) :
  List.find (product_key store_id ext) ps = Some p ->
  Product.id p' = Product.id p ->
  product_key store_id ext p' = true ->
  List.find (product_key store_id ext) (replace_product p' ps) = Some p'.
Proof.
  intros Hfind Hid Hkey. induction ps as [| q ps IH]; [discriminate |].
  cbn in Hfind |- *.
  destruct (Nat.eqb (Product.id q) (Product.id p')) eqn:Hq.
  - cbn. rewrite Hkey. reflexivity.
  - destruct (product_key store_id ext q) eqn:Hkq.
    + injection Hfind as ->. rewrite Hid, Nat.eqb_refl in Hq. discriminate.
    + exact (IH Hfind).
Qed.

(** The first row of a key after the INSERT of a row of that key. *)
Lemma find_insert_same (store_id : UUID) (ext : string) (p' : Product.t float)
    (ps : list (Product.t float)) :
  List.find (product_key store_id ext) ps = None ->
  product_key store_id ext p' = true ->
  List.find (product_key store_id ext) (ps ++ [p']) = Some p'.
Proof.
  intros Hfind Hkey. induction ps as [| q ps IH]; cbn in *.
  - rewrite Hkey. reflexivity.
  - destruct (product_key store_id ext q); [discriminate | auto].
Qed.

Lemma find_insert_other (store_id : UUID) (ext : string) (p' : Product.t float)
    (ps : list (Product.t float)) :
  product_key store_id ext p' = false ->
  List.find (product_key store_id ext) (ps ++ [p'])
  = List.find (product_key store_id ext) ps.
Proof.
  intros Hkey. induction ps as [| q ps IH]; cbn.
  - rewrite Hkey. reflexivity.
  - destruct (product_key store_id ext q); [reflexivity | exact IH].
Qed.

(** With unique primary keys the UPDATE of one row leaves the first row of
    every other key alone. *)
Lemma find_replace_other (store_id : UUID) (ext : string) (p p' : Product.t float)
    (ps : list (Product.t float)) :
  NoDup (map Product.id ps) ->
  In p ps ->
  Product.id p' = Product.id p ->
  product_key store_id ext p = false ->
  product_key store_id ext p' = false ->
  List.find (product_key store_id ext) (replace_product p' ps)
  = List.find (product_key store_id ext) ps.
Proof.
  intros Hnd Hin Hid Hk Hk'. induction ps as [| q ps IH]; [reflexivity |].
  cbn in Hnd |- *. apply NoDup_cons in Hnd as [Hq Hnd].
  destruct (Nat.eqb (Product.id q) (Product.id p')) eqn:Heq.
  - apply Nat.eqb_eq in Heq.
    assert (q = p) as ->.
    { destruct Hin as [-> | Hin]; [reflexivity |].
      exfalso. apply Hq. rewrite Heq, Hid.
      apply list_elem_of_In, in_map, Hin. }
    cbn. rewrite Hk, Hk'.
    assert (Hmap : replace_product p' ps = ps).
    { clear IH Hin Hnd. induction ps as [| r ps IHps]; [reflexivity |].
      cbn. destruct (Nat.eqb (Product.id r) (Product.id p')) eqn:Hr.
      - exfalso. apply Hq. apply Nat.eqb_eq in Hr. rewrite Hid in Hr.
        rewrite <- Hr. cbn. left.
      - f_equal. apply IHps. intros Hin. apply Hq. cbn. right. exact Hin. }
    change (map (fun q0 : Product.t float =>
                   if Nat.eqb (Product.id q0) (Product.id p') then p' else q0) ps)
      with (replace_product p' ps).
    rewrite Hmap. reflexivity.
  - cbn. destruct (product_key store_id ext q); [reflexivity |].
    apply IH; [exact Hnd |].
    destruct Hin as [-> | Hin]; [| exact Hin].
    rewrite Hid, Nat.eqb_refl in Heq. discriminate.
Qed.

Lemma replace_product_ids (p' : Product.t float) (ps : list (Product.t float)) :
  map Product.id (replace_product p' ps) = map Product.id ps.
Proof.
  induction ps as [| q ps IH]; [reflexivity |]. cbn.
  destruct (Nat.eqb (Product.id q) (Product.id p')) eqn:Heq.
  - apply Nat.eqb_eq in Heq. rewrite Heq. f_equal. exact IH.
  - f_equal. exact IH.
Qed.

Lemma product_key_true (store_id : UUID) (ext : string) (p : Product.t float) :
  product_key store_id ext p = true <->
  Product.store_id p = store_id /\ Product.external_id p = ext.
Proof.
  unfold product_key. rewrite andb_true_iff, Nat.eqb_eq, String.eqb_eq. reflexivity.
Qed.

Lemma product_key_other (store_id store_id' : UUID) (ext ext' : string) (p : Product.t float) :
  product_key store_id ext p = true ->
  store_id' <> store_id \/ ext' <> ext ->
  product_key store_id' ext' p = false.
Proof.
  intros Hk Hne. apply product_key_true in Hk as [<- <-].
  apply not_true_is_false. intros Hk'. apply product_key_true in Hk' as [? ?].
  destruct Hne as [Hne | Hne]; apply Hne; congruence.
Qed.

Lemma query_some (store_id : UUID) (ext : string) (w : World) (p : Product.t float) :
  query_product store_id ext w = Some p ->
  In p (products w) /\ Product.store_id p = store_id /\ Product.external_id p = ext.
Proof.
  unfold query_product. intros H. apply List.find_some in H as [Hin Hk].
  apply product_key_true in Hk. tauto.
Qed.

Lemma connection_active (w : World) :
  pending_rollback w = None -> connection w = (Ok w, w).
Proof. intros H. unfold connection. rewrite H. reflexivity. Qed.

Lemma connection_pending (w : World) (original : string) :
  pending_rollback w = Some original ->
  connection w = (Raise (PendingRollbackError original), w).
Proof. intros H. unfold connection. rewrite H. reflexivity. Qed.

(** The update branch of [_upsert_product] when the store accepts the row. *)
Lemma upsert_write (store_id : UUID) (item : SyncProductItem.t float) (sync_type : string)
    (p : Product.t float) (w : World) :
  pending_rollback w = None ->
  query_product store_id (SyncProductItem.external_id item) w = Some p ->
  String.eqb sync_type "delta"
  && bool_decide (Product.sync_checksum p = Some (_calculate_checksum item)) = false ->
  flush_error (stamp_update (_update_product_fields p item) (_calculate_checksum item)
                 (clock w) (clock w + 1)) = None ->
  exists w',
    _upsert_product store_id item sync_type w = (Ok "updated", w')
    /\ products w'
       = replace_product (stamp_update (_update_product_fields p item)
                            (_calculate_checksum item) (clock w) (clock w + 1))
                         (products w)
    /\ frame w w' /\ next_uuid w' = next_uuid w
    /\ redis_client w' = redis_client w
    /\ pending_rollback w' = None.
Proof.
  intros Hact Hq Hskip Hflush.
  unfold _upsert_product, bind, connection, utcnow, ret, commit_update.
  rewrite Hact, Hq, Hskip. cbn. rewrite Hact, Hflush.
  eexists. split; [reflexivity |]. frame_solve.
Qed.

(** The create branch of [_upsert_product] when the store accepts the row. *)
Lemma upsert_create (store_id : UUID) (item : SyncProductItem.t float) (sync_type : string)
    (w : World) :
  pending_rollback w = None ->
  query_product store_id (SyncProductItem.external_id item) w = None ->
  flush_error (new_product (next_uuid w) store_id item (_calculate_checksum item)
                 (clock w) (clock w + 1) (clock w + 1 + 1)) = None ->
  exists w',
    _upsert_product store_id item sync_type w = (Ok "created", w')
    /\ products w'
       = products w ++ [new_product (next_uuid w) store_id item (_calculate_checksum item)
                          (clock w) (clock w + 1) (clock w + 1 + 1)]
    /\ frame w w' /\ next_uuid w' = S (next_uuid w)
    /\ redis_client w' = redis_client w
    /\ pending_rollback w' = None.
Proof.
  intros Hact Hq Hflush.
  unfold _upsert_product, bind, connection, utcnow, uuid4, ret, commit_insert.
  rewrite Hact, Hq. cbn. rewrite Hact, Hflush.
  eexists. split; [reflexivity |]. frame_solve.
Qed.

Lemma stamp_update_key (store_id : UUID) (ext : string) (p : Product.t float)
    (item : SyncProductItem.t float) (c : string) (t1 t2 : datetime) :
  product_key store_id ext (stamp_update (_update_product_fields p item) c t1 t2)
  = product_key store_id ext p.
Proof. reflexivity. Qed.

Lemma new_product_key (id store_id : UUID) (item : SyncProductItem.t float) (c : string)
    (t1 t2 t3 : datetime) :
  product_key store_id (SyncProductItem.external_id item)
              (new_product id store_id item c t1 t2 t3) = true.
Proof. apply product_key_true. split; reflexivity. Qed.

Lemma wf_insert (w : World) (ps : list (Product.t float)) (p' : Product.t float) (n : UUID) :
  NoDup (map Product.id ps) ->
  Forall (fun p => (Product.id p < n)%nat) ps ->
  Product.id p' = n ->
  NoDup (map Product.id (ps ++ [p']))
  /\ Forall (fun p => (Product.id p < S n)%nat) (ps ++ [p']).
Proof.
  intros Hnd Hlt Hid. split.
  - rewrite map_app. apply NoDup_app. split; [exact Hnd |]. split.
    + intros x Hx Hx'. cbn in Hx'. apply list_elem_of_In in Hx, Hx'.
      destruct Hx' as [<- | []].
      apply in_map_iff in Hx as (q & Hq & Hin).
      rewrite List.Forall_forall in Hlt. specialize (Hlt q Hin). lia.
    + cbn. apply NoDup_singleton.
  - apply Forall_app. split.
    + eapply Forall_impl; [exact Hlt |]. cbn. intros; lia.
    + constructor; [lia | constructor].
Qed.

(** Everything [_upsert_product] can do to the world, whatever it returns. *)
Lemma upsert_effect (store_id : UUID) (item : SyncProductItem.t float) (sync_type : string)
    (w w' : World) (r : result string) :
  _upsert_product store_id item sync_type w = (r, w') ->
  frame w w'
  /\ redis_client w' = redis_client w
  /\ (wf w -> wf w')
  /\ (forall store_id' ext',
         wf w ->
         store_id' <> store_id \/ ext' <> SyncProductItem.external_id item ->
         query_product store_id' ext' w' = query_product store_id' ext' w)
  /\ match r with
     | Raise _ => products w' = products w /\ pending_rollback w' <> None
     | Ok outcome =>
         (outcome = "created" \/ outcome = "updated")
         /\ synced store_id item w'
         /\ pending_rollback w = None /\ pending_rollback w' = None
     end.
Proof.
  unfold _upsert_product, bind, connection, utcnow, uuid4, ret, commit_update,
    commit_insert.
  destruct (pending_rollback w) as [original |] eqn:Hact.
  { intros [= <- <-].
    split; [apply frame_refl |]. split; [reflexivity |]. split; [tauto |].
    split; [reflexivity |]. split; [reflexivity | congruence]. }
  destruct (query_product store_id (SyncProductItem.external_id item) w) as [p |] eqn:Hq.
  - destruct (String.eqb sync_type "delta"
              && bool_decide (Product.sync_checksum p = Some (_calculate_checksum item)))
      eqn:Hskip.
    + intros [= <- <-].
      split; [apply frame_refl |]. split; [reflexivity |]. split; [tauto |].
      split; [reflexivity |]. split; [tauto |].
      apply andb_true_iff in Hskip as [_ Hc].
      apply bool_decide_eq_true_1 in Hc.
      split; [exists p; split; assumption | split; first [reflexivity | exact Hact]].
    + cbn. rewrite Hact.
      set (p' := stamp_update (_update_product_fields p item) (_calculate_checksum item)
                   (clock w) (clock w + 1)).
      destruct (query_some _ _ _ _ Hq) as (Hin & Hsid & Hext).
      assert (Hkp : product_key store_id (SyncProductItem.external_id item) p = true)
        by (apply product_key_true; tauto).
      destruct (flush_error p') as [msg |] eqn:Hflush.
      * intros [= <- <-]. cbn.
        split; [frame_solve |].
        split; [reflexivity |]. split; [intros Hwf; exact Hwf |].
        split; [reflexivity |]. split; [reflexivity | discriminate].
      * intros [= <- <-]. cbn.
        split; [frame_solve |].
        split; [reflexivity |].
        split.
        { intros [Hnd Hlt]. split; cbn.
          - change (NoDup (map Product.id (replace_product p' (products w)))).
            rewrite replace_product_ids. exact Hnd.
          - change (Forall (fun q => (Product.id q < next_uuid w)%nat)
                      (replace_product p' (products w))).
            apply List.Forall_forall. intros q Hq'.
            apply in_map_iff in Hq' as (q0 & Hq0 & Hin0).
            rewrite List.Forall_forall in Hlt.
            destruct (Nat.eqb (Product.id q0) (Product.id p')); subst q.
            + apply (Hlt p Hin).
            + apply (Hlt q0 Hin0). }
        split.
        { intros store_id' ext' [Hnd _] Hne. unfold query_product. cbn.
          apply (find_replace_other store_id' ext' p p' (products w) Hnd Hin eq_refl).
          - eapply product_key_other; eassumption.
          - unfold p'. rewrite stamp_update_key.
            eapply product_key_other; eassumption. }
        split; [tauto |].
        split; [| split; first [reflexivity | exact Hact]].
        exists p'. split; [| reflexivity].
        unfold query_product. cbn.
        apply (find_replace_same store_id _ p p' (products w) Hq eq_refl).
        unfold p'. rewrite stamp_update_key. exact Hkp.
  - cbn. rewrite Hact.
    set (p' := new_product (next_uuid w) store_id item (_calculate_checksum item)
                 (clock w) (clock w + 1) (clock w + 1 + 1)).
    destruct (flush_error p') as [msg |] eqn:Hflush.
    + intros [= <- <-]. cbn.
      split; [frame_solve |].
      split; [reflexivity |].
      split.
      { intros [Hnd Hlt]. split; cbn; [exact Hnd |].
        eapply Forall_impl; [exact Hlt |]. cbn. intros; lia. }
      split; [reflexivity |]. split; [reflexivity | discriminate].
    + intros [= <- <-]. cbn.
      split; [frame_solve |].
      split; [reflexivity |].
      split.
      { intros [Hnd Hlt]. unfold wf. cbn.
        apply (wf_insert w (products w) p' (next_uuid w) Hnd Hlt eq_refl). }
      split.
      { intros store_id' ext' _ Hne. unfold query_product. cbn.
        apply find_insert_other.
        eapply product_key_other; [apply new_product_key | exact Hne]. }
      split; [tauto |].
      split; [| split; first [reflexivity | exact Hact]].
      exists p'. split; [| reflexivity].
      unfold query_product. cbn.
      apply find_insert_same; [exact Hq | apply new_product_key].
Qed.

(** The ways [_upsert_product] returns: the skip of an unchanged record
    in a delta sync, the UPDATE of the stored row, or the INSERT of a row
    for a key that had none. *)
Lemma upsert_cases (store_id : UUID) (item : SyncProductItem.t float) (sync_type : string)
    (w w1 : World) (outcome : string) :
  _upsert_product store_id item sync_type w = (Ok outcome, w1) ->
  (exists p,
      query_product store_id (SyncProductItem.external_id item) w = Some p
      /\ Product.sync_checksum p = Some (_calculate_checksum item)
      /\ w1 = w /\ outcome = "updated")
  \/ (exists p,
         query_product store_id (SyncProductItem.external_id item) w = Some p
         /\ flush_error (updated_row p item w) = None
         /\ products w1 = replace_product (updated_row p item w) (products w)
         /\ outcome = "updated")
  \/ (query_product store_id (SyncProductItem.external_id item) w = None
      /\ flush_error (created_row store_id item w) = None
      /\ products w1 = products w ++ [created_row store_id item w]
      /\ outcome = "created").
Proof.
  unfold _upsert_product, bind, connection, utcnow, uuid4, ret, commit_update,
    commit_insert.
  destruct (pending_rollback w) as [original |] eqn:Hact; [discriminate |].
  destruct (query_product store_id (SyncProductItem.external_id item) w) as [p |] eqn:Hq.
  - destruct (String.eqb sync_type "delta"
              && bool_decide (Product.sync_checksum p = Some (_calculate_checksum item)))
      eqn:Hskip.
    + intros [= <- <-]. left. exists p.
      apply andb_true_iff in Hskip as [_ Hc]. apply bool_decide_eq_true_1 in Hc.
      repeat split; assumption.
    + cbn. rewrite Hact.
      destruct (flush_error (stamp_update (_update_product_fields p item)
                               (_calculate_checksum item) (clock w) (clock w + 1)))
        as [msg |] eqn:Hflush; [discriminate |].
      intros [= <- <-]. right. left. exists p. repeat split; assumption.
  - cbn. rewrite Hact.
    destruct (flush_error (new_product (next_uuid w) store_id item
                             (_calculate_checksum item) (clock w) (clock w + 1)
                             (clock w + 1 + 1)))
      as [msg |] eqn:Hflush; [discriminate |].
    intros [= <- <-]. right. right. repeat split; assumption.
Qed.

(** The fast path of [_update_inventory_only] when the store accepts the
    row. *)
Lemma inventory_write (store_id : UUID) (item : SyncProductItem.t float) (p : Product.t float)
    (w : World) :
  pending_rollback w = None ->
  query_product store_id (SyncProductItem.external_id item) w = Some p ->
  flush_error (stamp_inventory p (SyncProductItem.quantity item)
                 (clock w) (clock w + 1)) = None ->
  exists w',
    _update_inventory_only store_id item w = (Ok "updated", w')
    /\ products w'
       = replace_product (stamp_inventory p (SyncProductItem.quantity item)
                            (clock w) (clock w + 1))
                         (products w)
    /\ frame w w' /\ next_uuid w' = next_uuid w
    /\ pending_rollback w' = None.
Proof.
  intros Hact Hq Hflush.
  unfold _update_inventory_only, bind, connection, utcnow, ret, commit_update, redis_delete.
  rewrite Hact, Hq. cbn. rewrite Hact, Hflush.
  eexists. split; [reflexivity |]. frame_solve.
Qed.

Lemma inventory_absent (store_id : UUID) (item : SyncProductItem.t float) (w : World) :
  query_product store_id (SyncProductItem.external_id item) w = None ->
  _update_inventory_only store_id item w = _upsert_product store_id item "full" w.
Proof.
  intros Hq. unfold _update_inventory_only. unfold bind at 1.
  destruct (pending_rollback w) as [original |] eqn:Hact.
  - rewrite (connection_pending w original Hact).
    unfold _upsert_product, bind. rewrite (connection_pending w original Hact).
    reflexivity.
  - rewrite (connection_active w Hact), Hq. reflexivity.
Qed.

(** What the call for one record can do, whatever the sync type.  When
    it raises, the session is left inactive. *)
Lemma sync_record_effect (store_id : UUID) (sync_type : string)
    (item : SyncProductItem.t float) (w w' : World) (r : result string) :
  sync_record store_id sync_type item w = (r, w') ->
  frame w w'
  /\ match r with
     | Raise _ => products w' = products w /\ pending_rollback w' <> None
     | Ok outcome =>
         (outcome = "created" \/ outcome = "updated")
         /\ pending_rollback w = None /\ pending_rollback w' = None
     end.
Proof.
  unfold sync_record.
  destruct (String.eqb sync_type "inventory_only").
  - destruct (query_product store_id (SyncProductItem.external_id item) w)
      as [p |] eqn:Hq.
    + unfold _update_inventory_only, bind, connection, utcnow, ret, commit_update,
        redis_delete.
      destruct (pending_rollback w) as [original |] eqn:Hact.
      { intros [= <- <-]. split; [apply frame_refl |]. split; [reflexivity | congruence]. }
      rewrite Hq. cbn. rewrite Hact.
      destruct (flush_error _) as [msg |]; intros [= <- <-]; cbn.
      * split; [frame_solve |]. split; [reflexivity | discriminate].
      * split; [frame_solve |]. split; [tauto |]. split; first [reflexivity | exact Hact].
    + rewrite (inventory_absent _ _ _ Hq). intros H.
      destruct (upsert_effect _ _ _ _ _ _ H) as (Hf & _ & _ & _ & Hr).
      split; [exact Hf |]. destruct r; tauto.
  - intros H. destruct (upsert_effect _ _ _ _ _ _ H) as (Hf & _ & _ & _ & Hr).
    split; [exact Hf |]. destruct r; tauto.
Qed.

(** On an inactive session the call raises at its first query. *)
Lemma sync_record_pending (store_id : UUID) (sync_type : string)
    (item : SyncProductItem.t float) (w : World) (original : string) :
  pending_rollback w = Some original ->
  sync_record store_id sync_type item w = (Raise (PendingRollbackError original), w).
Proof.
  intros Hpend. unfold sync_record.
  destruct (String.eqb sync_type "inventory_only");
    [unfold _update_inventory_only | unfold _upsert_product];
    unfold bind; rewrite (connection_pending w original Hpend); reflexivity.
Qed.

(** One iteration never raises: it counts the record as processed when
    its call returned and as failed when it raised. *)
Lemma sync_one_cases (store_id : UUID) (sync_type : string) (stats : Stats)
    (item : SyncProductItem.t float) (w : World) :
  sync_one store_id sync_type stats item w
  = match sync_record store_id sync_type item w with
    | (Ok outcome, w') => (Ok (count_success stats outcome), w')
    | (Raise e, w') =>
        (Ok (count_failure stats (SyncProductItem.external_id item) e), w')
    end.
Proof.
  unfold sync_one, try_except, bind, ret.
  destruct (sync_record store_id sync_type item w) as [[outcome | e] w']; reflexivity.
Qed.

Lemma count_success_tally (stats : Stats) (outcome : string) :
  outcome = "created" \/ outcome = "updated" ->
  processed (count_success stats outcome) = processed stats + 1
  /\ failed (count_success stats outcome) = failed stats
  /\ errors (count_success stats outcome) = errors stats
  /\ created (count_success stats outcome) + updated (count_success stats outcome)
     = created stats + updated stats + 1
  /\ created stats <= created (count_success stats outcome)
  /\ updated stats <= updated (count_success stats outcome).
Proof.
  intros [-> | ->]; cbn; repeat split; lia.
Qed.

(** The loop runs to its end on every batch. *)
Lemma sync_loop_total (store_id : UUID) (sync_type : string)
    (items : list (SyncProductItem.t float)) :
  forall (stats : Stats) (w : World),
  exists stats' w',
    sync_loop store_id sync_type stats items w = (Ok stats', w')
    /\ frame w w'
    /\ tally stats stats' items.
Proof.
  induction items as [| item items IH]; intros stats w.
  - exists stats, w. split; [reflexivity |]. split; [apply frame_refl |].
    unfold tally. cbn. repeat split; try lia.
    exists []. rewrite app_nil_r. cbn. repeat split; [lia | constructor].
  - cbn [sync_loop]. unfold bind at 1. rewrite sync_one_cases.
    destruct (sync_record store_id sync_type item w) as [r w1] eqn:Hrec.
    destruct (sync_record_effect _ _ _ _ _ _ Hrec) as (Hf1 & Hr).
    destruct r as [outcome | e].
    + destruct (IH (count_success stats outcome) w1)
        as (stats' & w' & Hloop & Hf2 & Ht).
      exists stats', w'. split; [exact Hloop |].
      split; [eapply frame_trans; eassumption |].
      destruct (count_success_tally stats outcome (proj1 Hr))
        as (Hp & Hfl & He & Hcu & Hc & Hu).
      destruct Ht as (T1 & T2 & T3 & T4 & T5 & T6 & es & E1 & E2 & E3).
      unfold tally. cbn [length]. rewrite Nat2Z.inj_succ.
      repeat split; try lia.
      exists es. rewrite E1, He. repeat split; [lia |].
      eapply Forall_impl; [exact E3 |]. cbn. intros; right; assumption.
    + destruct (IH (count_failure stats (SyncProductItem.external_id item) e) w1)
        as (stats' & w' & Hloop & Hf2 & Ht).
      exists stats', w'. split; [exact Hloop |].
      split; [eapply frame_trans; eassumption |].
      destruct Ht as (T1 & T2 & T3 & T4 & T5 & T6 & es & E1 & E2 & E3).
      cbn in T1, T2, T3, T4, T5, T6, E1, E2.
      unfold tally. cbn [length]. rewrite Nat2Z.inj_succ.
      repeat split; try lia.
      exists ((SyncProductItem.external_id item, exn_str e) :: es).
      rewrite E1, <- app_assoc. cbn [app length]. rewrite Nat2Z.inj_succ.
      repeat split; [lia |].
      constructor; [cbn; left; reflexivity |].
      eapply Forall_impl; [exact E3 |]. cbn. intros; right; assumption.
Qed.

(** *** The engine: one session *)

Lemma query_store_started (store_id : UUID) (w : World) :
  query_store store_id (started w) = query_store store_id w.
Proof. reflexivity. Qed.

(** How the state of the session moves over the loop: it ends active
    exactly when no record failed; on an inactive session every record
    fails and nothing is written. *)
Lemma sync_loop_session (store_id : UUID) (sync_type : string)
    (items : list (SyncProductItem.t float)) :
  forall (stats stats' : Stats) (w w' : World),
    sync_loop store_id sync_type stats items w = (Ok stats', w') ->
    (pending_rollback w' = None ->
     pending_rollback w = None
     /\ failed stats' = failed stats
     /\ errors stats' = errors stats
     /\ processed stats' = processed stats + Z.of_nat (length items))
    /\ (pending_rollback w' <> None ->
        items <> [] -> failed stats < failed stats')
    /\ (forall original,
           pending_rollback w = Some original ->
           w' = w
           /\ failed stats' = failed stats + Z.of_nat (length items)
           /\ processed stats' = processed stats
           /\ created stats' = created stats
           /\ updated stats' = updated stats).
Proof.
  induction items as [| item items IH]; intros stats stats' w w' Hloop.
  - cbn in Hloop. injection Hloop as <- <-. cbn.
    split; [intros H; repeat split; [exact H | lia] |].
    split; [intros _ H; contradiction |].
    intros original _. repeat split; lia.
  - cbn [sync_loop] in Hloop. unfold bind at 1 in Hloop.
    rewrite sync_one_cases in Hloop.
    destruct (sync_record store_id sync_type item w) as [r w1] eqn:Hrec.
    destruct (sync_record_effect _ _ _ _ _ _ Hrec) as (_ & Hr).
    cbn [length]. rewrite Nat2Z.inj_succ.
    destruct r as [outcome | e].
    + destruct Hr as (Hout & Hact & Hact1).
      destruct (IH _ _ _ _ Hloop) as (IH1 & IH2 & _).
      destruct (count_success_tally stats outcome Hout) as (Hp & Hfl & He & _).
      split; [| split].
      * intros Hend. destruct (IH1 Hend) as (_ & Hf & Herr & Hproc).
        split; [exact Hact |]. split; [congruence |]. split; [congruence | lia].
      * intros Hend _. destruct items as [| item' items'].
        { cbn in Hloop. injection Hloop as _ <-. contradiction. }
        specialize (IH2 Hend ltac:(discriminate)). lia.
      * intros original Hpend. congruence.
    + destruct Hr as (_ & Hpend1).
      destruct (pending_rollback w1) as [original1 |] eqn:Hp1; [| contradiction].
      destruct (IH _ _ _ _ Hloop) as (_ & _ & IH3).
      destruct (IH3 original1 Hp1) as (-> & Hf & Hproc & Hcre & Hupd).
      cbn in Hf, Hproc, Hcre, Hupd.
      split; [| split].
      * intros Hend. congruence.
      * intros _ _. lia.
      * intros original Hpend.
        rewrite (sync_record_pending _ _ _ _ _ Hpend) in Hrec.
        injection Hrec as _ <-. repeat split; try assumption. lia.
Qed.

(** A session on an existing store whose loop ended with the session
    active returns: the response carries the counters of the loop, the
    store row is stamped with the time read after the loop, the product
    pages of the store are evicted and one [SyncLog] row is appended. *)
Lemma process_batch_sync_run (store_id : UUID) (sync_type : string)
    (items : list (SyncProductItem.t float)) (w w1 : World) (store : Store.t)
    (stats : Stats) :
  pending_rollback w = None ->
  query_store store_id w = Some store ->
  sync_loop store_id sync_type stats0 items (started w) = (Ok stats, w1) ->
  pending_rollback w1 = None ->
  exists (resp : SyncBatchResponse.t) (w' : World) (log : SyncLog.t),
    process_batch_sync store_id sync_type items w = (Ok resp, w')
    /\ completes store_id sync_type store stats w1 resp w' log.
Proof.
  intros Hact Hstore Hloop Hact1.
  unfold process_batch_sync. unfold bind at 1. unfold utcnow at 1.
  unfold bind at 1. unfold uuid4 at 1. unfold bind at 1.
  change (connection _) with (connection (started w)).
  rewrite (connection_active (started w) Hact).
  rewrite query_store_started, Hstore.
  unfold bind at 1. rewrite Hloop.
  unfold bind, utcnow, commit_store, connection, _invalidate_store_cache,
    redis_delete_pattern, _log_sync, commit_sync_log, _calculate_next_sync_time, ret.
  cbn. rewrite Hact1. cbn.
  eexists. eexists. eexists.
  split; [reflexivity |]. unfold completes. cbn.
  split; [repeat split; unfold Tier._get_sync_interval; f_equal; lia |].
  split; [reflexivity |].
  split; [reflexivity |].
  split; [reflexivity |].
  split; [repeat split |].
  split; [reflexivity |].
  split; [reflexivity |].
  split; [lia |].
  split; reflexivity.
Qed.

(** A session whose loop left the session inactive raises at the commit
    that follows the loop: the store row, the cache and the sync log are
    as the loop left them. *)
Lemma process_batch_sync_aborts (store_id : UUID) (sync_type : string)
    (items : list (SyncProductItem.t float)) (w w1 : World) (store : Store.t)
    (stats : Stats) (original : string) :
  pending_rollback w = None ->
  query_store store_id w = Some store ->
  sync_loop store_id sync_type stats0 items (started w) = (Ok stats, w1) ->
  pending_rollback w1 = Some original ->
  process_batch_sync store_id sync_type items w
  = (Raise (PendingRollbackError original), snd (utcnow w1)).
Proof.
  intros Hact Hstore Hloop Hpend1.
  unfold process_batch_sync. unfold bind at 1. unfold utcnow at 1.
  unfold bind at 1. unfold uuid4 at 1. unfold bind at 1.
  change (connection _) with (connection (started w)).
  rewrite (connection_active (started w) Hact).
  rewrite query_store_started, Hstore.
  unfold bind at 1. rewrite Hloop.
  unfold bind, utcnow, commit_store, connection. cbn. rewrite Hpend1. reflexivity.
Qed.

(** The ways a session can go. *)
Lemma process_batch_sync_cases (store_id : UUID) (sync_type : string)
    (items : list (SyncProductItem.t float)) (w : World) :
  ((pending_rollback w <> None \/ query_store store_id w = None)
   /\ exists e, process_batch_sync store_id sync_type items w = (Raise e, started w))
  \/ exists (store : Store.t) (stats : Stats) (w1 : World),
       pending_rollback w = None
       /\ query_store store_id w = Some store
       /\ sync_loop store_id sync_type stats0 items (started w) = (Ok stats, w1)
       /\ frame (started w) w1
       /\ tally stats0 stats items.
Proof.
  destruct (pending_rollback w) as [original |] eqn:Hact.
  { left. split; [left; discriminate |].
    exists (PendingRollbackError original).
    unfold process_batch_sync. unfold bind at 1. unfold utcnow at 1.
    unfold bind at 1. unfold uuid4 at 1. unfold bind at 1.
    change (connection _) with (connection (started w)).
    rewrite (connection_pending (started w) original Hact). reflexivity. }
  destruct (query_store store_id w) as [store |] eqn:Hstore.
  - right.
    destruct (sync_loop_total store_id sync_type items stats0 (started w))
      as (stats & w1 & Hloop & Hframe & Htally).
    exists store, stats, w1. auto.
  - left. split; [right; reflexivity |].
    exists (ValueError "Store not found").
    unfold process_batch_sync. unfold bind at 1. unfold utcnow at 1.
    unfold bind at 1. unfold uuid4 at 1. unfold bind at 1.
    change (connection _) with (connection (started w)).
    rewrite (connection_active (started w) Hact).
    rewrite query_store_started, Hstore. reflexivity.
Qed.

(** A session that returns: the session was active, the store exists, no
    record failed, and the session is still active afterwards. *)
Lemma process_batch_sync_returns (store_id : UUID) (sync_type : string)
    (items : list (SyncProductItem.t float)) (w w' : World)
    (resp : SyncBatchResponse.t) :
  process_batch_sync store_id sync_type items w = (Ok resp, w') ->
  exists (store : Store.t) (stats : Stats) (w1 : World) (log : SyncLog.t),
    pending_rollback w = None
    /\ query_store store_id w = Some store
    /\ sync_loop store_id sync_type stats0 items (started w) = (Ok stats, w1)
    /\ pending_rollback w1 = None
    /\ frame (started w) w1
    /\ tally stats0 stats items
    /\ (failed stats = 0 /\ errors stats = []
        /\ processed stats = Z.of_nat (length items))
    /\ completes store_id sync_type store stats w1 resp w' log.
Proof.
  intros Hrun.
  destruct (process_batch_sync_cases store_id sync_type items w)
    as [(_ & e & Hraise) | (store & stats & w1 & Hact & Hstore & Hloop & Hframe & Htally)].
  { rewrite Hraise in Hrun. discriminate. }
  destruct (pending_rollback w1) as [original |] eqn:Hact1.
  { rewrite (process_batch_sync_aborts _ _ _ _ _ _ _ _ Hact Hstore Hloop Hact1) in Hrun.
    discriminate. }
  destruct (process_batch_sync_run _ _ _ _ _ _ _ Hact Hstore Hloop Hact1)
    as (resp0 & w0 & log & Hrun0 & Hdone).
  rewrite Hrun in Hrun0. injection Hrun0 as <- <-.
  destruct (sync_loop_session _ _ _ _ _ _ _ Hloop) as (Hend & _).
  destruct (Hend Hact1) as (_ & Hf & He & Hp). cbn in Hf, He, Hp.
  exists store, stats, w1, log.
  repeat (split; [assumption |]).
  split; [repeat split; assumption | exact Hdone].
Qed.

(** A session that raises writes neither the store row nor the sync
    log. *)
Lemma process_batch_sync_raises (store_id : UUID) (sync_type : string)
    (items : list (SyncProductItem.t float)) (w w' : World) (e : exn) :
  process_batch_sync store_id sync_type items w = (Raise e, w') ->
  stores w' = stores w /\ sync_logs w' = sync_logs w /\ orders w' = orders w.
Proof.
  intros Hrun.
  destruct (process_batch_sync_cases store_id sync_type items w)
    as [(_ & e0 & Hraise) | (store & stats & w1 & Hact & Hstore & Hloop & Hframe & Htally)].
  { rewrite Hraise in Hrun. injection Hrun as _ <-. repeat split. }
  destruct (pending_rollback w1) as [original |] eqn:Hact1.
  - rewrite (process_batch_sync_aborts _ _ _ _ _ _ _ _ Hact Hstore Hloop Hact1) in Hrun.
    injection Hrun as _ <-. destruct Hframe as (Hs & Ho & Hl & _). cbn.
    rewrite Hs, Ho, Hl. repeat split.
  - destruct (process_batch_sync_run _ _ _ _ _ _ _ Hact Hstore Hloop Hact1)
      as (resp0 & w0 & log & Hrun0 & _).
    rewrite Hrun in Hrun0. discriminate.
Qed.

Lemma find_replace_store (store_id : UUID) (store s' : Store.t) (ss : list Store.t) :
  List.find (fun s => Nat.eqb (Store.id s) store_id) ss = Some store ->
  Store.id s' = store_id ->
  List.find (fun s => Nat.eqb (Store.id s) store_id) (replace_store s' ss) = Some s'.
Proof.
  intros Hfind Hid. induction ss as [| q ss IH]; [discriminate |].
  cbn in Hfind |- *.
  destruct (Nat.eqb (Store.id q) (Store.id s')) eqn:Hq.
  - cbn. rewrite Hid, Nat.eqb_refl. reflexivity.
  - rewrite Hid in Hq. rewrite Hq in Hfind |- *. exact (IH Hfind).
Qed.

Lemma query_store_id (store_id : UUID) (w : World) (store : Store.t) :
  query_store store_id w = Some store -> Store.id store = store_id.
Proof.
  unfold query_store. intros H. apply List.find_some in H as [_ H].
  apply Nat.eqb_eq. exact H.
Qed.

Lemma Forall2_in_l {A C : Type} (P : A -> C -> Prop) (l : list A) (k : list C) (x : A) :
  Forall2 P l k -> In x l -> exists y, P x y.
Proof.
  induction 1 as [| a c l k Hac _ IH]; intros Hin; [destruct Hin |].
  destruct Hin as [<- | Hin]; [exists c; exact Hac | exact (IH Hin)].
Qed.

(** Request validation keeps the length of the product list. *)
Lemma validate_length (body : SyncBatchRequest.raw float) (request : SyncBatchRequest.t float) :
  SyncBatchRequest.validate body = Some request ->
  length (SyncBatchRequest.products request) = length (SyncBatchRequest.raw_products body)
  /\ (0 < length (SyncBatchRequest.products request) <= 1000)%nat
  /\ Forall2 (fun r i => SyncProductItem.validate r = Some i)
             (SyncBatchRequest.raw_products body) (SyncBatchRequest.products request).
Proof.
  unfold SyncBatchRequest.validate, SyncBatchRequest.validate_products.
  destruct (SyncBatchRequest.sync_type_pattern _); [| discriminate].
  destruct (mapM SyncProductItem.validate (SyncBatchRequest.raw_products body))
    as [items |] eqn:Hitems; [| discriminate].
  destruct (Nat.leb_spec (length items) 1000); [| discriminate].
  destruct (Nat.eqb_spec (length items) 0); [discriminate |].
  intros [= <-]. cbn.
  apply mapM_Some in Hitems.
  split; [symmetry; eapply Forall2_length; exact Hitems |].
  split; [lia | exact Hitems].
Qed.

Lemma validate_item_external_id (r : RawItem.t float) (i : SyncProductItem.t float) :
  SyncProductItem.validate r = Some i ->
  RawItem.external_id r = Some (SyncProductItem.external_id i)
  /\ (1 <= String.length (SyncProductItem.external_id i))%nat.
Proof.
  unfold SyncProductItem.validate.
  destruct (RawItem.external_id r) as [ext |]; [| discriminate].
  destruct (RawItem.name r); [| discriminate].
  destruct (RawItem.mrp r); [| discriminate].
  destruct (RawItem.selling_price r); [| discriminate].
  destruct (Nat.leb_spec 1 (String.length ext)); [| discriminate].
  destruct (_ && _); [| discriminate].
  intros [= <-]. cbn. split; [reflexivity | assumption].
Qed.

(** A world between two requests: no session is open on it. *)
Lemma SessionLocal_idle (w : World) : pending_rollback w = None -> SessionLocal w = w.
Proof. destruct w; cbn; intros ->; reflexivity. Qed.

Lemma close_idle (w : World) : pending_rollback w = None -> close w = w.
Proof. destruct w; cbn; intros ->; reflexivity. Qed.

(** A request whose body does not validate changes nothing. *)
Lemma endpoint_rejects (x_api_key : string) (body : SyncBatchRequest.raw float) (w : World) :
  pending_rollback w = None ->
  SyncBatchRequest.validate body = None ->
  exists code detail,
    Endpoint.sync_products_batch x_api_key body w = (Endpoint.HttpError code detail, w)
    /\ (code = 401 \/ code = 403 \/ code = 422)
    /\ (forall store,
           query_store_by_key x_api_key w = Some store ->
           Store.is_active store = true -> code = 422).
Proof.
  intros Hidle Hval. unfold Endpoint.sync_products_batch.
  rewrite (SessionLocal_idle w Hidle).
  unfold Endpoint.verify_sync_api_key, bind. rewrite (connection_active w Hidle).
  destruct (query_store_by_key x_api_key w) as [store |].
  - destruct (Store.is_active store) eqn:Hact; cbn.
    + rewrite Hval, (close_idle w Hidle). exists 422, "validation error".
      split; [reflexivity |]. split; [tauto | reflexivity].
    + rewrite (close_idle w Hidle). exists 403, "Store is not active".
      split; [reflexivity |]. split; [tauto |].
      intros s [= <-] Hs. congruence.
  - cbn. rewrite (close_idle w Hidle). exists 401, "Invalid API key".
    split; [reflexivity |]. split; [tauto |]. intros s [=].
Qed.

(** *** Resubmission of a batch *)

(** The skip branch of [_upsert_product]. *)
Lemma upsert_skip (store_id : UUID) (item : SyncProductItem.t float) (p : Product.t float)
    (w : World) :
  pending_rollback w = None ->
  query_product store_id (SyncProductItem.external_id item) w = Some p ->
  Product.sync_checksum p = Some (_calculate_checksum item) ->
  _upsert_product store_id item "delta" w = (Ok "updated", w).
Proof.
  intros Hact Hq Hc. unfold _upsert_product, bind.
  rewrite (connection_active w Hact), Hq, Hc.
  rewrite bool_decide_eq_true_2 by reflexivity. reflexivity.
Qed.

Lemma synced_products (store_id : UUID) (item : SyncProductItem.t float) (w w' : World) :
  products w' = products w -> synced store_id item w -> synced store_id item w'.
Proof.
  intros Hp (p & Hq & Hc). exists p. split; [| exact Hc].
  unfold query_product in *. rewrite Hp. exact Hq.
Qed.

(** A delta loop over records that are all stored with their own
    fingerprint writes nothing and counts every record as updated. *)
Lemma sync_loop_all_skipped (store_id : UUID) (items : list (SyncProductItem.t float))
    (w : World) :
  pending_rollback w = None ->
  Forall (fun item => synced store_id item w) items ->
  forall stats : Stats,
  exists stats',
    sync_loop store_id "delta" stats items w = (Ok stats', w)
    /\ processed stats' = processed stats + Z.of_nat (length items)
    /\ updated stats' = updated stats + Z.of_nat (length items)
    /\ created stats' = created stats
    /\ failed stats' = failed stats
    /\ errors stats' = errors stats.
Proof.
  intros Hact.
  induction 1 as [| item items (p & Hq & Hc) _ IH]; intros stats.
  - exists stats. cbn. repeat split; lia.
  - cbn [sync_loop]. unfold bind at 1. rewrite sync_one_cases.
    unfold sync_record. cbn [String.eqb Ascii.eqb Bool.eqb].
    rewrite (upsert_skip store_id item p w Hact Hq Hc).
    destruct (IH (count_success stats "updated")) as (stats' & Hloop & Hp & Hu & Hcr & Hf & He).
    exists stats'. split; [exact Hloop |].
    cbn in Hp, Hu, Hcr, Hf, He. cbn [length]. rewrite Nat2Z.inj_succ.
    repeat split; try assumption; lia.
Qed.

(** A loop of upserts that ends without a failure leaves every record of
    the batch stored with its own fingerprint, provided the external ids
    of the batch are pairwise distinct. *)
Lemma sync_loop_synced (store_id : UUID) (sync_type : string) :
  String.eqb sync_type "inventory_only" = false ->
  forall (items : list (SyncProductItem.t float)) (stats stats' : Stats) (w w' : World),
    wf w ->
    NoDup (map SyncProductItem.external_id items) ->
    sync_loop store_id sync_type stats items w = (Ok stats', w') ->
    failed stats' = failed stats ->
    wf w'
    /\ Forall (fun item => synced store_id item w') items
    /\ (forall item0,
           ~ In (SyncProductItem.external_id item0)
                (map SyncProductItem.external_id items) ->
           synced store_id item0 w -> synced store_id item0 w').
Proof.
  intros Hst. induction items as [| item items IH]; intros stats stats' w w' Hwf Hnd Hloop Hfail.
  - cbn in Hloop. injection Hloop as <- <-.
    split; [exact Hwf |]. split; [constructor | auto].
  - cbn [sync_loop] in Hloop. unfold bind at 1 in Hloop.
    rewrite sync_one_cases in Hloop. unfold sync_record in Hloop. rewrite Hst in Hloop.
    cbn [map] in Hnd. apply NoDup_cons in Hnd as [Hnotin Hnd].
    destruct (_upsert_product store_id item sync_type w) as [[outcome | e] w1] eqn:Hup.
    + destruct (upsert_effect _ _ _ _ _ _ Hup)
        as (_ & _ & Hwf1 & Hother & Hout & Hsynced & _).
      destruct (count_success_tally stats outcome Hout) as (_ & Hf1 & _).
      destruct (IH _ _ _ _ (Hwf1 Hwf) Hnd Hloop ltac:(congruence))
        as (Hwf' & Hall & Hkeep).
      split; [exact Hwf' |]. split.
      * constructor; [| exact Hall].
        apply Hkeep; [| exact Hsynced].
        intros Hin. apply Hnotin. apply list_elem_of_In. exact Hin.
      * intros item0 Hnot0 (p & Hq0 & Hc0). apply Hkeep.
        { intros Hin. apply Hnot0. cbn. right. exact Hin. }
        exists p. split; [| exact Hc0].
        rewrite (Hother store_id (SyncProductItem.external_id item0) Hwf); [exact Hq0 |].
        right. intros Heq. apply Hnot0. cbn. left. symmetry. exact Heq.
    + exfalso.
      destruct (sync_loop_total store_id sync_type items
                  (count_failure stats (SyncProductItem.external_id item) e) w1)
        as (stats2 & w2 & Hloop2 & _ & Ht).
      rewrite Hloop in Hloop2. injection Hloop2 as <- <-.
      destruct Ht as (_ & _ & T3 & _). cbn in T3. lia.
Qed.

End EngineFacts.

(** ** The claims *)

Section Claims.
Import Session SyncEngine.
Context {L : PyFloat} {B : Backend}.
#[local] Abbreviation World := (Session.World float) (only parsing).
#[local] Abbreviation M := (Session.M float) (only parsing).

(** C2 (as amended): a batch holding a record whose externalId is missing
    or empty is rejected as a whole by request validation, before any
    record is processed: the endpoint answers with an error, 422 when the
    key is the one of an active store, and the world is as it was, so no
    record of the batch is committed. *)
Theorem C2_missing_external_id_rejects_batch :
  forall (x_api_key : string) (body : SyncBatchRequest.raw float) (r : RawItem.t float)
         (w : World),
    pending_rollback w = None ->
    In r (SyncBatchRequest.raw_products body) ->
    RawItem.external_id r = None \/ RawItem.external_id r = Some "" ->
    SyncBatchRequest.validate body = None
    /\ exists code detail,
         Endpoint.sync_products_batch x_api_key body w
         = (Endpoint.HttpError code detail, w)
         /\ (code = 401 \/ code = 403 \/ code = 422)
         /\ (forall store,
                query_store_by_key x_api_key w = Some store ->
                Store.is_active store = true -> code = 422).
Proof.
  intros x_api_key body r w Hidle Hin Hmissing.
  assert (Hval : SyncBatchRequest.validate body = None).
  { destruct (SyncBatchRequest.validate body) as [request |] eqn:Hv; [| reflexivity].
    exfalso. apply validate_length in Hv as (_ & _ & Hall).
    destruct (Forall2_in_l _ _ _ _ Hall Hin) as (i & Hi).
    apply validate_item_external_id in Hi as [Hext Hlen].
    destruct Hmissing as [Hm | Hm]; rewrite Hm in Hext; [discriminate |].
    injection Hext as Hext. rewrite <- Hext in Hlen. cbn in Hlen. lia. }
  split; [exact Hval |].
  exact (endpoint_rejects x_api_key body w Hidle Hval).
Qed.


(** C8: a request whose batch holds more than 1000 records, or none, fails
    validation; the endpoint answers with an error and the world, the
    products table included, is as before: no item is created or updated. *)
Theorem C8_batch_size_rejected :
  forall (x_api_key : string) (body : SyncBatchRequest.raw float) (w : World),
    pending_rollback w = None ->
    (1000 < length (SyncBatchRequest.raw_products body))%nat
    \/ length (SyncBatchRequest.raw_products body) = 0%nat ->
    SyncBatchRequest.validate body = None
    /\ exists code detail,
         Endpoint.sync_products_batch x_api_key body w
         = (Endpoint.HttpError code detail, w)
         /\ (code = 401 \/ code = 403 \/ code = 422)
         /\ (forall store,
                query_store_by_key x_api_key w = Some store ->
                Store.is_active store = true -> code = 422).
Proof.
  intros x_api_key body w Hidle Hsize.
  assert (Hval : SyncBatchRequest.validate body = None).
  { destruct (SyncBatchRequest.validate body) as [request |] eqn:Hv; [| reflexivity].
    exfalso. apply validate_length in Hv as (Hlen & Hbound & _). lia. }
  split; [exact Hval |].
  exact (endpoint_rejects x_api_key body w Hidle Hval).
Qed.


(** C10 (as amended): the inventory-only path on an externalId that the
    store does not hold yet (and whose row the store accepts) does not
    fail: it falls back to the full upsert, which inserts one row carrying
    the supplied fields other than category and updatedAt (the gst percent
    as supplied, 0 when it is absent, null or zero), the derived fields
    (slug, discount percent, stock flag, checksum) and syncVersion 1, and
    the loop counts the record as created.  The category of the record is
    not stored, and updatedAt is the time of the insert. *)
Theorem C10_inventory_only_creates_missing :
  forall (store_id : UUID) (item : SyncProductItem.t float) (stats : Stats) (w : World),
    pending_rollback w = None ->
    query_product store_id (SyncProductItem.external_id item) w = None ->
    flush_error (created_row store_id item w) = None ->
    exists w' p stats',
      _update_inventory_only store_id item w = (Ok "created", w')
      /\ _update_inventory_only store_id item w = _upsert_product store_id item "full" w
      /\ products w' = products w ++ [p]
      /\ query_product store_id (SyncProductItem.external_id item) w' = Some p
      /\ (Product.store_id p = store_id
          /\ Product.external_id p = SyncProductItem.external_id item
          /\ Product.name p = SyncProductItem.name item
          /\ Product.description p = SyncProductItem.description item
          /\ Product.mrp p = SyncProductItem.mrp item
          /\ Product.selling_price p = SyncProductItem.selling_price item
          /\ Product.quantity p = SyncProductItem.quantity item
          /\ Product.unit p = SyncProductItem.unit item
          /\ Product.sku p = SyncProductItem.sku item
          /\ Product.barcode p = SyncProductItem.barcode item
          /\ Product.hsn_code p = SyncProductItem.hsn_code item
          /\ Product.gst_percent p
             = match SyncProductItem.gst_percent item with
               | Some g => if feqb g (float_of_Z 0) then float_of_Z 0 else g
               | None => float_of_Z 0
               end)
      /\ (Product.category_id p = None
          /\ Product.updated_at p = clock w + 2
          /\ Product.created_at p = clock w + 1
          /\ Product.last_synced_at p = Some (clock w)
          /\ Product.id p = next_uuid w)
      /\ (Product.slug p = _generate_slug (SyncProductItem.name item)
          /\ Product.discount_percent p
             = (if fltb (float_of_Z 0) (SyncProductItem.mrp item)
                then fround (fmul (fdiv (fsub (SyncProductItem.mrp item)
                                               (SyncProductItem.selling_price item))
                                         (SyncProductItem.mrp item))
                                   (float_of_Z 100)) 2
                else float_of_Z 0)
          /\ Product.is_in_stock p = (0 <? SyncProductItem.quantity item)
          /\ Product.is_active p = true
          /\ Product.sync_checksum p = Some (_calculate_checksum item))
      /\ Product.sync_version p = 1
      /\ sync_one store_id "inventory_only" stats item w = (Ok stats', w')
      /\ created stats' = created stats + 1
      /\ processed stats' = processed stats + 1
      /\ updated stats' = updated stats
      /\ failed stats' = failed stats.
Proof.
  intros store_id item stats w Hact Hq Hflush.
  destruct (upsert_create store_id item "full" w Hact Hq Hflush)
    as (w' & Hrun & Hprod & _).
  pose proof (inventory_absent store_id item w Hq) as Hfall.
  exists w', (created_row store_id item w), (count_success stats "created").
  split; [rewrite Hfall; exact Hrun |].
  split; [exact Hfall |].
  split; [exact Hprod |].
  split.
  { unfold query_product. rewrite Hprod.
    apply find_insert_same; [exact Hq | apply new_product_key]. }
  split; [repeat split |].
  split; [cbn; repeat split; lia |].
  split; [repeat split |]. split; [reflexivity |].
  split.
  { rewrite sync_one_cases. unfold sync_record. rewrite String.eqb_refl.
    rewrite Hfall, Hrun. reflexivity. }
  cbn. repeat split.
Qed.

(** C7 (as amended): on an existing item whose row the store accepts, the
    inventory-only fast path changes the fields quantity, isInStock,
    lastSyncedAt and updatedAt of the item and nothing else: name, prices,
    syncChecksum, syncVersion and every other stored field are as before,
    and with unique primary keys the items of other keys are untouched. *)
Theorem C7_inventory_only_frame :
  forall (store_id : UUID) (item : SyncProductItem.t float) (p : Product.t float) (w : World),
    pending_rollback w = None ->
    query_product store_id (SyncProductItem.external_id item) w = Some p ->
    flush_error (restocked_row p item w) = None ->
    exists w' p',
      _update_inventory_only store_id item w = (Ok "updated", w')
      /\ query_product store_id (SyncProductItem.external_id item) w' = Some p'
      /\ (Product.quantity p' = SyncProductItem.quantity item
          /\ Product.is_in_stock p' = (0 <? SyncProductItem.quantity item)
          /\ Product.last_synced_at p' = Some (clock w)
          /\ Product.updated_at p' = clock w + 1)
      /\ (Product.id p' = Product.id p
          /\ Product.store_id p' = Product.store_id p
          /\ Product.external_id p' = Product.external_id p
          /\ Product.name p' = Product.name p
          /\ Product.slug p' = Product.slug p
          /\ Product.description p' = Product.description p
          /\ Product.category_id p' = Product.category_id p
          /\ Product.mrp p' = Product.mrp p
          /\ Product.selling_price p' = Product.selling_price p
          /\ Product.discount_percent p' = Product.discount_percent p
          /\ Product.unit p' = Product.unit p
          /\ Product.sku p' = Product.sku p
          /\ Product.barcode p' = Product.barcode p
          /\ Product.hsn_code p' = Product.hsn_code p
          /\ Product.gst_percent p' = Product.gst_percent p
          /\ Product.is_active p' = Product.is_active p
          /\ Product.sync_version p' = Product.sync_version p
          /\ Product.sync_checksum p' = Product.sync_checksum p
          /\ Product.created_at p' = Product.created_at p)
      /\ (wf w ->
          forall store_id' ext',
            store_id' <> store_id \/ ext' <> SyncProductItem.external_id item ->
            query_product store_id' ext' w' = query_product store_id' ext' w).
Proof.
  intros store_id item p w Hact Hq Hflush.
  destruct (inventory_write store_id item p w Hact Hq Hflush) as (w' & Hrun & Hprod & _).
  destruct (query_some _ _ _ _ Hq) as (Hin & Hsid & Hext).
  assert (Hkp : product_key store_id (SyncProductItem.external_id item) p = true)
    by (apply product_key_true; tauto).
  exists w', (restocked_row p item w).
  split; [exact Hrun |].
  split.
  { unfold query_product. rewrite Hprod.
    apply (find_replace_same store_id _ p); [exact Hq | reflexivity | exact Hkp]. }
  split; [repeat split |]. split; [repeat split |].
  intros [Hnd _] store_id' ext' Hne. unfold query_product. rewrite Hprod.
  apply (find_replace_other store_id' ext' p); try assumption; try reflexivity.
  - eapply product_key_other; eassumption.
  - change (product_key store_id' ext' p = false).
    eapply product_key_other; eassumption.
Qed.

(** C4 (as amended): syncVersion is 1 on creation and grows by exactly one
    on every write made by [_upsert_product] (the inventory-only path
    writes an item without touching its version, see the counterexample):
    when N successive upserts of one (tenant, externalId) have all
    returned, each carrying a fingerprint different from the stored one,
    the stored version has grown by N; it is therefore N when the item did
    not exist before. *)
Theorem C4_version_counts_upsert_writes :
  forall (store_id : UUID) (ext : string) (sync_type : string)
         (items : list (SyncProductItem.t float)) (w w' : World)
         (outcomes : list string),
    Forall (fun item => SyncProductItem.external_id item = ext) items ->
    fresh_chain (stored_checksum store_id ext w) (map _calculate_checksum items) ->
    upserts store_id sync_type items w = (Ok outcomes, w') ->
    length outcomes = length items
    /\ stored_version store_id ext w'
       = stored_version store_id ext w + Z.of_nat (length items)
    /\ (items <> [] ->
        exists p, query_product store_id ext w' = Some p
                  /\ Product.sync_version p
                     = stored_version store_id ext w + Z.of_nat (length items))
    /\ (query_product store_id ext w = None ->
        forall item rest, items = item :: rest -> hd_error outcomes = Some "created").
Proof.
  intros store_id ext sync_type items w w' outcomes Hext. revert w w' outcomes.
  induction Hext as [| item rest Hitem Hrest IH]; intros w w' outcomes Hchain Hrun.
  - cbn in Hrun. injection Hrun as <- <-. split; [reflexivity |].
    split; [cbn; lia |]. split; [congruence | discriminate].
  - cbn in Hchain. destruct Hchain as [Hfresh Hchain].
    cbn [upserts] in Hrun. unfold bind at 1 in Hrun.
    destruct (_upsert_product store_id item sync_type w) as [[outcome | e] w1] eqn:Hup;
      [| discriminate].
    unfold bind at 1 in Hrun.
    destruct (upserts store_id sync_type rest w1) as [[outcomes1 | e] w2] eqn:Hrest';
      [| discriminate].
    injection Hrun as <- <-.
    assert (Hstep : exists p1,
               query_product store_id ext w1 = Some p1
               /\ Product.sync_version p1 = stored_version store_id ext w + 1
               /\ Product.sync_checksum p1 = Some (_calculate_checksum item)
               /\ (query_product store_id ext w = None -> outcome = "created")).
    { unfold stored_version, stored_checksum in *.
      destruct (upsert_cases _ _ _ _ _ _ Hup)
        as [(p & Hq & Hc & _) | [(p & Hq & _ & Hprod & _) | (Hq & _ & Hprod & Hout)]];
        rewrite Hitem in Hq; rewrite Hq in *.
      - contradiction.
      - destruct (query_some _ _ _ _ Hq) as (_ & Hsid & Hpext).
        assert (Hk : product_key store_id ext p = true)
          by (apply product_key_true; tauto).
        exists (updated_row p item w).
        split; [| split; [reflexivity | split; [reflexivity | discriminate]]].
        unfold query_product. rewrite Hprod.
        apply (find_replace_same store_id ext p); [exact Hq | reflexivity | exact Hk].
      - exists (created_row store_id item w).
        split; [| split; [reflexivity | split; [reflexivity | intros _; exact Hout]]].
        unfold query_product. rewrite Hprod.
        apply find_insert_same; [exact Hq |].
        rewrite <- Hitem. apply new_product_key. }
    destruct Hstep as (p1 & Hq1 & Hv1 & Hc1 & Hcreated).
    assert (Hchain1 : fresh_chain (stored_checksum store_id ext w1)
                        (map _calculate_checksum rest)).
    { unfold stored_checksum. rewrite Hq1, Hc1. exact Hchain. }
    destruct (IH w1 w2 outcomes1 Hchain1 Hrest') as (Hlen & Hver & Hlast & _).
    assert (Hv1' : stored_version store_id ext w1 = stored_version store_id ext w + 1)
      by (unfold stored_version at 1; rewrite Hq1; exact Hv1).
    split; [cbn; congruence |].
    split; [cbn [length]; rewrite Nat2Z.inj_succ; lia |].
    split.
    + intros _. destruct rest as [| item2 rest2].
      * cbn in Hrest'. injection Hrest' as _ <-. exists p1. split; [exact Hq1 |].
        cbn. lia.
      * destruct (Hlast ltac:(discriminate)) as (p & Hp & Hpv).
        exists p. split; [exact Hp |].
        rewrite Hpv, Hv1'. cbn [length]. rewrite !Nat2Z.inj_succ. lia.
    + intros Hnone item0 rest0 _. cbn. rewrite (Hcreated Hnone). reflexivity.
Qed.

(** C1 (as amended): a delta upsert of a record whose fingerprint equals
    the stored one returns the outcome "updated" (the engine has no
    "unchanged" outcome) and leaves the world as it is.  Hence, when a
    batch with pairwise distinct externalIds was applied without a failed
    record, resubmitting it as a delta batch yields created = 0 and
    updated = M with failed = 0, and the products table is left exactly as
    it was: no item is duplicated or rewritten. *)
Theorem C1_unchanged_delta_counts_as_updated :
  forall (store_id : UUID) (sync_type : string) (items : list (SyncProductItem.t float))
         (w w1 : World) (store : Store.t) (resp1 : SyncBatchResponse.t),
    wf w ->
    query_store store_id w = Some store ->
    String.eqb sync_type "inventory_only" = false ->
    NoDup (map SyncProductItem.external_id items) ->
    process_batch_sync store_id sync_type items w = (Ok resp1, w1) ->
    SyncBatchResponse.failed resp1 = 0 ->
    (forall (item : SyncProductItem.t float) (p : Product.t float) (w0 : World),
        pending_rollback w0 = None ->
        query_product store_id (SyncProductItem.external_id item) w0 = Some p ->
        Product.sync_checksum p = Some (_calculate_checksum item) ->
        _upsert_product store_id item "delta" w0 = (Ok "updated", w0))
    /\ (forall item, In item items ->
                     _upsert_product store_id item "delta" w1 = (Ok "updated", w1))
    /\ exists resp2 w2,
         process_batch_sync store_id "delta" items w1 = (Ok resp2, w2)
         /\ SyncBatchResponse.created resp2 = 0
         /\ SyncBatchResponse.updated resp2 = Z.of_nat (length items)
         /\ SyncBatchResponse.processed resp2 = Z.of_nat (length items)
         /\ SyncBatchResponse.failed resp2 = 0
         /\ products w2 = products w1.
Proof.
  intros store_id sync_type items w w1 store resp1 Hwf Hstore Hst Hnd Hrun1 Hfail1.
  split; [intros item p w0; apply upsert_skip |].
  destruct (process_batch_sync_returns _ _ _ _ _ _ Hrun1)
    as (store0 & stats & wa & log & Hact & Hstore0 & Hloop & Hacta & Hframe & _
        & (Hf & _ & _) & Hdone).
  rewrite Hstore in Hstore0. injection Hstore0 as <-.
  destruct Hdone as (_ & Hprod & Hstores & _ & _ & _ & _ & _ & _ & Hact1).
  assert (Hwf0 : wf (started w)).
  { destruct Hwf as [Hn Hlt]. split; cbn; [exact Hn |].
    eapply Forall_impl; [exact Hlt |]. cbn. intros; lia. }
  destruct (sync_loop_synced store_id sync_type Hst items stats0 stats (started w) wa
              Hwf0 Hnd Hloop Hf) as (_ & Hall & _).
  assert (Hall1 : Forall (fun item => synced store_id item w1) items).
  { eapply Forall_impl; [exact Hall |]. cbn. intros item. apply synced_products. exact Hprod. }
  split.
  { intros item Hin. rewrite List.Forall_forall in Hall1.
    destruct (Hall1 item Hin) as (p & Hq & Hc). apply (upsert_skip _ _ p); assumption. }
  assert (Hstore1 : query_store store_id w1 = Some (stamped_store store wa)).
  { unfold query_store. rewrite Hstores.
    destruct Hframe as (Hs & _). rewrite Hs.
    apply (find_replace_store store_id store); [exact Hstore |].
    cbn. eapply query_store_id. exact Hstore. }
  assert (Hall2 : Forall (fun item => synced store_id item (started w1)) items).
  { eapply Forall_impl; [exact Hall1 |]. cbn. intros item. apply synced_products. reflexivity. }
  destruct (sync_loop_all_skipped store_id items (started w1) Hact1 Hall2 stats0)
    as (stats3 & Hloop3 & Hp3 & Hu3 & Hc3 & Hf3 & _).
  destruct (process_batch_sync_run store_id "delta" items w1 (started w1) _ stats3
              Hact1 Hstore1 Hloop3 Hact1) as (resp2 & w2 & log2 & Hrun2 & Hdone2).
  exists resp2, w2. split; [exact Hrun2 |].
  destruct Hdone2 as ((_ & -> & -> & -> & -> & _) & Hprod2 & _).
  rewrite Hc3, Hu3, Hp3, Hf3, Hprod2. cbn. repeat split; lia.
Qed.

End Claims.

(** ** Further properties of the engine *)

Section EngineInvariants.
Import Session SyncEngine.
Context {L : PyFloat} {B : Backend}.
#[local] Abbreviation World := (Session.World float) (only parsing).

(** What the call for one record does to the products table: nothing, the
    UPDATE of the row found for the key, or the INSERT of a row for a key
    that had none. *)
Lemma sync_record_table (store_id : UUID) (sync_type : string)
    (item : SyncProductItem.t float) (w w' : World) (r : result string) :
  sync_record store_id sync_type item w = (r, w') ->
  (next_uuid w <= next_uuid w')%nat
  /\ ((products w' = products w /\ r <> Ok "created")
      \/ (exists p p',
             query_product store_id (SyncProductItem.external_id item) w = Some p
             /\ products w' = replace_product p' (products w)
             /\ Product.id p' = Product.id p
             /\ index_key p' = (store_id, SyncProductItem.external_id item)
             /\ stock_ok p'
             /\ Product.quantity p' = SyncProductItem.quantity item
             /\ r = Ok "updated")
      \/ (exists p',
             query_product store_id (SyncProductItem.external_id item) w = None
             /\ products w' = products w ++ [p']
             /\ (Product.id p' < next_uuid w')%nat
             /\ Product.id p' = next_uuid w
             /\ index_key p' = (store_id, SyncProductItem.external_id item)
             /\ stock_ok p'
             /\ Product.quantity p' = SyncProductItem.quantity item
             /\ r = Ok "created")).
Proof.
  destruct (pending_rollback w) as [original |] eqn:Hact.
  { intros Hrec. rewrite (sync_record_pending _ _ _ _ _ Hact) in Hrec.
    injection Hrec as <- <-. split; [lia |]. left. split; [reflexivity | discriminate]. }
  assert (Hupsert : forall st,
             _upsert_product store_id item st w = (r, w') ->
             (next_uuid w <= next_uuid w')%nat
             /\ ((products w' = products w /\ r <> Ok "created")
                 \/ (exists p p',
                        query_product store_id (SyncProductItem.external_id item) w = Some p
                        /\ products w' = replace_product p' (products w)
                        /\ Product.id p' = Product.id p
                        /\ index_key p' = (store_id, SyncProductItem.external_id item)
                        /\ stock_ok p'
                        /\ Product.quantity p' = SyncProductItem.quantity item
                        /\ r = Ok "updated")
                 \/ (exists p',
                        query_product store_id (SyncProductItem.external_id item) w = None
                        /\ products w' = products w ++ [p']
                        /\ (Product.id p' < next_uuid w')%nat
                        /\ Product.id p' = next_uuid w
                        /\ index_key p' = (store_id, SyncProductItem.external_id item)
                        /\ stock_ok p'
                        /\ Product.quantity p' = SyncProductItem.quantity item
                        /\ r = Ok "created"))).
  { intros st. unfold _upsert_product. unfold bind at 1.
    rewrite (connection_active w Hact).
    unfold bind, connection, utcnow, uuid4, ret, commit_update, commit_insert.
    destruct (query_product store_id (SyncProductItem.external_id item) w) as [p |] eqn:Hq.
    - destruct (query_some _ _ _ _ Hq) as (_ & Hsid & Hext).
      destruct (String.eqb st "delta" && _).
      + intros [= <- <-]. split; [lia |]. left. split; [reflexivity | discriminate].
      + cbn. rewrite Hact. destruct (flush_error _) as [msg |]; intros [= <- <-]; cbn;
          (split; [lia |]).
        * left. split; [reflexivity | discriminate].
        * right. left. exists p, (updated_row p item w). split; [reflexivity |].
          split; [reflexivity |]. split; [reflexivity |].
          split; [unfold index_key; cbn; congruence |].
          repeat split.
    - cbn. rewrite Hact. destruct (flush_error _) as [msg |]; intros [= <- <-]; cbn;
        (split; [lia |]).
      + left. split; [reflexivity | discriminate].
      + right. right. exists (created_row store_id item w). split; [reflexivity |].
        split; [reflexivity |]. cbn. repeat split. lia. }
  unfold sync_record. destruct (String.eqb sync_type "inventory_only"); [| apply Hupsert].
  destruct (query_product store_id (SyncProductItem.external_id item) w) as [p |] eqn:Hq.
  - destruct (query_some _ _ _ _ Hq) as (_ & Hsid & Hext).
    unfold _update_inventory_only. unfold bind at 1. rewrite (connection_active w Hact).
    unfold bind, connection, utcnow, ret, commit_update, redis_delete.
    rewrite Hq. cbn. rewrite Hact.
    destruct (flush_error _) as [msg |]; intros [= <- <-]; cbn; (split; [lia |]).
    + left. split; [reflexivity | discriminate].
    + right. left. exists p, (restocked_row p item w). split; [reflexivity |].
      split; [reflexivity |]. split; [reflexivity |].
      split; [unfold index_key; cbn; congruence |].
      repeat split.
  - rewrite (inventory_absent _ _ _ Hq). apply Hupsert.
Qed.

Lemma replace_product_length (p' : Product.t float) (ps : list (Product.t float)) :
  length (replace_product p' ps) = length ps.
Proof. unfold replace_product. apply length_map. Qed.

(** With unique primary keys the UPDATE touches the one row it loaded. *)
Lemma replace_product_unique (f : Product.t float -> UUID * string)
    (p p' : Product.t float) (ps : list (Product.t float)) :
  NoDup (map Product.id ps) ->
  In p ps ->
  Product.id p' = Product.id p ->
  f p' = f p ->
  map f (replace_product p' ps) = map f ps.
Proof.
  intros Hnd Hin Hid Hf. unfold replace_product.
  induction ps as [| q ps IH]; [reflexivity |].
  cbn in Hnd |- *. apply NoDup_cons in Hnd as [Hq Hnd].
  destruct (Nat.eqb (Product.id q) (Product.id p')) eqn:Heq.
  - apply Nat.eqb_eq in Heq.
    assert (q = p) as ->.
    { destruct Hin as [-> | Hin]; [reflexivity |].
      exfalso. apply Hq. rewrite Heq, Hid. apply list_elem_of_In, in_map, Hin. }
    rewrite Hf. f_equal.
    clear IH Hin Hnd. induction ps as [| r ps IHps]; [reflexivity |].
    cbn. destruct (Nat.eqb (Product.id r) (Product.id p')) eqn:Hr.
    + exfalso. apply Hq. apply Nat.eqb_eq in Hr. rewrite Hid in Hr.
      rewrite <- Hr. cbn. left.
    + f_equal. apply IHps. intros Hin. apply Hq. cbn. right. exact Hin.
  - f_equal. apply IH; [exact Hnd |].
    destruct Hin as [-> | Hin]; [| exact Hin].
    rewrite Hid, Nat.eqb_refl in Heq. discriminate.
Qed.


Lemma sync_record_wf (store_id : UUID) (sync_type : string)
    (item : SyncProductItem.t float) (w w' : World) (r : result string) :
  sync_record store_id sync_type item w = (r, w') -> wf w -> wf w'.
Proof.
  intros Hrec [Hnd Hlt].
  destruct (sync_record_table _ _ _ _ _ _ Hrec) as (Hu & [(Hp & _) | [Hupd | Hins]]).
  - split; rewrite Hp; [exact Hnd |].
    eapply Forall_impl; [exact Hlt |]. cbn. intros; lia.
  - destruct Hupd as (p & p' & Hq & Hp & Hid & _).
    destruct (query_some _ _ _ _ Hq) as (Hin & _).
    split; rewrite Hp.
    + rewrite replace_product_ids. exact Hnd.
    + apply List.Forall_forall. intros q Hq'.
      apply in_map_iff in Hq' as (q0 & Hq0 & Hin0).
      rewrite List.Forall_forall in Hlt.
      destruct (Nat.eqb (Product.id q0) (Product.id p')); subst q.
      * rewrite Hid. specialize (Hlt p Hin). lia.
      * specialize (Hlt q0 Hin0). lia.
  - destruct Hins as (p' & _ & Hp & Hlt' & Hid & _).
    split; rewrite Hp.
    + rewrite map_app. apply NoDup_app. split; [exact Hnd |]. split.
      * intros x Hx Hx'. cbn in Hx'. apply list_elem_of_In in Hx, Hx'.
        destruct Hx' as [<- | []].
        apply in_map_iff in Hx as (q & Hq & Hin).
        rewrite List.Forall_forall in Hlt. specialize (Hlt q Hin). lia.
      * cbn. apply NoDup_singleton.
    + apply Forall_app. split.
      * eapply Forall_impl; [exact Hlt |]. cbn. intros; lia.
      * constructor; [exact Hlt' | constructor].
Qed.

(** How a session ends, whatever it answers: it raises before the loop
    (the session was inactive or the store is unknown); or the loop ran and
    left the session inactive, and the commit that follows raises; or the
    loop ran without a failed record, and the session returns. *)
Lemma process_batch_sync_outcome (store_id : UUID) (sync_type : string)
    (items : list (SyncProductItem.t float)) (w w' : World)
    (r : result SyncBatchResponse.t) :
  process_batch_sync store_id sync_type items w = (r, w') ->
  (w' = started w /\ exists e, r = Raise e)
  \/ exists (store : Store.t) (stats : Stats) (w1 : World),
       pending_rollback w = None
       /\ query_store store_id w = Some store
       /\ sync_loop store_id sync_type stats0 items (started w) = (Ok stats, w1)
       /\ frame (started w) w1
       /\ tally stats0 stats items
       /\ ((exists original,
               pending_rollback w1 = Some original
               /\ r = Raise (PendingRollbackError original)
               /\ w' = snd (utcnow w1)
               /\ 0 < failed stats)
           \/ (exists resp log,
                  pending_rollback w1 = None
                  /\ r = Ok resp
                  /\ failed stats = 0
                  /\ errors stats = []
                  /\ processed stats = Z.of_nat (length items)
                  /\ completes store_id sync_type store stats w1 resp w' log)).
Proof.
  intros Hrun.
  destruct (process_batch_sync_cases store_id sync_type items w)
    as [(_ & e & Hraise) | (store & stats & w1 & Hact & Hstore & Hloop & Hframe & Htally)].
  { left. rewrite Hraise in Hrun. injection Hrun as <- <-. split; [reflexivity |].
    exists e. reflexivity. }
  right. exists store, stats, w1.
  repeat (split; [assumption |]).
  destruct (sync_loop_session _ _ _ _ _ _ _ Hloop) as (Hend & Hbad & _).
  destruct (pending_rollback w1) as [original |] eqn:Hact1.
  - left. exists original.
    rewrite (process_batch_sync_aborts _ _ _ _ _ _ _ _ Hact Hstore Hloop Hact1) in Hrun.
    injection Hrun as <- <-. repeat split.
    destruct items as [| item items].
    + cbn in Hloop. injection Hloop as _ <-. cbn in Hact1. congruence.
    + specialize (Hbad ltac:(discriminate) ltac:(discriminate)). cbn in Hbad. lia.
  - right.
    destruct (process_batch_sync_run _ _ _ _ _ _ _ Hact Hstore Hloop Hact1)
      as (resp0 & w0 & log & Hrun0 & Hdone).
    rewrite Hrun in Hrun0. injection Hrun0 as -> ->.
    destruct (Hend eq_refl) as (_ & Hf & He & Hp). cbn in Hf, He, Hp.
    exists resp0, log.
    split; [reflexivity |]. split; [reflexivity |]. split; [exact Hf |].
    split; [exact He |]. split; [lia | exact Hdone].
Qed.

(** A property of the products table and the identifier supply that every
    record call keeps is kept by a whole session, whether the session
    returns or raises. *)
Lemma process_batch_sync_invariant (P : World -> Prop) (store_id : UUID)
    (sync_type : string) (items : list (SyncProductItem.t float))
    (w w' : World) (r : result SyncBatchResponse.t) :
  (forall a b : World,
      products b = products a -> (next_uuid a <= next_uuid b)%nat -> P a -> P b) ->
  (forall (item : SyncProductItem.t float) (a b : World) (r : result string),
      P a -> sync_record store_id sync_type item a = (r, b) -> P b) ->
  P w ->
  process_batch_sync store_id sync_type items w = (r, w') ->
  P w'.
Proof.
  intros Hext Hstep HP Hrun.
  assert (HP0 : P (started w)).
  { apply (Hext w); [reflexivity | cbn; lia | exact HP]. }
  destruct (process_batch_sync_outcome _ _ _ _ _ _ Hrun)
    as [(-> & _) | (store & stats & w1 & _ & _ & Hloop & _ & _ & Hend)];
    [exact HP0 |].
  assert (Hloop' : forall items stats a stats' b,
             P a -> sync_loop store_id sync_type stats items a = (Ok stats', b) -> P b).
  { clear - Hstep. induction items as [| item items IH]; intros stats a stats' b Ha Hl.
    - cbn in Hl. injection Hl as <- <-. exact Ha.
    - cbn [sync_loop] in Hl. unfold bind at 1 in Hl. rewrite sync_one_cases in Hl.
      destruct (sync_record store_id sync_type item a) as [[o | e] a1] eqn:Hrec;
        (eapply (IH _ a1); [eapply Hstep; eassumption | exact Hl]). }
  pose proof (Hloop' _ _ _ _ _ HP0 Hloop) as HP1.
  destruct Hend as [(original & _ & _ & -> & _) | (resp & log & _ & _ & _ & _ & _ & Hdone)].
  - apply (Hext w1); [reflexivity | cbn; lia | exact HP1].
  - destruct Hdone as (_ & Hprod & _ & _ & _ & _ & _ & _ & Huuid & _).
    apply (Hext w1); [exact Hprod | lia | exact HP1].
Qed.

Lemma find_none_key (store_id : UUID) (ext : string) (ps : list (Product.t float)) :
  List.find (product_key store_id ext) ps = None ->
  ~ In (store_id, ext) (map index_key ps).
Proof.
  intros Hnone Hin. apply in_map_iff in Hin as (q & Hkey & Hq).
  pose proof (List.find_none _ _ Hnone q Hq) as Hf.
  unfold index_key in Hkey. injection Hkey as Hs He.
  assert (product_key store_id ext q = true) by (apply product_key_true; tauto).
  congruence.
Qed.


Lemma count_success_created (stats : Stats) (outcome : string) :
  created (count_success stats outcome)
  = created stats + (if String.eqb outcome "created" then 1 else 0).
Proof.
  unfold count_success. destruct (String.eqb outcome "created"); cbn; [reflexivity |].
  destruct (String.eqb outcome "updated"); cbn; lia.
Qed.

Lemma sync_loop_rows (store_id : UUID) (sync_type : string)
    (items : list (SyncProductItem.t float)) :
  forall (stats stats' : Stats) (w w' : World),
    sync_loop store_id sync_type stats items w = (Ok stats', w') ->
    Z.of_nat (length (products w')) - Z.of_nat (length (products w))
    = created stats' - created stats.
Proof.
  induction items as [| item items IH]; intros stats stats' w w' Hloop.
  - cbn in Hloop. injection Hloop as <- <-. lia.
  - cbn [sync_loop] in Hloop. unfold bind at 1 in Hloop.
    rewrite sync_one_cases in Hloop.
    destruct (sync_record store_id sync_type item w) as [r w1] eqn:Hrec.
    destruct (sync_record_table _ _ _ _ _ _ Hrec) as (_ & Hcases).
    assert (Hstep : exists stats1,
               sync_loop store_id sync_type stats1 items w1 = (Ok stats', w')
               /\ Z.of_nat (length (products w1)) - Z.of_nat (length (products w))
                  = created stats1 - created stats).
    { destruct Hcases as [(Hp & Hne) | [Hupd | Hins]].
      - rewrite Hp. destruct r as [o | e]; eexists; (split; [exact Hloop |]).
        + rewrite count_success_created.
          destruct (String.eqb_spec o "created"); [congruence | lia].
        + cbn. lia.
      - destruct Hupd as (p & p' & _ & Hp & _ & _ & _ & _ & ->).
        eexists. split; [exact Hloop |].
        rewrite Hp, replace_product_length, count_success_created. cbn. lia.
      - destruct Hins as (p' & _ & Hp & _ & _ & _ & _ & _ & ->).
        eexists. split; [exact Hloop |].
        rewrite Hp, length_app, count_success_created. cbn. lia. }
    destruct Hstep as (stats1 & Hloop1 & Hlen).
    specialize (IH _ _ _ _ Hloop1). lia.
Qed.

(** X2: no session removes a row of the products table, whether it
    returns or raises; and the created counter of a session that returns
    is the number of rows the session added: every record of its batch
    was processed, as created or as updated, and a record counted as
    updated adds no row. *)
Theorem X2_created_counts_inserted_rows :
  forall (store_id : UUID) (sync_type : string) (items : list (SyncProductItem.t float))
         (w w' : World) (r : result SyncBatchResponse.t),
    process_batch_sync store_id sync_type items w = (r, w') ->
    (length (products w) <= length (products w'))%nat
    /\ forall resp,
         r = Ok resp ->
         Z.of_nat (length (products w'))
         = Z.of_nat (length (products w)) + SyncBatchResponse.created resp
         /\ 0 <= SyncBatchResponse.created resp
         /\ 0 <= SyncBatchResponse.updated resp
         /\ SyncBatchResponse.created resp + SyncBatchResponse.updated resp
            = SyncBatchResponse.processed resp
         /\ SyncBatchResponse.processed resp = Z.of_nat (length items).
Proof.
  intros store_id sync_type items w w' r Hrun.
  destruct (process_batch_sync_outcome _ _ _ _ _ _ Hrun)
    as [(-> & e & ->) | (store & stats & w1 & _ & _ & Hloop & _ & Ht & Hend)].
  { split; [cbn; lia | discriminate]. }
  pose proof (sync_loop_rows _ _ _ _ _ _ _ Hloop) as Hrows.
  destruct Ht as (_ & _ & _ & T4 & T5 & T6 & _).
  cbn in Hrows, T4, T5, T6.
  destruct Hend as [(original & _ & -> & -> & _)
                   | (resp & log & _ & -> & _ & _ & Hp & Hdone)].
  - split; [cbn; lia | discriminate].
  - destruct Hdone as ((_ & Hproc & Hcre & Hupd & _) & Hprod & _).
    rewrite Hprod. split; [lia |].
    intros resp0 [= <-]. rewrite Hproc, Hcre, Hupd. repeat split; lia.
Qed.

(** X3: the engine keeps the unique index on (store, externalId): when
    primary keys are unique and no two rows share a store and an
    externalId, the same holds after a session, whether it returns or
    raises and whatever the batch holds (repeated externalIds included). *)
Theorem X3_unique_index_kept :
  forall (store_id : UUID) (sync_type : string) (items : list (SyncProductItem.t float))
         (w w' : World) (r : result SyncBatchResponse.t),
    wf w ->
    NoDup (map index_key (products w)) ->
    process_batch_sync store_id sync_type items w = (r, w') ->
    wf w' /\ NoDup (map index_key (products w')).
Proof.
  intros store_id sync_type items w w' r Hwf Hkeys Hrun.
  apply (process_batch_sync_invariant
           (fun a => wf a /\ NoDup (map index_key (products a)))
           store_id sync_type items w w' r); [| | tauto | exact Hrun].
  - intros a b Hp Hu [[Hnd Hlt] Hk]. unfold wf. rewrite Hp.
    split; [| exact Hk]. split; [exact Hnd |].
    eapply Forall_impl; [exact Hlt |]. cbn. intros; lia.
  - intros item a b r0 [Hwfa Hk] Hrec.
    split; [eapply sync_record_wf; eassumption |].
    destruct (sync_record_table _ _ _ _ _ _ Hrec) as (_ & [(Hp & _) | [Hupd | Hins]]).
    + rewrite Hp. exact Hk.
    + destruct Hupd as (p & p' & Hq & Hp & Hid & Hkey & _).
      destruct (query_some _ _ _ _ Hq) as (Hin & Hsid & Hext).
      rewrite Hp. destruct Hwfa as [Hnd _].
      rewrite (replace_product_unique index_key p p'); try assumption.
      rewrite Hkey. unfold index_key. congruence.
    + destruct Hins as (p' & Hq & Hp & _ & _ & Hkey & _).
      rewrite Hp, map_app. cbn. apply NoDup_app. split; [exact Hk |].
      split; [| apply NoDup_singleton].
      intros x Hx Hx'. apply list_elem_of_In in Hx, Hx'. destruct Hx' as [<- | []].
      rewrite Hkey in Hx. exact (find_none_key _ _ _ Hq Hx).
Qed.

(** X4: the engine keeps the stock flag in step with the quantity: when
    every row has isInStock = (quantity > 0) before a session, every row
    has it afterwards, on all three sync types and whether the session
    returns or raises. *)
Theorem X4_stock_flag_kept :
  forall (store_id : UUID) (sync_type : string) (items : list (SyncProductItem.t float))
         (w w' : World) (r : result SyncBatchResponse.t),
    Forall stock_ok (products w) ->
    process_batch_sync store_id sync_type items w = (r, w') ->
    Forall stock_ok (products w').
Proof.
  intros store_id sync_type items w w' r Hall Hrun.
  apply (process_batch_sync_invariant (fun a => Forall stock_ok (products a))
           store_id sync_type items w w' r); [| | exact Hall | exact Hrun].
  - intros a b Hp _ Ha. rewrite Hp. exact Ha.
  - intros item a b r0 Ha Hrec.
    destruct (sync_record_table _ _ _ _ _ _ Hrec) as (_ & [(Hp & _) | [Hupd | Hins]]).
    + rewrite Hp. exact Ha.
    + destruct Hupd as (p & p' & _ & Hp & _ & _ & Hstock & _).
      rewrite Hp. apply List.Forall_forall. intros q Hq.
      apply in_map_iff in Hq as (q0 & Hq0 & Hin0).
      rewrite List.Forall_forall in Ha.
      destruct (Nat.eqb (Product.id q0) (Product.id p')); subst q; auto.
    + destruct Hins as (p' & _ & Hp & _ & _ & _ & Hstock & _).
      rewrite Hp. apply Forall_app. split; [exact Ha |]. constructor; [exact Hstock | constructor].
Qed.

(** X5: the inventory-only path leaves the stored fingerprint stale, so a
    later delta record that still carries the old content is skipped: when
    an item is stored with the fingerprint of [item], an inventory-only
    update to the quantity of [item'] followed by a delta upsert of [item]
    leaves the stored quantity at that of [item'], and the upsert answers
    "updated" without writing. *)
Theorem X5_inventory_then_delta_keeps_inventory_quantity :
  forall (store_id : UUID) (item item' : SyncProductItem.t float) (p : Product.t float)
         (w : World),
    pending_rollback w = None ->
    SyncProductItem.external_id item' = SyncProductItem.external_id item ->
    query_product store_id (SyncProductItem.external_id item) w = Some p ->
    Product.sync_checksum p = Some (_calculate_checksum item) ->
    flush_error (restocked_row p item' w) = None ->
    exists w1 p1,
      _update_inventory_only store_id item' w = (Ok "updated", w1)
      /\ _upsert_product store_id item "delta" w1 = (Ok "updated", w1)
      /\ query_product store_id (SyncProductItem.external_id item) w1 = Some p1
      /\ Product.quantity p1 = SyncProductItem.quantity item'
      /\ Product.sync_checksum p1 = Some (_calculate_checksum item).
Proof.
  intros store_id item item' p w Hact Hext Hq Hsum Hflush.
  rewrite <- Hext in Hq.
  destruct (inventory_write store_id item' p w Hact Hq Hflush)
    as (w1 & Hrun & Hprod & Hrest).
  assert (Hact1 : pending_rollback w1 = None) by tauto.
  destruct (query_some _ _ _ _ Hq) as (_ & Hsid & Hpext).
  assert (Hq1 : query_product store_id (SyncProductItem.external_id item) w1
                = Some (restocked_row p item' w)).
  { unfold query_product. rewrite Hprod, <- Hext.
    apply (find_replace_same store_id _ p); [exact Hq | reflexivity |].
    apply product_key_true. split; assumption. }
  exists w1, (restocked_row p item' w).
  split; [exact Hrun |]. split.
  { apply (upsert_skip store_id item (restocked_row p item' w));
      [exact Hact1 | exact Hq1 | exact Hsum]. }
  split; [exact Hq1 |]. split; [reflexivity | exact Hsum].
Qed.

(** X6: the SyncLog row of a session accounts for every record of the
    batch.  A session that returns appends exactly one row: recordsReceived
    is the size of the batch, created and updated add up to it, no record
    is counted as failed, errorDetails is empty and the status is
    "success".  A session that raises appends no row. *)
Theorem X6_sync_log_accounts_for_batch :
  forall (store_id : UUID) (sync_type : string) (items : list (SyncProductItem.t float))
         (w w' : World) (r : result SyncBatchResponse.t),
    process_batch_sync store_id sync_type items w = (r, w') ->
    match r with
    | Ok resp =>
        exists log,
          sync_logs w' = sync_logs w ++ [log]
          /\ SyncLog.store_id log = store_id
          /\ SyncLog.sync_type log = sync_type
          /\ SyncLog.records_received log = Z.of_nat (length items)
          /\ SyncLog.records_created log + SyncLog.records_updated log
             = Z.of_nat (length items)
          /\ SyncLog.records_created log = SyncBatchResponse.created resp
          /\ SyncLog.records_updated log = SyncBatchResponse.updated resp
          /\ SyncLog.records_failed log = SyncBatchResponse.failed resp
          /\ SyncLog.records_failed log = 0
          /\ SyncLog.error_details log = None
          /\ SyncLog.status log = "success"
    | Raise _ => sync_logs w' = sync_logs w
    end.
Proof.
  intros store_id sync_type items w w' r Hrun.
  destruct r as [resp | e].
  2:{ destruct (process_batch_sync_raises _ _ _ _ _ _ Hrun) as (_ & Hl & _). exact Hl. }
  destruct (process_batch_sync_returns _ _ _ _ _ _ Hrun)
    as (store & stats & w1 & log & _ & _ & _ & _ & Hframe & Ht & (Hf & He & Hp) & Hdone).
  destruct Hdone as ((_ & _ & Hcre & Hupd & Hfail & _) & _ & _ & Hlogs & Hlog & _).
  destruct Hlog as (Hsid & Hty & Hst & Hrecv & Hcr & Hup & Hfl & Hdet).
  destruct Hframe as (_ & _ & Hl & _). cbn in Hl.
  destruct Ht as (_ & _ & _ & _ & _ & T6 & _). cbn in T6.
  exists log. rewrite Hlogs, Hl, Hrecv, Hcr, Hup, Hfl, Hcre, Hupd, Hfail, Hdet, Hst, He.
  unfold log_status. rewrite Hf. cbn.
  repeat split; try assumption; lia.
Qed.

(** X7: the batch endpoint writes nothing unless the key resolves to an
    active store and the body validates as a request for that same store:
    otherwise it answers with an error and the world is as before.  A valid
    key used with the id of another store is answered 500 ("Sync operation
    failed"), because the 403 raised inside the handler's [try] is caught
    by its own [except Exception]. *)
Theorem X7_endpoint_writes_only_when_authorised :
  forall (x_api_key : string) (body : SyncBatchRequest.raw float) (w : World),
    pending_rollback w = None ->
    ~ authorised x_api_key body w ->
    exists code detail,
      Endpoint.sync_products_batch x_api_key body w = (Endpoint.HttpError code detail, w)
      /\ (code = 401 \/ code = 403 \/ code = 422 \/ code = 500)
      /\ (forall store request,
             query_store_by_key x_api_key w = Some store ->
             Store.is_active store = true ->
             SyncBatchRequest.validate body = Some request ->
             code = 500 /\ detail = "Sync operation failed").
Proof.
  intros x_api_key body w Hidle Hno.
  unfold Endpoint.sync_products_batch. rewrite (SessionLocal_idle w Hidle).
  unfold Endpoint.verify_sync_api_key. unfold bind at 1.
  rewrite (connection_active w Hidle).
  destruct (query_store_by_key x_api_key w) as [store |] eqn:Hkey.
  - destruct (Store.is_active store) eqn:Hact; cbn.
    + destruct (SyncBatchRequest.validate body) as [request |] eqn:Hval.
      * unfold Endpoint.sync_body.
        destruct (Nat.eqb_spec (Store.id store) (SyncBatchRequest.store_id request))
          as [Hid | Hid].
        { exfalso. apply Hno. exists store, request. tauto. }
        cbn. rewrite (close_idle w Hidle). exists 500, "Sync operation failed".
        split; [reflexivity |]. split; [tauto |]. intros; split; reflexivity.
      * rewrite (close_idle w Hidle). exists 422, "validation error".
        split; [reflexivity |]. split; [tauto |]. intros ? ? _ _ [=].
    + rewrite (close_idle w Hidle). exists 403, "Store is not active".
      split; [reflexivity |]. split; [tauto |]. intros ? ? [= <-] ?. congruence.
  - cbn. rewrite (close_idle w Hidle). exists 401, "Invalid API key".
    split; [reflexivity |]. split; [tauto |]. intros ? ? [=].
Qed.

Lemma classify_interval_cases (m : Tier.Metrics) :
  let o := Tier.orders_per_day m in
  let u := Tier.products_updated_per_day m in
  (snd (Tier.classify m) = 5 /\ (50 <= o \/ 100 <= u))
  \/ (snd (Tier.classify m) = 15 /\ o < 50 /\ u < 100 /\ (20 <= o \/ 30 <= u))
  \/ (snd (Tier.classify m) = 60 /\ o < 20 /\ u < 30 /\ (5 <= o \/ 10 <= u))
  \/ (snd (Tier.classify m) = 240 /\ o < 5 /\ u < 10).
Proof.
  destruct m as [o u t]. cbn. unfold Tier.classify, Tier._calculate_tier. cbn.
  destruct (Z.leb_spec 50 o); [left; split; [reflexivity | lia] |].
  destruct (Z.leb_spec 100 u); [left; split; [reflexivity | lia] |].
  destruct (Z.leb_spec 20 o); [right; left; split; [reflexivity | lia] |].
  destruct (Z.leb_spec 30 u); [right; left; split; [reflexivity | lia] |].
  destruct (Z.leb_spec 5 o); [right; right; left; split; [reflexivity | lia] |].
  destruct (Z.leb_spec 10 u); [right; right; left; split; [reflexivity | lia] |].
  right; right; right. split; [reflexivity | lia].
Qed.

(** X9: tier classification is monotone in activity: a store with at
    least as many orders and at least as many catalog updates is never
    given a longer sync interval. *)
Theorem X9_more_activity_never_longer_interval :
  forall m m' : Tier.Metrics,
    Tier.orders_per_day m <= Tier.orders_per_day m' ->
    Tier.products_updated_per_day m <= Tier.products_updated_per_day m' ->
    snd (Tier.classify m') <= snd (Tier.classify m).
Proof.
  intros m m' Ho Hu.
  pose proof (classify_interval_cases m) as H.
  pose proof (classify_interval_cases m') as H'.
  cbn zeta in H, H'. lia.
Qed.

(** X10: the tier manager writes a store only when its tier changes.  On
    an existing store it computes the tier of the current metrics; when
    that is the stored tier the stores table is left as it is (the stored
    interval and updatedAt included); otherwise the row gets the new tier
    together with the interval of that tier, and its updatedAt is the time
    of the write.  Products, orders and logs are never touched. *)
Theorem X10_tier_written_only_on_change :
  forall (store_id : UUID) (w : World) (store : Store.t),
    pending_rollback w = None ->
    query_store store_id w = Some store ->
    exists metrics w',
      returned (TierManager._get_activity_metrics store_id w) = Some metrics
      /\ TierManager.evaluate_and_adjust_tier store_id w = (Ok tt, w')
      /\ products w' = products w
      /\ orders w' = orders w
      /\ sync_logs w' = sync_logs w
      /\ pending_rollback w' = None
      /\ (Store.sync_tier store = Some (Tier._calculate_tier metrics) ->
          stores w' = stores w)
      /\ (Store.sync_tier store <> Some (Tier._calculate_tier metrics) ->
          exists store',
            query_store store_id w' = Some store'
            /\ stores w' = replace_store store' (stores w)
            /\ Store.sync_tier store' = Some (Tier._calculate_tier metrics)
            /\ Store.sync_interval_minutes store'
               = Tier._get_sync_interval (Some (Tier._calculate_tier metrics))
            /\ Store.updated_at store' = clock w + 1
            /\ Store.id store' = Store.id store
            /\ Store.name store' = Store.name store
            /\ Store.last_sync_at store' = Store.last_sync_at store
            /\ Store.sync_api_key store' = Store.sync_api_key store
            /\ Store.is_active store' = Store.is_active store).
Proof.
  intros store_id w store Hact Hstore.
  unfold TierManager.evaluate_and_adjust_tier. unfold bind at 1.
  rewrite (connection_active w Hact), Hstore.
  unfold TierManager._get_activity_metrics, returned, bind, utcnow, connection, ret.
  cbn. rewrite Hact.
  match goal with
  | |- context [bool_decide (Some ?t = Store.sync_tier store)] =>
      set (tier := t); destruct (bool_decide_reflect (Some tier = Store.sync_tier store))
        as [Heq | Hne]
  end.
  - eexists. eexists. split; [reflexivity |].
    split; [reflexivity |]. cbn. repeat split; try reflexivity; try assumption.
    intros Hdiff. exfalso. apply Hdiff. symmetry. exact Heq.
  - unfold commit_store, bind, utcnow, connection. cbn.
    eexists. eexists. split; [reflexivity |].
    split; [reflexivity |]. cbn. repeat split; try reflexivity; try assumption.
    + intros Hsame. exfalso. apply Hne. symmetry. exact Hsame.
    + intros _.
      exists (onupdate (TierManager.set_tier store tier (Tier._get_sync_interval (Some tier)))
                (clock w + 1)).
      split; [| repeat split].
      assert (Hfind : List.find (fun s => Nat.eqb (Store.id s) store_id)
                        (replace_store
                           (onupdate (TierManager.set_tier store tier
                                        (Tier._get_sync_interval (Some tier)))
                              (clock w + 1)) (stores w))
                      = Some (onupdate (TierManager.set_tier store tier
                                          (Tier._get_sync_interval (Some tier)))
                                (clock w + 1))).
      { apply (find_replace_store store_id store _ (stores w) Hstore).
        cbn. eapply query_store_id. exact Hstore. }
      exact Hfind.
Qed.

End EngineInvariants.

(** ** Further properties of the endpoint and of change detection *)

Section EngineComposition.
Import Session SyncEngine.
Context {L : PyFloat} {B : Backend}.
#[local] Abbreviation World := (Session.World float) (only parsing).



(** X18: change detection looks at four fields only.  Once a record is
    stored, a delta upsert of a record for the same external id with the
    same name, mrp, selling price and quantity writes nothing and returns
    "updated", whatever its description, unit, sku, barcode, category, hsn
    code or gst percent are: changes confined to those fields are not
    picked up by a delta sync. *)
Theorem X18_delta_ignores_fields_outside_checksum :
  forall (store_id : UUID) (sync_type outcome : string)
         (item item' : SyncProductItem.t float) (w w1 : World),
    _upsert_product store_id item sync_type w = (Ok outcome, w1) ->
    SyncProductItem.external_id item' = SyncProductItem.external_id item ->
    SyncProductItem.name item' = SyncProductItem.name item ->
    SyncProductItem.mrp item' = SyncProductItem.mrp item ->
    SyncProductItem.selling_price item' = SyncProductItem.selling_price item ->
    SyncProductItem.quantity item' = SyncProductItem.quantity item ->
    _upsert_product store_id item' "delta" w1 = (Ok "updated", w1).
Proof.
  intros store_id sync_type outcome item item' w w1 Hrun Hext Hname Hmrp Hsp Hq.
  destruct (upsert_effect _ _ _ _ _ _ Hrun)
    as (_ & _ & _ & _ & _ & (p & Hp & Hc) & _ & Hact1).
  apply (upsert_skip store_id item' p w1).
  - exact Hact1.
  - rewrite Hext. exact Hp.
  - rewrite Hc. unfold _calculate_checksum. rewrite Hname, Hmrp, Hsp, Hq. reflexivity.
Qed.


(** X20: what the handler can rely on.  In a request that passed
    validation the sync type is one of the three known ones, the batch has
    between 1 and 1000 records, and every record has a non-empty external
    id, a name of at least two characters, an mrp and a selling price
    above 0, a quantity that is not negative (0 when the body gave none),
    and as gst percent the number of the body, which then lies between 0
    and 100, 0 when the body has no such key, and nothing when the body
    holds null there. *)
Theorem X20_validated_request_shape :
  forall (body : SyncBatchRequest.raw float) (request : SyncBatchRequest.t float),
    SyncBatchRequest.validate body = Some request ->
    SyncBatchRequest.store_id request = SyncBatchRequest.raw_store_id body
    /\ (SyncBatchRequest.sync_type request = "delta"
        \/ SyncBatchRequest.sync_type request = "full"
        \/ SyncBatchRequest.sync_type request = "inventory_only")
    /\ (1 <= length (SyncBatchRequest.products request) <= 1000)%nat
    /\ Forall2 (fun raw item =>
                  RawItem.external_id raw = Some (SyncProductItem.external_id item)
                  /\ RawItem.name raw = Some (SyncProductItem.name item)
                  /\ (1 <= String.length (SyncProductItem.external_id item))%nat
                  /\ (2 <= String.length (SyncProductItem.name item))%nat
                  /\ RawItem.mrp raw = Some (SyncProductItem.mrp item)
                  /\ fltb (float_of_Z 0) (SyncProductItem.mrp item) = true
                  /\ RawItem.selling_price raw = Some (SyncProductItem.selling_price item)
                  /\ fltb (float_of_Z 0) (SyncProductItem.selling_price item) = true
                  /\ SyncProductItem.quantity item = default 0 (RawItem.quantity raw)
                  /\ 0 <= SyncProductItem.quantity item
                  /\ SyncProductItem.gst_percent item
                     = match RawItem.gst_percent raw with
                       | Some (Some g) => Some g
                       | Some None => None
                       | None => Some (float_of_Z 0)
                       end
                  /\ (forall g,
                         RawItem.gst_percent raw = Some (Some g) ->
                         fleb (float_of_Z 0) g = true /\ fleb g (float_of_Z 100) = true))
               (SyncBatchRequest.raw_products body) (SyncBatchRequest.products request).
Proof.
  intros body request Hval.
  destruct (validate_length body request Hval) as (_ & Hlen & Hitems).
  split; [| split; [| split; [lia |]]].
  - unfold SyncBatchRequest.validate in Hval.
    destruct (SyncBatchRequest.sync_type_pattern _); [| discriminate].
    destruct (mapM _ _); [| discriminate].
    destruct (_ <=? _)%nat; [| discriminate].
    destruct (SyncBatchRequest.validate_products _); [| discriminate].
    injection Hval as <-. reflexivity.
  - unfold SyncBatchRequest.validate in Hval.
    destruct (SyncBatchRequest.sync_type_pattern _) eqn:Hpat; [| discriminate].
    destruct (mapM _ _); [| discriminate].
    destruct (_ <=? _)%nat; [| discriminate].
    destruct (SyncBatchRequest.validate_products _); [| discriminate].
    injection Hval as <-. cbn.
    unfold SyncBatchRequest.sync_type_pattern in Hpat.
    apply orb_true_iff in Hpat as [Hpat | Hpat];
      [apply orb_true_iff in Hpat as [Hpat | Hpat] |];
      apply String.eqb_eq in Hpat; tauto.
  - eapply Forall2_impl; [exact Hitems |].
    intros raw item Hitem. cbn in Hitem.
    unfold SyncProductItem.validate in Hitem.
    destruct (RawItem.external_id raw) as [ext |]; [| discriminate].
    destruct (RawItem.name raw) as [nm |]; [| discriminate].
    destruct (RawItem.mrp raw) as [m |]; [| discriminate].
    destruct (RawItem.selling_price raw) as [sp |]; [| discriminate].
    match type of Hitem with
    | (if ?c then _ else _) = _ => destruct c eqn:Hc; [| discriminate]
    end.
    injection Hitem as <-. cbn.
    apply andb_true_iff in Hc as [Hc Hgst].
    apply andb_true_iff in Hc as [Hc Hq].
    apply andb_true_iff in Hc as [Hc Hsp].
    apply andb_true_iff in Hc as [Hc Hm].
    apply andb_true_iff in Hc as [Hext Hnm].
    apply Nat.leb_le in Hext, Hnm. apply Z.leb_le in Hq.
    repeat (split; [first [reflexivity | assumption] |]).
    split.
    + destruct (RawItem.gst_percent raw) as [[g |] |]; reflexivity.
    + intros g Hg. rewrite Hg in Hgst. apply andb_true_iff in Hgst. exact Hgst.
Qed.

End EngineComposition.

(** ** Slugs *)

Section Slugs.
Import SyncEngine.

Lemma lstrip_suffix (s : list ascii) : exists pre, s = pre ++ lstrip s.
Proof.
  induction s as [| c s [pre IH]]; [exists []; reflexivity |].
  cbn. destruct (is_hyphen c).
  - exists (c :: pre). cbn. f_equal. exact IH.
  - exists []. reflexivity.
Qed.

Lemma lstrip_head (s : list ascii) (c : ascii) :
  head (lstrip s) = Some c -> is_hyphen c = false.
Proof.
  induction s as [| d s IH]; [discriminate |].
  cbn. destruct (is_hyphen d) eqn:Hd; [exact IH |].
  cbn. intros [= <-]. exact Hd.
Qed.

Lemma strip_infix (s : list ascii) : exists a b, s = a ++ strip s ++ b.
Proof.
  unfold strip.
  destruct (lstrip_suffix s) as [pre Hs].
  destruct (lstrip_suffix (rev (lstrip s))) as [pre2 Ht].
  exists pre, (rev pre2).
  rewrite <- rev_app_distr, <- Ht, rev_involutive. exact Hs.
Qed.

Lemma strip_head (s : list ascii) (c : ascii) :
  head (strip s) = Some c -> is_hyphen c = false.
Proof.
  unfold strip. intros Hhead.
  destruct (lstrip_suffix (rev (lstrip s))) as [pre2 Ht].
  apply (f_equal (@rev ascii)) in Ht. rewrite rev_involutive, rev_app_distr in Ht.
  apply (lstrip_head s c). rewrite Ht.
  destruct (rev (lstrip (rev (lstrip s)))); [discriminate | exact Hhead].
Qed.

Lemma no_double_hyphen_app (a b : list ascii) :
  no_double_hyphen (a ++ b) = true ->
  no_double_hyphen a = true /\ no_double_hyphen b = true.
Proof.
  induction a as [| c a IH]; [cbn; auto |].
  cbn [app no_double_hyphen]. intros H. apply andb_true_iff in H as [Hc Hrest].
  destruct (IH Hrest) as [Ha Hb]. split; [| exact Hb].
  rewrite Ha, andb_true_r. destruct a as [| d a]; [reflexivity | exact Hc].
Qed.

Lemma collapse_chars (in_run : bool) (s : list ascii) :
  forallb (fun c => is_lower c || is_digit c || is_space c || is_hyphen c) s = true ->
  forallb slug_char (collapse in_run s) = true.
Proof.
  revert in_run. induction s as [| c s IH]; intros in_run Hs; [reflexivity |].
  cbn in Hs. apply andb_true_iff in Hs as [Hc Hs]. cbn [collapse].
  destruct (is_space c || is_hyphen c) eqn:Hsep.
  - destruct in_run; [exact (IH true Hs) |].
    cbn [forallb]. rewrite (IH true Hs). reflexivity.
  - cbn [forallb]. rewrite (IH false Hs), andb_true_r.
    apply orb_false_iff in Hsep as [Hsp Hhy]. unfold slug_char.
    rewrite Hsp, Hhy, !orb_false_r in *. exact Hc.
Qed.

Lemma collapse_no_double (s : list ascii) :
  forall in_run : bool,
    no_double_hyphen (collapse in_run s) = true
    /\ (in_run = true ->
        forall c, head (collapse in_run s) = Some c -> is_hyphen c = false).
Proof.
  induction s as [| c s IH]; intros in_run; [split; [reflexivity | discriminate] |].
  cbn [collapse]. destruct (is_space c || is_hyphen c) eqn:Hsep.
  - destruct in_run; [exact (IH true) |].
    destruct (IH true) as [Hnd Hhead]. split; [| discriminate].
    cbn [no_double_hyphen]. rewrite Hnd, andb_true_r.
    destruct (collapse true s) as [| d t] eqn:Hc; [reflexivity |].
    rewrite (Hhead eq_refl d eq_refl), andb_false_r. reflexivity.
  - apply orb_false_iff in Hsep as [_ Hhy].
    destruct (IH false) as [Hnd _]. split.
    + cbn [no_double_hyphen]. rewrite Hnd, andb_true_r, Hhy.
      destruct (collapse false s); reflexivity.
    + intros _ d [= <-]. exact Hhy.
Qed.

Lemma collapse_length (s : list ascii) :
  forall in_run : bool, (length (collapse in_run s) <= length s)%nat.
Proof.
  induction s as [| c s IH]; intros in_run; [reflexivity |].
  cbn [collapse]. destruct (is_space c || is_hyphen c).
  - destruct in_run; cbn; [specialize (IH true) | specialize (IH true)]; lia.
  - cbn. specialize (IH false). lia.
Qed.

Lemma length_list_ascii (s : string) :
  length (list_ascii_of_string s) = String.length s.
Proof. induction s as [| c s IH]; [reflexivity | cbn; f_equal; exact IH]. Qed.

(** X21: the shape of a slug.  Whatever the product name, its slug is
    made of lower-case letters, digits and hyphens only, has at most 500
    characters and no more than the name, does not start with a hyphen and
    never has two hyphens in a row. *)
Theorem X21_slug_shape :
  forall name : string,
    let slug := list_ascii_of_string (_generate_slug name) in
    forallb slug_char slug = true
    /\ (length slug <= 500)%nat
    /\ (length slug <= String.length name)%nat
    /\ no_double_hyphen slug = true
    /\ (forall c, head slug = Some c -> is_hyphen c = false).
Proof.
  intros name. unfold _generate_slug. cbn zeta.
  rewrite list_ascii_of_string_of_list_ascii.
  set (kept := List.filter _ (map lower (list_ascii_of_string name))).
  assert (Hkept : forallb (fun c => is_lower c || is_digit c || is_space c || is_hyphen c)
                    kept = true).
  { apply forallb_forall. intros c Hc. unfold kept in Hc.
    apply List.filter_In in Hc. tauto. }
  assert (Hlen : (length kept <= String.length name)%nat).
  { unfold kept. rewrite <- length_list_ascii.
    rewrite <- (length_map lower (list_ascii_of_string name)).
    apply List.filter_length_le. }
  pose proof (collapse_chars false kept Hkept) as Hchars.
  destruct (collapse_no_double kept false) as [Hnd _].
  pose proof (collapse_length kept false) as Hclen.
  destruct (strip_infix (collapse false kept)) as (a & b & Hinfix).
  pose proof (strip_head (collapse false kept)) as Hhead.
  set (t := strip (collapse false kept)) in *.
  pose proof (take_drop 500 t) as Htake.
  assert (Hlt : (length t <= length (collapse false kept))%nat).
  { apply (f_equal (@length ascii)) in Hinfix. rewrite !length_app in Hinfix. lia. }
  assert (Htl : (length (take 500 t) <= length t)%nat)
    by (rewrite length_take; lia).
  split; [| split; [| split; [| split]]].
  - rewrite Hinfix, !forallb_app in Hchars.
    apply andb_true_iff in Hchars as [_ Hchars].
    apply andb_true_iff in Hchars as [Hchars _].
    rewrite <- Htake, forallb_app in Hchars.
    apply andb_true_iff in Hchars as [Hchars _]. exact Hchars.
  - rewrite length_take. lia.
  - lia.
  - rewrite Hinfix in Hnd.
    apply no_double_hyphen_app in Hnd as [_ Hnd].
    apply no_double_hyphen_app in Hnd as [Hnd _].
    rewrite <- Htake in Hnd.
    apply no_double_hyphen_app in Hnd as [Hnd _]. exact Hnd.
  - intros c Hc. apply Hhead.
    destruct t as [| d t']; [discriminate | exact Hc].
Qed.

End Slugs.

(** ** The batches of the sync agent *)

Section AgentBatches.
Import SyncAgent.

Lemma chunks_concat {A : Type} (l : list A) (size n : nat) :
  concat (map (fun i => slice l i (i + size)) (map (fun j => 0 + j * size)%nat (seq 0 n)))
  = take (n * size) l.
Proof.
  induction n as [| n IH]; [reflexivity |].
  rewrite seq_S, !map_app, concat_app, IH. cbn [map concat plus].
  rewrite app_nil_r. unfold slice.
  replace (n * size + size - n * size)%nat with size by lia.
  rewrite take_take_drop. f_equal. lia.
Qed.

Lemma batches_spec {A : Type} (products : list A) :
  concat (batches products) = products
  /\ Forall (fun batch => (1 <= length batch <= batch_size)%nat) (batches products).
Proof.
  unfold batches, range, batch_size. split.
  - rewrite chunks_concat. apply take_ge.
    rewrite Nat.sub_0_r.
    pose proof (Nat.div_mod_eq (length products + 1000 - 1) 1000) as Hdiv.
    pose proof (Nat.mod_upper_bound (length products + 1000 - 1) 1000 ltac:(lia)). lia.
  - apply List.Forall_forall. intros batch Hin.
    apply in_map_iff in Hin as (i & <- & Hi).
    apply in_map_iff in Hi as (j & <- & Hj).
    apply in_seq in Hj. rewrite Nat.sub_0_r in Hj.
    assert (Hlt : (j * 1000 < length products)%nat).
    { pose proof (Nat.div_mod_eq (length products + 1000 - 1) 1000) as Hdiv.
      pose proof (Nat.mod_upper_bound (length products + 1000 - 1) 1000 ltac:(lia)).
      nia. }
    unfold slice. rewrite length_take, length_drop. lia.
Qed.

Context {L : PyFloat}.

(** X22: the agent's batches.  The batches cut from the fetched products
    give back the products when put end to end, none is empty, and every
    one of them passes the validation of the batch endpoint when each
    product validates on its own and the sync type is a known one: the
    agent never sends a body that the schema refuses for its size. *)
Theorem X22_agent_batches_pass_validation :
  forall (products : list (RawItem.t float)) (store_id : UUID) (sync_type : string)
         (now : datetime),
    SyncBatchRequest.sync_type_pattern sync_type = true ->
    Forall (fun r => is_Some (SyncProductItem.validate r)) products ->
    concat (batches products) = products
    /\ Forall (fun batch =>
                 (1 <= length batch <= 1000)%nat
                 /\ is_Some (SyncBatchRequest.validate
                               (payload store_id sync_type now batch)))
              (batches products).
Proof.
  intros products store_id sync_type now Hpat Hvalid.
  destruct (batches_spec products) as [Hconcat Hsizes].
  split; [exact Hconcat |].
  apply List.Forall_forall. intros batch Hin.
  rewrite List.Forall_forall in Hsizes. specialize (Hsizes batch Hin).
  unfold batch_size in Hsizes. split; [exact Hsizes |].
  assert (Hitems : Forall (fun r => is_Some (SyncProductItem.validate r)) batch).
  { apply List.Forall_forall. intros r Hr.
    rewrite List.Forall_forall in Hvalid. apply Hvalid.
    rewrite <- Hconcat. apply in_concat. exists batch. split; assumption. }
  apply mapM_is_Some in Hitems. destruct Hitems as [items Hitems].
  pose proof (length_mapM _ _ _ Hitems) as Hlen.
  unfold SyncBatchRequest.validate, payload. cbn.
  rewrite Hpat, Hitems.
  replace (length items <=? 1000)%nat with true by (symmetry; apply Nat.leb_le; lia).
  unfold SyncBatchRequest.validate_products.
  replace (length items =? 0)%nat with false by (symmetry; apply Nat.eqb_neq; lia).
  eauto.
Qed.

End AgentBatches.

(** ** Further properties of the cache *)

Section CacheFacts.


Lemma delete_pattern_lookup (pattern : string) (srv : Redis.Server) :
  exists srv',
    snd (Redis.delete_pattern pattern (Some srv)) = Some srv'
    /\ Redis.reachable srv' = Redis.reachable srv
    /\ forall k,
         Redis.keys srv' !! k
         = if Redis.reachable srv && matches pattern k then None
           else Redis.keys srv !! k.
Proof.
  unfold Redis.delete_pattern, Redis.KEYS.
  destruct (Redis.reachable srv) eqn:Hup; cbn [negb andb].
  2:{ exists srv. auto. }
  set (ks := filter _ _).
  assert (Hks : forall k, k ∈ ks <-> matches pattern k = true /\ is_Some (Redis.keys srv !! k)).
  { intros k. unfold ks. rewrite list_elem_of_filter, list_elem_of_In, in_map_iff.
    unfold matches. split.
    - intros [Hm ([k' e] & <- & Hin)]. split; [apply Is_true_true, Hm |].
      apply list_elem_of_In, elem_of_map_to_list in Hin. cbn. eauto.
    - intros [Hm [e He]]. split; [apply Is_true_true, Hm |].
      exists (k, e). split; [reflexivity |].
      apply list_elem_of_In, elem_of_map_to_list, He. }
  assert (Hgone : forall k, matches pattern k = true -> k ∉ ks -> Redis.keys srv !! k = None).
  { intros k Hm Hout. destruct (Redis.keys srv !! k) as [e |] eqn:He; [| reflexivity].
    exfalso. apply Hout, Hks. split; [exact Hm | rewrite He; eauto]. }
  destruct ks as [| k0 ks'] eqn:Hlist.
  - exists srv. split; [reflexivity |]. split; [exact Hup |].
    intros k. cbn [andb]. destruct (matches pattern k) eqn:Hm; [| reflexivity].
    apply Hgone; [exact Hm |]. apply not_elem_of_nil.
  - unfold Redis.DEL. rewrite Hup. cbn [negb snd].
    eexists. split; [reflexivity |]. cbn [Redis.reachable Redis.keys].
    split; [reflexivity |].
    intros k. cbn [andb]. destruct (decide (k ∈ k0 :: ks')) as [Hin | Hout].
    + destruct (proj1 (Hks k) Hin) as [Hm _]. rewrite Hm.
      exact (lookup_foldr_delete (Redis.keys srv) (k0 :: ks') k Hin).
    + pose proof (lookup_foldr_delete_not_elem_of (Redis.keys srv) (k0 :: ks') k Hout)
        as Hkeep.
      destruct (matches pattern k) eqn:Hm.
      * rewrite <- (Hgone k Hm Hout). exact Hkeep.
      * exact Hkeep.
Qed.

(** A literal prefix followed by a star matches the keys that start with
    the prefix. *)
Lemma glob_star (s : list ascii) : Redis.glob ["*"%char] s = true.
Proof. induction s as [| c s IH]; cbn in *; [reflexivity | exact IH]. Qed.

Lemma matches_prefix (prefix key : string) :
  literal prefix = true ->
  matches (prefix +:+ "*") key = String.prefix prefix key.
Proof.
  unfold matches, literal. revert key.
  induction prefix as [| c prefix IH]; intros key Hlit.
  - cbn [String.append list_ascii_of_string]. rewrite glob_star.
    destruct key; reflexivity.
  - cbn [list_ascii_of_string forallb] in Hlit.
    apply andb_true_iff in Hlit as [Hc Hlit].
    change (String c prefix +:+ "*") with (String c (prefix +:+ "*")).
    cbn [list_ascii_of_string Redis.glob].
    assert (Hstar : Ascii.eqb c "*" = false).
    { unfold special in Hc. apply negb_true_iff in Hc.
      destruct (Ascii.eqb c "*"); [discriminate | reflexivity]. }
    rewrite Hstar.
    destruct key as [| d key]; [reflexivity |].
    cbn [list_ascii_of_string String.prefix].
    destruct (Ascii.eqb_spec c d) as [-> | Hne].
    + destruct (ascii_dec d d) as [_ | Hdd]; [| contradiction]. cbn.
      exact (IH key Hlit).
    + destruct (ascii_dec c d) as [Heq | _]; [contradiction | reflexivity].
Qed.

(** X16: [delete_pattern] on a literal prefix followed by a star, the
    patterns the code builds, removes exactly the keys that start with the
    prefix.  On a reachable server every such key is gone afterwards and
    every other key holds what it held; on an unreachable server nothing
    changes. *)
Theorem X16_delete_pattern_removes_the_matching_keys :
  forall (prefix : string) (srv : Redis.Server),
    literal prefix = true ->
    exists srv',
      snd (Redis.delete_pattern (prefix +:+ "*") (Some srv)) = Some srv'
      /\ Redis.reachable srv' = Redis.reachable srv
      /\ forall k,
           Redis.keys srv' !! k
           = if Redis.reachable srv && String.prefix prefix k then None
             else Redis.keys srv !! k.
Proof.
  intros prefix srv Hlit.
  destruct (delete_pattern_lookup (prefix +:+ "*") srv) as (srv' & Hdel & Hup & Hk).
  exists srv'. split; [exact Hdel |]. split; [exact Hup |].
  intros k. rewrite (Hk k), (matches_prefix prefix k Hlit). reflexivity.
Qed.

Lemma to_string_of_string (s : string) :
  RedisClient.to_string (RedisClient.of_string s) = s.
Proof.
  unfold RedisClient.of_string, RedisClient.to_string.
  destruct (String.eqb_spec (pretty (RedisClient.read_int s)) s) as [Heq | _];
    [exact Heq | reflexivity].
Qed.

(** X23: a value that was set is the value that is read.  On a reachable
    server [set] succeeds for a ttl that is absent, zero or positive, and
    [get] then returns the very string that was stored: for ever when the
    ttl is absent or zero, until ttl seconds have passed otherwise, and
    nothing afterwards.  [exists] agrees with [get], and the other keys
    read as before. *)
Theorem X23_set_then_get :
  forall (key value : string) (ttl : option Z) (now now' : Z) (srv : Redis.Server),
    Redis.reachable srv = true ->
    0 <= default 0 ttl ->
    exists srv',
      RedisClient.set key value ttl now (Some srv) = (true, Some srv')
      /\ RedisClient.get key now' (Some srv')
         = (if Redis.truthy ttl && (now + default 0 ttl <=? now') then None
            else Some value)
      /\ RedisClient.exists_ key now' (Some srv')
         = negb (Redis.truthy ttl && (now + default 0 ttl <=? now'))
      /\ forall key', key' <> key ->
           RedisClient.get key' now' (Some srv') = RedisClient.get key' now' (Some srv).
Proof.
  intros key value ttl now now' srv Hup Httl.
  unfold RedisClient.set, RedisClient.SETEX, RedisClient.SET. rewrite Hup. cbn [negb].
  destruct (Redis.truthy ttl) eqn:Htruthy.
  - destruct ttl as [t |]; [| discriminate]. cbn in Httl, Htruthy |- *.
    apply negb_true_iff, Z.eqb_neq in Htruthy.
    replace (t <=? 0) with false by (symmetry; apply Z.leb_gt; lia).
    eexists. split; [reflexivity |].
    unfold RedisClient.get, RedisClient.exists_, RedisClient.GET, RedisClient.EXISTS,
      Redis.lookup_live. cbn. rewrite Hup. cbn. rewrite lookup_insert_eq.
    unfold Redis.live. cbn.
    destruct (Z.leb_spec (now + t) now') as [Hexp | Hlive].
    + replace (now' <? now + t) with false by (symmetry; apply Z.ltb_ge; lia).
      cbn. split; [reflexivity |]. split; [reflexivity |].
      intros key' Hne. rewrite lookup_insert_ne by congruence. reflexivity.
    + replace (now' <? now + t) with true by (symmetry; apply Z.ltb_lt; lia).
      cbn. rewrite to_string_of_string. split; [reflexivity |]. split; [reflexivity |].
      intros key' Hne. rewrite lookup_insert_ne by congruence. reflexivity.
  - eexists. split; [reflexivity |].
    unfold RedisClient.get, RedisClient.exists_, RedisClient.GET, RedisClient.EXISTS,
      Redis.lookup_live. cbn. rewrite Hup. cbn. rewrite lookup_insert_eq.
    cbn. rewrite to_string_of_string. split; [reflexivity |]. split; [reflexivity |].
    intros key' Hne. rewrite lookup_insert_ne by congruence. reflexivity.
Qed.

End CacheFacts.

Section EngineCache.
Import Session SyncEngine.
Context {L : PyFloat} {B : Backend}.
#[local] Abbreviation World := (Session.World float) (only parsing).




(** X24: the recommended next sync.  The response of a session that
    returns recommends a time read at its end plus the interval of the
    tier the store had when the session started (5, 15, 60 or 240 minutes,
    and 60 for a store without a tier): that reading is not earlier than
    the lastSyncAt the session stored, which is itself not earlier than the
    start of the session, and the session changes neither the tier nor the
    stored interval of the store. *)
Theorem X24_next_sync_one_interval_after_session :
  forall (store_id : UUID) (sync_type : string) (items : list (SyncProductItem.t float))
         (w w' : World) (resp : SyncBatchResponse.t),
    process_batch_sync store_id sync_type items w = (Ok resp, w') ->
    exists store store' t,
      query_store store_id w = Some store
      /\ query_store store_id w' = Some store'
      /\ Store.sync_tier store' = Store.sync_tier store
      /\ Store.sync_interval_minutes store' = Store.sync_interval_minutes store
      /\ Store.last_sync_at store' = Some t
      /\ clock w <= t
      /\ t <= SyncBatchResponse.next_sync_recommended_at resp
              - minutes (Tier._get_sync_interval (Store.sync_tier store))
      /\ SyncBatchResponse.next_sync_recommended_at resp
         - minutes (Tier._get_sync_interval (Store.sync_tier store)) <= clock w'
      /\ In (Tier._get_sync_interval (Store.sync_tier store)) [5; 15; 60; 240].
Proof.
  intros store_id sync_type items w w' resp Hrun.
  destruct (process_batch_sync_returns _ _ _ _ _ _ Hrun)
    as (store & stats & w1 & log & _ & Hstore & _ & _ & Hframe & _ & _ & Hdone).
  destruct Hdone as ((_ & _ & _ & _ & _ & _ & Hnext) & _ & Hstores & _ & _ & _ & _
                     & Hclock & _).
  destruct Hframe as (Hs & _ & _ & Hc & _). cbn in Hc.
  exists store, (stamped_store store w1), (clock w1).
  split; [exact Hstore |].
  split.
  { unfold query_store. rewrite Hstores, Hs.
    apply (find_replace_store store_id store); [exact Hstore |].
    cbn. eapply query_store_id. exact Hstore. }
  split; [reflexivity |]. split; [reflexivity |]. split; [reflexivity |].
  rewrite Hnext, Hclock.
  split; [lia |]. split; [lia |]. split; [lia |].
  destruct (Store.sync_tier store) as [[| | |] |]; cbn; tauto.
Qed.

End EngineCache.

(** ** Further properties of the rate limiter *)

Section RateLimiting.

Lemma rate_limit_key_inj (identifier endpoint : string) (k k' : Z) :
  CacheKeys.rate_limit identifier endpoint k = CacheKeys.rate_limit identifier endpoint k' ->
  k = k'.
Proof.
  unfold CacheKeys.rate_limit. intros H.
  repeat apply String.app_inj in H.
  exact (pretty_Z_inj _ _ H).
Qed.

Lemma INCRBY_other (key key' : string) (amount now v : Z) (srv srv' : Redis.Server) :
  Redis.INCRBY key amount now srv = Some (v, srv') ->
  key' <> key ->
  Redis.reachable srv' = Redis.reachable srv
  /\ Redis.keys srv' !! key' = Redis.keys srv !! key'.
Proof.
  intros H Hne. unfold Redis.INCRBY in H.
  destruct (negb (Redis.reachable srv)); [discriminate |].
  destruct (Redis.lookup_live now srv key) as [e |].
  - destruct (Redis.value e); [| discriminate].
    injection H as _ <-. cbn. split; [reflexivity |].
    apply lookup_insert_ne. congruence.
  - injection H as _ <-. cbn. split; [reflexivity |].
    apply lookup_insert_ne. congruence.
Qed.

Lemma EXPIRE_other (key key' : string) (ttl now : Z) (srv srv' : Redis.Server) :
  Redis.EXPIRE key ttl now srv = Some srv' ->
  key' <> key ->
  Redis.reachable srv' = Redis.reachable srv
  /\ Redis.keys srv' !! key' = Redis.keys srv !! key'.
Proof.
  intros H Hne. unfold Redis.EXPIRE in H.
  destruct (negb (Redis.reachable srv)); [discriminate |].
  destruct (Redis.lookup_live now srv key) as [e |].
  - injection H as <-. cbn. split; [reflexivity |].
    apply lookup_insert_ne. congruence.
  - injection H as <-. auto.
Qed.

Lemma increment_other (key key' : string) (amount : Z) (ttl : option Z) (now v : Z)
    (srv : Redis.Server) (c' : Redis.RedisClient) :
  Redis.increment key amount ttl now (Some srv) = (v, c') ->
  key' <> key ->
  exists srv', c' = Some srv'
               /\ Redis.reachable srv' = Redis.reachable srv
               /\ Redis.keys srv' !! key' = Redis.keys srv !! key'.
Proof.
  intros H Hne. unfold Redis.increment in H.
  destruct (Redis.INCRBY key amount now srv) as [[value srv1] |] eqn:Hincr.
  - destruct (INCRBY_other key key' amount now value srv srv1 Hincr Hne) as [Hup1 Hk1].
    destruct (Redis.truthy ttl && (value =? amount)).
    + destruct (Redis.EXPIRE key (default 0 ttl) now srv1) as [srv2 |] eqn:Hexp.
      * destruct (EXPIRE_other key key' _ now srv1 srv2 Hexp Hne) as [Hup2 Hk2].
        injection H as _ <-. exists srv2. split; [reflexivity |]. split; congruence.
      * injection H as _ <-. exists srv1. auto.
    + injection H as _ <-. exists srv1. auto.
  - injection H as _ <-. exists srv. auto.
Qed.

Lemma requests_in_window_state (identifier endpoint : string) (limit window k : Z)
    (times : list Z) :
  0 < window ->
  Forall (fun now => 0 <= now /\ now / window = k) times ->
  forall (c : Z) (srv : Redis.Server),
    0 <= c ->
    counting (CacheKeys.rate_limit identifier endpoint k) window k c srv ->
    exists srv',
      RateLimit.requests identifier endpoint limit window times (Some srv)
      = (map (nth_answer limit window k) (seqZ (c + 1) (Z.of_nat (length times))),
         Some srv')
      /\ counting (CacheKeys.rate_limit identifier endpoint k) window k
           (c + Z.of_nat (length times)) srv'
      /\ forall key', key' <> CacheKeys.rate_limit identifier endpoint k ->
                      Redis.keys srv' !! key' = Redis.keys srv !! key'.
Proof.
  intros Hw Htimes. induction Htimes as [| now times [Hn Hk] _ IH]; intros c srv Hc Hcount.
  - exists srv. cbn. rewrite Z.add_0_r. auto.
  - destruct (check_rate_limit_step identifier endpoint limit window k c now srv
                Hw Hc Hn Hk Hcount) as (srv1 & Hstep & Hcount1).
    destruct (IH (c + 1) srv1 ltac:(lia) Hcount1) as (srv2 & Hrest & Hcount2 & Hother2).
    exists srv2. cbn [RateLimit.requests]. rewrite Hstep, Hrest.
    cbn [length]. rewrite Nat2Z.inj_succ.
    rewrite (seqZ_cons (c + 1) (Z.succ (Z.of_nat (length times)))) by lia. cbn [map].
    replace (Z.pred (Z.succ (Z.of_nat (length times)))) with (Z.of_nat (length times)) by lia.
    replace (Z.succ (c + 1)) with (c + 1 + 1) by lia.
    split; [reflexivity |]. split.
    + replace (c + Z.succ (Z.of_nat (length times)))
        with (c + 1 + Z.of_nat (length times)) by lia.
      exact Hcount2.
    + intros key' Hne. rewrite (Hother2 key' Hne).
      unfold RateLimit.check_rate_limit in Hstep.
      destruct (window_bounds now window k Hw Hn Hk) as (Hq & _ & _).
      rewrite Hq in Hstep.
      change ("ratelimit:" +:+ identifier +:+ ":" +:+ endpoint +:+ ":" +:+ pretty k)
        with (CacheKeys.rate_limit identifier endpoint k) in Hstep.
      destruct (Redis.increment (CacheKeys.rate_limit identifier endpoint k) 1
                  (Some window) now (Some srv)) as [v c'] eqn:Hinc.
      destruct (increment_other _ key' _ _ _ _ _ _ Hinc Hne) as (srv1' & -> & _ & Hk').
      injection Hstep as _ _ <-. exact Hk'.
Qed.

Lemma requests_app (identifier endpoint : string) (limit window : Z)
    (times1 times2 : list Z) (client : Redis.RedisClient) :
  RateLimit.requests identifier endpoint limit window (times1 ++ times2) client
  = let '(rs1, c1) := RateLimit.requests identifier endpoint limit window times1 client in
    let '(rs2, c2) := RateLimit.requests identifier endpoint limit window times2 c1 in
    (rs1 ++ rs2, c2).
Proof.
  revert client. induction times1 as [| now times1 IH]; intros client.
  - cbn. destruct (RateLimit.requests identifier endpoint limit window times2 client).
    reflexivity.
  - cbn [app RateLimit.requests].
    destruct (RateLimit.check_rate_limit identifier endpoint limit window now client)
      as [r c1].
    rewrite IH.
    destruct (RateLimit.requests identifier endpoint limit window times1 c1) as [rs1 c2].
    destruct (RateLimit.requests identifier endpoint limit window times2 c2) as [rs2 c3].
    reflexivity.
Qed.

(** X8: the limiter fails open.  When the cache gives no count for the
    window's key (no connection, an unreachable server, or a key that does
    not hold a counter), [increment] answers 0, so the request is allowed
    with the whole limit remaining, and the cache is left as it was. *)
Theorem X8_rate_limiter_fails_open :
  forall (identifier endpoint : string) (limit window now : Z)
         (client : Redis.RedisClient),
    cache_fails (CacheKeys.rate_limit identifier endpoint (Z.quot now window)) now client ->
    0 <= limit ->
    RateLimit.check_rate_limit identifier endpoint limit window now client
    = ((true, limit, (Z.quot now window + 1) * window), client).
Proof.
  intros identifier endpoint limit window now client Hfail Hlimit.
  unfold RateLimit.check_rate_limit.
  change ("ratelimit:" +:+ identifier +:+ ":" +:+ endpoint +:+ ":"
          +:+ pretty (Z.quot now window))
    with (CacheKeys.rate_limit identifier endpoint (Z.quot now window)).
  assert (Hinc : Redis.increment
                   (CacheKeys.rate_limit identifier endpoint (Z.quot now window)) 1
                   (Some window) now client = (0, client)).
  { destruct client as [srv |]; [| reflexivity].
    unfold Redis.increment, Redis.INCRBY.
    destruct (Redis.reachable srv) eqn:Hup; [| reflexivity]. cbn.
    destruct Hfail as [Hdown | (e & t & Hlive)]; [congruence |].
    rewrite Hlive. reflexivity. }
  rewrite Hinc. rewrite Z.sub_0_r, Z.max_r by lia.
  replace (0 <=? limit) with true by (symmetry; apply Z.leb_le; lia).
  reflexivity.
Qed.

(** X11: the counter starts afresh in every window.  Requests made in
    window k followed by requests made in window k+1 are numbered from 1
    again in the second window, so up to 2 * limit requests are allowed in
    a row when they straddle the boundary, however close in time they are. *)
Theorem X11_counter_restarts_at_window_boundary :
  forall (identifier endpoint : string) (limit window k : Z) (times1 times2 : list Z)
         (srv : Redis.Server),
    0 < window ->
    Redis.reachable srv = true ->
    Redis.keys srv !! CacheKeys.rate_limit identifier endpoint k = None ->
    Redis.keys srv !! CacheKeys.rate_limit identifier endpoint (k + 1) = None ->
    Forall (fun now => 0 <= now /\ now / window = k) times1 ->
    Forall (fun now => 0 <= now /\ now / window = k + 1) times2 ->
    fst (RateLimit.requests identifier endpoint limit window (times1 ++ times2) (Some srv))
    = map (fun n => (n <=? limit, Z.max 0 (limit - n), (k + 1) * window))
          (seqZ 1 (Z.of_nat (length times1)))
      ++ map (fun n => (n <=? limit, Z.max 0 (limit - n), (k + 2) * window))
             (seqZ 1 (Z.of_nat (length times2))).
Proof.
  intros identifier endpoint limit window k times1 times2 srv Hw Hup Hk Hk1 Ht1 Ht2.
  rewrite requests_app.
  assert (Hc0 : counting (CacheKeys.rate_limit identifier endpoint k) window k 0 srv).
  { split; [exact Hup |]. destruct (decide (0 = 0)); [exact Hk | lia]. }
  destruct (requests_in_window_state identifier endpoint limit window k times1 Hw Ht1
              0 srv ltac:(lia) Hc0) as (srv1 & Hrun1 & [Hup1 _] & Hother).
  rewrite Hrun1.
  assert (Hc1 : counting (CacheKeys.rate_limit identifier endpoint (k + 1)) window
                  (k + 1) 0 srv1).
  { split; [exact Hup1 |]. destruct (decide (0 = 0)); [| lia].
    rewrite Hother; [exact Hk1 |].
    intros Heq. apply rate_limit_key_inj in Heq. lia. }
  destruct (requests_in_window_state identifier endpoint limit window (k + 1) times2 Hw Ht2
              0 srv1 ltac:(lia) Hc1) as (srv2 & Hrun2 & _ & _).
  rewrite Hrun2. cbn [fst]. unfold nth_answer.
  replace (k + 1 + 1) with (k + 2) by lia. reflexivity.
Qed.

(** X12: the lifetime of a counter is fixed by its first increment.  On a
    key that holds a non-zero counter with an expiry, [increment] with a
    ttl adds the amount and keeps the expiry while the key is alive; once
    the key has expired the count restarts at the amount, with the expiry
    set ttl seconds ahead. *)
Theorem X12_counter_lifetime_fixed_by_first_increment :
  forall (key : string) (amount ttl now c e : Z) (srv : Redis.Server),
    Redis.reachable srv = true ->
    ttl <> 0 -> c <> 0 ->
    Redis.keys srv !! key
    = Some {| Redis.value := Redis.RInt c; Redis.expire_at := Some e |} ->
    (now < e ->
     exists srv',
       Redis.increment key amount (Some ttl) now (Some srv) = (c + amount, Some srv')
       /\ Redis.keys srv' !! key
          = Some {| Redis.value := Redis.RInt (c + amount); Redis.expire_at := Some e |})
    /\ (e <= now ->
        exists srv',
          Redis.increment key amount (Some ttl) now (Some srv) = (amount, Some srv')
          /\ Redis.keys srv' !! key
             = Some {| Redis.value := Redis.RInt amount;
                       Redis.expire_at := Some (now + ttl) |}).
Proof.
  intros key amount ttl now c e srv Hup Httl Hc Hkey. split; intros Hnow.
  - unfold Redis.increment, Redis.INCRBY, Redis.lookup_live.
    rewrite Hup, Hkey. cbn. unfold Redis.live. cbn.
    replace (now <? e) with true by (symmetry; apply Z.ltb_lt; lia). cbn.
    replace (c + amount =? amount) with false by (symmetry; apply Z.eqb_neq; lia).
    rewrite andb_false_r.
    eexists. split; [reflexivity |]. cbn. apply lookup_insert_eq.
  - unfold Redis.increment, Redis.INCRBY, Redis.lookup_live.
    rewrite Hup, Hkey. cbn. unfold Redis.live. cbn.
    replace (now <? e) with false by (symmetry; apply Z.ltb_ge; lia). cbn.
    rewrite Z.eqb_refl.
    replace (negb (ttl =? 0)) with true
      by (symmetry; apply negb_true_iff, Z.eqb_neq; lia).
    cbn. unfold Redis.EXPIRE, Redis.lookup_live. cbn. rewrite ?Hup. cbn.
    rewrite lookup_insert_eq. cbn.
    eexists. split; [reflexivity |]. cbn. apply lookup_insert_eq.
Qed.

End RateLimiting.

Section Middleware.

Import RateLimitMiddleware.

Context {S R : Type}.
Variable set_header : string -> string -> R -> R.

(** X13: the request handler runs on every request, refused ones
    included: [dispatch] calls [call_next] before it looks at [allowed],
    so the application state after [dispatch] is the one the handler
    leaves, whatever the answer of the limiter. *)
Theorem X13_handler_runs_even_when_refused :
  forall (settings : Settings) (call_next : Request -> S -> R * S) (request : Request)
         (now now' : Z) (client : Redis.RedisClient) (s : S),
    snd (snd (dispatch set_header settings call_next request now now' (client, s)))
    = snd (call_next request s).
Proof.
  intros settings call_next request now now' client s. unfold dispatch.
  destruct (call_next request s) as [response s'].
  destruct (negb (RATE_LIMIT_ENABLED settings)); [reflexivity |].
  destruct (String.eqb (path request) "/health" || String.eqb (path request) "/");
    [reflexivity |].
  destruct (get_rate_limit settings request) as [[limit window] |]; [| reflexivity].
  destruct (limit =? 0); [reflexivity |].
  destruct (RateLimit.check_rate_limit (get_identifier request) (path request) limit
              window now client) as [[[allowed remaining] reset_time] client'].
  destruct (negb allowed); reflexivity.
Qed.

(** X14: a refusal tells the caller to retry within the minute.  The
    [retry_after] of a 429 is at most 60 seconds, and it is positive when
    the clock has not moved between the count and the refusal. *)
Theorem X14_retry_after_within_the_minute :
  forall (settings : Settings) (call_next : Request -> S -> R * S) (request : Request)
         (now now' retry_after : Z) (st st' : Redis.RedisClient * S),
    0 <= now -> now <= now' ->
    dispatch set_header settings call_next request now now' st
    = (TooManyRequests retry_after, st') ->
    retry_after <= 60 /\ (now' = now -> 0 < retry_after).
Proof.
  intros settings call_next request now now' retry_after [client s] st' Hnow Hle H.
  unfold dispatch in H.
  destruct (call_next request s) as [response s'].
  destruct (negb (RATE_LIMIT_ENABLED settings)); [discriminate |].
  destruct (String.eqb (path request) "/health" || String.eqb (path request) "/");
    [discriminate |].
  destruct (get_rate_limit settings request) as [[limit window] |] eqn:Hlimit;
    [| discriminate].
  assert (Hwindow : window = 60).
  { unfold get_rate_limit in Hlimit.
    repeat match type of Hlimit with
           | (if ?b then _ else _) = _ => destruct b
           end; congruence. }
  subst window.
  destruct (limit =? 0); [discriminate |].
  unfold RateLimit.check_rate_limit in H.
  destruct (Redis.increment _ 1 (Some 60) now client) as [count client'].
  destruct (negb (count <=? limit)); [| discriminate].
  injection H as <- _.
  destruct (window_bounds now 60 (now / 60) ltac:(lia) Hnow eq_refl) as (Hq & Hlo & Hhi).
  rewrite Hq. lia.
Qed.

(** X15: requests outside the limiter.  With rate limiting switched off,
    on the paths "/health" and "/", and on every path that contains none of
    "/api/v1/sync/", "/api/v1/storefront/" and "/api/v1/dashboard/",
    [dispatch] is the handler alone: its response comes back without
    rate-limit headers and the cache is not touched. *)
Theorem X15_requests_outside_the_limiter :
  forall (settings : Settings) (call_next : Request -> S -> R * S) (request : Request)
         (now now' : Z) (client : Redis.RedisClient) (s : S),
    RATE_LIMIT_ENABLED settings = false
    \/ path request = "/health" \/ path request = "/"
    \/ (contains "/api/v1/sync/" (path request) = false
        /\ contains "/api/v1/storefront/" (path request) = false
        /\ contains "/api/v1/dashboard/" (path request) = false) ->
    dispatch set_header settings call_next request now now' (client, s)
    = (Returned (fst (call_next request s)), (client, snd (call_next request s))).
Proof.
  intros settings call_next request now now' client s H. unfold dispatch.
  destruct (call_next request s) as [response s'].
  destruct (RATE_LIMIT_ENABLED settings) eqn:Hon; [| reflexivity]. cbn [negb].
  destruct H as [H | [H | [H | (Hsync & Hfront & Hdash)]]].
  - discriminate.
  - rewrite H. reflexivity.
  - rewrite H. reflexivity.
  - destruct (String.eqb (path request) "/health" || String.eqb (path request) "/");
      [reflexivity |].
    unfold get_rate_limit. rewrite Hsync, Hfront, Hdash. reflexivity.
Qed.

End Middleware.

(** ** The claims on concrete inputs *)

#[local] Existing Instance Decimal.lib.
#[local] Existing Instance Postgres.backend.

Import Session SyncEngine.

Lemma world0_wf : wf Sample.world0.
Proof. split; constructor. Qed.

Lemma world1_run :
  process_batch_sync 1%nat "full" Sample.batch Sample.world0
  = (Ok Sample.response1, Sample.world1).
Proof. vm_compute. reflexivity. Qed.

Lemma world1_rice :
  query_product 1%nat (SyncProductItem.external_id Sample.rice35) Sample.world1
  = Some Sample.rice_row.
Proof. vm_compute. reflexivity. Qed.


Lemma aborted_run :
  process_batch_sync 1%nat "delta" Sample.items_long_id Sample.world0
  = (Raise (PendingRollbackError "value too long for type character varying(100)"),
     Scenario.aborted).
Proof. vm_compute. reflexivity. Qed.

(** The claim of C1 as stated fails: after a full sync of the sample
    batch the rice is stored with the fingerprint of the incoming record,
    yet the delta upsert answers "updated", not "unchanged", and the
    resubmitted delta batch reports updated = 3, not 0. *)
Lemma C1_counterexample :
  synced 1%nat Sample.rice Sample.world1
  /\ fst (_upsert_product 1%nat Sample.rice "delta" Sample.world1) = Ok "updated"
  /\ fst (_upsert_product 1%nat Sample.rice "delta" Sample.world1) <> Ok "unchanged"
  /\ SyncBatchResponse.created
       <$> returned (process_batch_sync 1%nat "delta" Sample.batch Sample.world1)
     = Some 0
  /\ SyncBatchResponse.updated
       <$> returned (process_batch_sync 1%nat "delta" Sample.batch Sample.world1)
     = Some 3.
Proof.
  split.
  { exists Sample.rice_row. split; vm_compute; reflexivity. }
  split; [vm_compute; reflexivity |].
  split; [vm_compute; discriminate |].
  split; vm_compute; reflexivity.
Qed.

Lemma C1_unchanged_delta_counts_as_updated_witness :
  exists resp2 w2,
    process_batch_sync 1%nat "delta" Sample.batch Sample.world1 = (Ok resp2, w2)
    /\ SyncBatchResponse.created resp2 = 0
    /\ SyncBatchResponse.updated resp2 = 3
    /\ SyncBatchResponse.processed resp2 = 3
    /\ SyncBatchResponse.failed resp2 = 0
    /\ products w2 = products Sample.world1.
Proof.
  assert (Hstore : query_store 1%nat Sample.world0 = Some Sample.store) by reflexivity.
  assert (Hnd : NoDup (map SyncProductItem.external_id Sample.batch))
    by (apply (bool_decide_unpack _); vm_compute; exact I).
  exact (proj2 (proj2 (C1_unchanged_delta_counts_as_updated 1%nat "full" Sample.batch
                         Sample.world0 Sample.world1 Sample.store Sample.response1
                         world0_wf Hstore eq_refl Hnd world1_run eq_refl))).
Defined.

(** The claim of C2 as stated fails: with record five of ten lacking its
    externalId the request is answered 422, not with a response reporting
    processed = 10 and failed = 1, and not one of the other nine records
    is committed. *)
Lemma C2_counterexample :
  Endpoint.sync_products_batch "sk-corner-store" Sample.body_missing_id Sample.world0
  = (Endpoint.HttpError 422 "validation error", Sample.world0)
  /\ Endpoint.data (fst (Endpoint.sync_products_batch "sk-corner-store"
                           Sample.body_missing_id Sample.world0))
     = None
  /\ products (snd (Endpoint.sync_products_batch "sk-corner-store"
                      Sample.body_missing_id Sample.world0))
     = [].
Proof. repeat split; vm_compute; reflexivity. Qed.

Lemma C2_missing_external_id_rejects_batch_witness :
  SyncBatchRequest.validate Sample.body_missing_id = None
  /\ exists code detail,
       Endpoint.sync_products_batch "sk-corner-store" Sample.body_missing_id Sample.world0
       = (Endpoint.HttpError code detail, Sample.world0)
       /\ code = 422.
Proof.
  assert (Hin : In (Sample.raw_jaggery None)
                   (SyncBatchRequest.raw_products Sample.body_missing_id))
    by (cbn; tauto).
  pose proof (C2_missing_external_id_rejects_batch "sk-corner-store"
                Sample.body_missing_id (Sample.raw_jaggery None) Sample.world0
                eq_refl Hin (or_introl eq_refl)) as H.
  destruct H as (Hval & code & detail & Hrun & _ & Hcode).
  split; [exact Hval |]. exists code, detail. split; [exact Hrun |].
  apply (Hcode Sample.store); reflexivity.
Defined.


(** The claim of C4 as stated fails: the inventory-only path writes the
    rice (quantity 40 becomes 35) and its syncVersion stays 1. *)
Lemma C4_counterexample :
  fst (_update_inventory_only 1%nat Sample.rice35 Sample.world1) = Ok "updated"
  /\ (fun p => (Product.quantity p, Product.sync_version p))
       <$> query_product 1%nat "P-001" Sample.world1 = Some (40, 1)
  /\ (fun p => (Product.quantity p, Product.sync_version p))
       <$> query_product 1%nat "P-001"
             (snd (_update_inventory_only 1%nat Sample.rice35 Sample.world1))
     = Some (35, 1).
Proof. repeat split; vm_compute; reflexivity. Qed.

Lemma C4_version_counts_upsert_writes_witness :
  exists outcomes w',
    upserts 1%nat "delta" [Sample.rice; Sample.rice35; Sample.rice80] Sample.world0
    = (Ok outcomes, w')
    /\ length outcomes = 3%nat
    /\ stored_version 1%nat "P-001" w' = 3
    /\ exists p, query_product 1%nat "P-001" w' = Some p /\ Product.sync_version p = 3.
Proof.
  assert (Hext : Forall (fun item => SyncProductItem.external_id item = "P-001")
                   [Sample.rice; Sample.rice35; Sample.rice80])
    by (repeat constructor).
  assert (Hchain : fresh_chain (stored_checksum 1%nat "P-001" Sample.world0)
                     (map _calculate_checksum [Sample.rice; Sample.rice35; Sample.rice80]))
    by (vm_compute; repeat split; discriminate).
  assert (Hrun : upserts 1%nat "delta" [Sample.rice; Sample.rice35; Sample.rice80]
                   Sample.world0
                 = (Ok ["created"; "updated"; "updated"],
                    snd (upserts 1%nat "delta" [Sample.rice; Sample.rice35; Sample.rice80]
                           Sample.world0)))
    by (vm_compute; reflexivity).
  pose proof (C4_version_counts_upsert_writes 1%nat "P-001" "delta"
                [Sample.rice; Sample.rice35; Sample.rice80] Sample.world0 _ _
                Hext Hchain Hrun) as H.
  destruct H as (Hlen & Hver & Hlast & _).
  eexists. eexists. split; [exact Hrun |]. split; [exact Hlen |].
  split; [exact Hver |]. apply Hlast. discriminate.
Defined.

(** The claim of C7 as stated fails: besides quantity, isInStock and
    lastSyncedAt the fast path also rewrites the stored field updatedAt of
    the item. *)
Lemma C7_counterexample :
  fst (_update_inventory_only 1%nat Sample.rice35 Sample.world1) = Ok "updated"
  /\ Product.updated_at <$> query_product 1%nat "P-001" Sample.world1 = Some 5003
  /\ Product.updated_at
       <$> query_product 1%nat "P-001"
             (snd (_update_inventory_only 1%nat Sample.rice35 Sample.world1))
     = Some 5017.
Proof. repeat split; vm_compute; reflexivity. Qed.

Lemma C7_inventory_only_frame_witness :
  exists w' p',
    _update_inventory_only 1%nat Sample.rice35 Sample.world1 = (Ok "updated", w')
    /\ query_product 1%nat (SyncProductItem.external_id Sample.rice35) w' = Some p'
    /\ Product.quantity p' = 35
    /\ Product.name p' = "Basmati Rice 5kg"
    /\ Product.sync_checksum p' = Some "732a50b07d73b3dcdb83142be2233b0e"
    /\ Product.sync_version p' = 1.
Proof.
  assert (Hflush : flush_error (restocked_row Sample.rice_row Sample.rice35 Sample.world1)
                   = None)
    by (vm_compute; reflexivity).
  pose proof (C7_inventory_only_frame 1%nat Sample.rice35 Sample.rice_row Sample.world1
                eq_refl world1_rice Hflush) as H.
  destruct H as (w' & p' & Hrun & Hq' & (Hqty & _) & Hsame & _).
  exists w', p'. split; [exact Hrun |]. split; [exact Hq' |].
  split; [exact Hqty |].
  destruct Hsame as (_ & _ & _ & Hname & _ & _ & _ & _ & _ & _ & _ & _ & _ & _ & _ & _
                     & Hver & Hsum & _).
  rewrite Hname, Hsum, Hver. repeat split.
Defined.

Lemma C8_batch_size_rejected_witness :
  SyncBatchRequest.validate (Sample.body []) = None
  /\ SyncBatchRequest.validate
       (Sample.body (replicate 1001 (Sample.raw_jaggery (Some "P-001")))) = None
  /\ exists code detail,
       Endpoint.sync_products_batch "sk-corner-store" (Sample.body []) Sample.world0
       = (Endpoint.HttpError code detail, Sample.world0)
       /\ code = 422.
Proof.
  pose proof (C8_batch_size_rejected "sk-corner-store" (Sample.body []) Sample.world0
                eq_refl (or_intror eq_refl)) as H.
  assert (Hbig : (1000 < length (SyncBatchRequest.raw_products
                                   (Sample.body (replicate 1001
                                                   (Sample.raw_jaggery (Some "P-001"))))))%nat)
    by (cbn [Sample.body SyncBatchRequest.raw_products]; rewrite length_replicate; lia).
  pose proof (C8_batch_size_rejected "sk-corner-store"
                (Sample.body (replicate 1001 (Sample.raw_jaggery (Some "P-001"))))
                Sample.world0 eq_refl (or_introl Hbig)) as H'.
  destruct H as (Hval & code & detail & Hrun & _ & Hcode).
  split; [exact Hval |]. split; [exact (proj1 H') |].
  exists code, detail. split; [exact Hrun |].
  apply (Hcode Sample.store); reflexivity.
Defined.


(** The claim of C10 as stated fails: the record supplies the category
    "Grains" and an updatedAt of 4000, and the item created for it has no
    category and the time of the insert as updatedAt. *)
Lemma C10_counterexample :
  SyncProductItem.category Scenario.rice_dated = Some "Grains"
  /\ SyncProductItem.updated_at Scenario.rice_dated = Some 4000
  /\ fst (_update_inventory_only 1%nat Scenario.rice_dated Sample.world0) = Ok "created"
  /\ (fun p => (Product.category_id p, Product.updated_at p))
       <$> products (snd (_update_inventory_only 1%nat Scenario.rice_dated Sample.world0))
     = [(None, 5002)].
Proof. repeat split; vm_compute; reflexivity. Qed.

Lemma C10_inventory_only_creates_missing_witness :
  exists w' p stats',
    _update_inventory_only 1%nat Scenario.rice_dated Sample.world0 = (Ok "created", w')
    /\ products w' = [p]
    /\ Product.name p = "Basmati Rice 5kg"
    /\ Product.description p = Some "Aged two years"
    /\ Product.gst_percent p = 1200
    /\ Product.slug p = "basmati-rice-5kg"
    /\ Product.discount_percent p = 2500
    /\ Product.is_in_stock p = true
    /\ Product.category_id p = None
    /\ Product.sync_version p = 1
    /\ sync_one 1%nat "inventory_only" stats0 Scenario.rice_dated Sample.world0
       = (Ok stats', w')
    /\ created stats' = 1.
Proof.
  assert (Hq : query_product 1%nat (SyncProductItem.external_id Scenario.rice_dated)
                 Sample.world0 = None) by reflexivity.
  assert (Hflush : flush_error (created_row 1%nat Scenario.rice_dated Sample.world0) = None)
    by (vm_compute; reflexivity).
  pose proof (C10_inventory_only_creates_missing 1%nat Scenario.rice_dated stats0
                Sample.world0 eq_refl Hq Hflush) as H.
  destruct H as (w' & p & stats' & Hrun & _ & Hprod & _ & Hsup & Hdrop & Hder & Hver
                 & Hone & Hcr & _).
  exists w', p, stats'. split; [exact Hrun |]. split; [exact Hprod |].
  destruct Hsup as (_ & _ & Hname & Hdesc & _ & _ & _ & _ & _ & _ & _ & Hgst).
  destruct Hdrop as (Hcat & _).
  destruct Hder as (Hslug & Hdisc & Hstock & _).
  rewrite Hname, Hdesc, Hgst, Hslug, Hdisc, Hstock, Hcat.
  split; [reflexivity |]. split; [reflexivity |].
  split; [vm_compute; reflexivity |]. split; [vm_compute; reflexivity |].
  split; [vm_compute; reflexivity |]. split; [reflexivity |]. split; [reflexivity |].
  split; [exact Hver |]. split; [exact Hone | exact Hcr].
Defined.

(** ** The further properties on concrete inputs *)

Lemma world1_wf : wf Sample.world1.
Proof.
  split.
  - apply (bool_decide_unpack _). vm_compute. exact I.
  - repeat constructor; cbn; lia.
Qed.


Lemma X2_created_counts_inserted_rows_witness :
  (length (products Sample.world0) <= length (products Sample.world1))%nat
  /\ Z.of_nat (length (products Sample.world1))
     = Z.of_nat (length (products Sample.world0))
       + SyncBatchResponse.created Sample.response1
  /\ SyncBatchResponse.processed Sample.response1 = 3.
Proof.
  pose proof (X2_created_counts_inserted_rows 1%nat "full" Sample.batch Sample.world0
                Sample.world1 _ world1_run) as H.
  destruct H as (Hle & Hok).
  destruct (Hok Sample.response1 eq_refl) as (Hrows & _ & _ & _ & Hproc).
  split; [exact Hle |]. split; [exact Hrows | exact Hproc].
Defined.

Lemma X3_unique_index_kept_witness :
  wf Scenario.aborted /\ NoDup (map index_key (products Scenario.aborted)).
Proof.
  exact (X3_unique_index_kept 1%nat "delta" Sample.items_long_id Sample.world0
           Scenario.aborted _ world0_wf (NoDup_nil_2) aborted_run).
Defined.

Lemma X4_stock_flag_kept_witness : Forall stock_ok (products Sample.world1).
Proof.
  exact (X4_stock_flag_kept 1%nat "full" Sample.batch Sample.world0 Sample.world1 _
           (List.Forall_nil stock_ok) world1_run).
Defined.

Lemma X5_inventory_then_delta_keeps_inventory_quantity_witness :
  exists w1 p1,
    _update_inventory_only 1%nat Sample.rice35 Sample.world1 = (Ok "updated", w1)
    /\ _upsert_product 1%nat Sample.rice "delta" w1 = (Ok "updated", w1)
    /\ query_product 1%nat (SyncProductItem.external_id Sample.rice) w1 = Some p1
    /\ Product.quantity p1 = SyncProductItem.quantity Sample.rice35
    /\ Product.sync_checksum p1 = Some (_calculate_checksum Sample.rice).
Proof.
  assert (Hsum : Product.sync_checksum Sample.rice_row
                 = Some (_calculate_checksum Sample.rice))
    by (vm_compute; reflexivity).
  assert (Hflush : flush_error (restocked_row Sample.rice_row Sample.rice35 Sample.world1)
                   = None)
    by (vm_compute; reflexivity).
  exact (X5_inventory_then_delta_keeps_inventory_quantity 1%nat Sample.rice Sample.rice35
           Sample.rice_row Sample.world1 eq_refl eq_refl world1_rice Hsum Hflush).
Defined.

Lemma X6_sync_log_accounts_for_batch_witness :
  (exists log,
      sync_logs Sample.world1 = sync_logs Sample.world0 ++ [log]
      /\ SyncLog.records_received log = 3
      /\ SyncLog.status log = "success")
  /\ sync_logs Scenario.aborted = sync_logs Sample.world0.
Proof.
  split.
  - pose proof (X6_sync_log_accounts_for_batch 1%nat "full" Sample.batch Sample.world0
                  Sample.world1 _ world1_run) as H.
    destruct H as (log & Hlogs & _ & _ & Hrecv & _ & _ & _ & _ & _ & _ & Hst).
    exists log. split; [exact Hlogs |]. split; [exact Hrecv | exact Hst].
  - exact (X6_sync_log_accounts_for_batch 1%nat "delta" Sample.items_long_id Sample.world0
             Scenario.aborted _ aborted_run).
Defined.

Lemma X7_endpoint_writes_only_when_authorised_witness :
  exists code detail,
    Endpoint.sync_products_batch "sk-corner-store" Scenario.body_other_store Sample.world0
    = (Endpoint.HttpError code detail, Sample.world0)
    /\ code = 500.
Proof.
  assert (Hval : SyncBatchRequest.validate Scenario.body_other_store
                 = Some {| SyncBatchRequest.store_id := 2%nat;
                           SyncBatchRequest.sync_type := "delta";
                           SyncBatchRequest.timestamp := 4000;
                           SyncBatchRequest.products := [Sample.jaggery "P-001"] |})
    by (vm_compute; reflexivity).
  assert (Hno : ~ authorised "sk-corner-store" Scenario.body_other_store Sample.world0).
  { intros (store & request & Hkey & _ & Hval' & Hid).
    rewrite Hval in Hval'. injection Hval' as <-.
    injection Hkey as <-. discriminate Hid. }
  pose proof (X7_endpoint_writes_only_when_authorised "sk-corner-store"
                Scenario.body_other_store Sample.world0 eq_refl Hno) as H.
  destruct H as (code & detail & Hrun & _ & Hcode).
  exists code, detail. split; [exact Hrun |].
  exact (proj1 (Hcode Sample.store _ eq_refl eq_refl Hval)).
Defined.

Lemma X8_rate_limiter_fails_open_witness :
  RateLimit.check_rate_limit "10.0.0.7" "/api/v1/storefront/products" 100 60 130
    (Some Scenario.down)
  = ((true, 100, (Z.quot 130 60 + 1) * 60), Some Scenario.down).
Proof.
  apply (X8_rate_limiter_fails_open "10.0.0.7" "/api/v1/storefront/products" 100 60 130
           (Some Scenario.down)).
  - left. reflexivity.
  - lia.
Defined.

Lemma X9_more_activity_never_longer_interval_witness :
  snd (Tier.classify Scenario.busy) <= snd (Tier.classify Scenario.quiet).
Proof.
  apply (X9_more_activity_never_longer_interval Scenario.quiet Scenario.busy); cbn; lia.
Defined.

Lemma X10_tier_written_only_on_change_witness :
  exists metrics w' store',
    returned (TierManager._get_activity_metrics 1%nat Sample.world0) = Some metrics
    /\ TierManager.evaluate_and_adjust_tier 1%nat Sample.world0 = (Ok tt, w')
    /\ products w' = products Sample.world0
    /\ sync_logs w' = sync_logs Sample.world0
    /\ query_store 1%nat w' = Some store'
    /\ Store.sync_tier store' = Some Tier.TIER4
    /\ Store.sync_interval_minutes store' = 240
    /\ Store.updated_at store' = 5001.
Proof.
  pose proof (X10_tier_written_only_on_change 1%nat Sample.world0 Sample.store
                eq_refl eq_refl) as H.
  destruct H as (metrics & w' & Hm & Hrun & Hp & _ & Hl & _ & _ & Hchange).
  assert (Hmetrics : metrics = {| Tier.orders_per_day := 0;
                                  Tier.products_updated_per_day := 0;
                                  Tier.total_products := 0 |}).
  { vm_compute in Hm. injection Hm as <-. reflexivity. }
  subst metrics.
  destruct (Hchange ltac:(discriminate))
    as (store' & Hq & _ & Htier & Hint & Hupd & _).
  eexists. exists w', store'. split; [exact Hm |]. split; [exact Hrun |].
  split; [exact Hp |]. split; [exact Hl |]. split; [exact Hq |].
  split; [exact Htier |]. split; [exact Hint | exact Hupd].
Defined.

Lemma X11_counter_restarts_at_window_boundary_witness :
  fst (RateLimit.requests "10.0.0.7" "/api/v1/storefront/products" 2 60
         ([118; 119] ++ [120; 121])
         (Some {| Redis.reachable := true; Redis.keys := ∅ |}))
  = map (fun n => (n <=? 2, Z.max 0 (2 - n), (1 + 1) * 60)) (seqZ 1 (Z.of_nat 2))
    ++ map (fun n => (n <=? 2, Z.max 0 (2 - n), (1 + 2) * 60)) (seqZ 1 (Z.of_nat 2)).
Proof.
  apply (X11_counter_restarts_at_window_boundary "10.0.0.7" "/api/v1/storefront/products"
           2 60 1 [118; 119] [120; 121]
           {| Redis.reachable := true; Redis.keys := ∅ |}).
  - lia.
  - reflexivity.
  - apply lookup_empty.
  - apply lookup_empty.
  - repeat constructor; try lia; reflexivity.
  - repeat constructor; try lia; reflexivity.
Defined.

Lemma X12_counter_lifetime_fixed_by_first_increment_witness :
  exists srv',
    Redis.increment "hits" 1 (Some 60) 130 (Some Scenario.counter3) = (3 + 1, Some srv')
    /\ Redis.keys srv' !! "hits"
       = Some {| Redis.value := Redis.RInt (3 + 1); Redis.expire_at := Some 180 |}.
Proof.
  assert (Hkey : Redis.keys Scenario.counter3 !! "hits"
                 = Some {| Redis.value := Redis.RInt 3; Redis.expire_at := Some 180 |})
    by apply lookup_insert_eq.
  apply (proj1 (X12_counter_lifetime_fixed_by_first_increment "hits" 1 60 130 3 180
                  Scenario.counter3 eq_refl ltac:(lia) ltac:(lia) Hkey)).
  lia.
Defined.

Lemma X14_retry_after_within_the_minute_witness :
  50 <= 60 /\ (130 = 130 -> 0 < 50).
Proof.
  assert (Hrun : RateLimitMiddleware.dispatch Scenario.set_header
                   RateLimitMiddleware.settings Scenario.call_next
                   Scenario.storefront_request 130 130 (Some Scenario.used_up, 0%nat)
                 = (RateLimitMiddleware.TooManyRequests 50,
                    snd (RateLimitMiddleware.dispatch Scenario.set_header
                           RateLimitMiddleware.settings Scenario.call_next
                           Scenario.storefront_request 130 130
                           (Some Scenario.used_up, 0%nat))))
    by (vm_compute; reflexivity).
  exact (X14_retry_after_within_the_minute Scenario.set_header
           RateLimitMiddleware.settings Scenario.call_next Scenario.storefront_request
           130 130 50 _ _ ltac:(lia) ltac:(lia) Hrun).
Defined.

Lemma X15_requests_outside_the_limiter_witness :
  RateLimitMiddleware.dispatch Scenario.set_header RateLimitMiddleware.settings
    Scenario.call_next Scenario.orders_request 130 130 (Some Scenario.used_up, 0%nat)
  = (RateLimitMiddleware.Returned
       (fst (Scenario.call_next Scenario.orders_request 0%nat)),
     (Some Scenario.used_up, snd (Scenario.call_next Scenario.orders_request 0%nat))).
Proof.
  apply (X15_requests_outside_the_limiter Scenario.set_header RateLimitMiddleware.settings
           Scenario.call_next Scenario.orders_request 130 130 (Some Scenario.used_up)
           0%nat).
  right. right. right. repeat split; reflexivity.
Defined.

Lemma X16_delete_pattern_removes_the_matching_keys_witness :
  exists srv',
    snd (Redis.delete_pattern "store:1:product*" (Some Scenario.product_cache)) = Some srv'
    /\ Redis.keys srv' !! "store:1:product:101" = None
    /\ Redis.keys srv' !! "store:1:inventory:101"
       = Redis.keys Scenario.product_cache !! "store:1:inventory:101".
Proof.
  pose proof (X16_delete_pattern_removes_the_matching_keys "store:1:product"
                Scenario.product_cache eq_refl) as H.
  destruct H as (srv' & Hdel & _ & Hk).
  exists srv'. split; [exact Hdel |].
  split; rewrite (Hk _); reflexivity.
Defined.



Lemma X18_delta_ignores_fields_outside_checksum_witness :
  _upsert_product 1%nat Scenario.rice_described "delta" Sample.world1
  = (Ok "updated", Sample.world1).
Proof.
  assert (Hrun : _upsert_product 1%nat Sample.rice "delta" Sample.world1
                 = (Ok "updated", Sample.world1))
    by (vm_compute; reflexivity).
  exact (X18_delta_ignores_fields_outside_checksum 1%nat "delta" "updated" Sample.rice
           Scenario.rice_described Sample.world1 Sample.world1 Hrun
           eq_refl eq_refl eq_refl eq_refl eq_refl).
Defined.




Lemma X20_validated_request_shape_witness :
  SyncBatchRequest.store_id Scenario.request1 = 1%nat
  /\ (1 <= length (SyncBatchRequest.products Scenario.request1) <= 1000)%nat
  /\ Forall (fun item => SyncProductItem.gst_percent item = Some 500)
       (SyncBatchRequest.products Scenario.request1).
Proof.
  assert (Hval : SyncBatchRequest.validate Scenario.body1 = Some Scenario.request1)
    by (vm_compute; reflexivity).
  pose proof (X20_validated_request_shape Scenario.body1 Scenario.request1 Hval) as H.
  destruct H as (Hid & _ & Hlen & Hitems).
  split; [exact Hid |]. split; [exact Hlen |].
  inversion Hitems as [| raw item raws items Hitem _]; subst.
  destruct Hitem as (_ & _ & _ & _ & _ & _ & _ & _ & _ & _ & Hgst & _).
  constructor; [exact Hgst | constructor].
Defined.

Lemma X22_agent_batches_pass_validation_witness :
  concat (SyncAgent.batches (replicate 1001 (Sample.raw_jaggery (Some "P-001"))))
  = replicate 1001 (Sample.raw_jaggery (Some "P-001"))
  /\ Forall (fun batch =>
               (1 <= length batch <= 1000)%nat
               /\ is_Some (SyncBatchRequest.validate
                             (SyncAgent.payload 1%nat "delta" 4000 batch)))
            (SyncAgent.batches (replicate 1001 (Sample.raw_jaggery (Some "P-001")))).
Proof.
  apply (X22_agent_batches_pass_validation
           (replicate 1001 (Sample.raw_jaggery (Some "P-001"))) 1%nat "delta" 4000).
  - reflexivity.
  - apply Forall_replicate. vm_compute. eauto.
Defined.

Lemma X23_set_then_get_witness :
  exists srv',
    RedisClient.set "store:1:config" "open" (Some 3600) 130 (Some Scenario.counter3)
    = (true, Some srv')
    /\ RedisClient.get "store:1:config" 200 (Some srv') = Some "open"
    /\ RedisClient.get "hits" 200 (Some srv')
       = RedisClient.get "hits" 200 (Some Scenario.counter3).
Proof.
  pose proof (X23_set_then_get "store:1:config" "open" (Some 3600) 130 200
                Scenario.counter3 eq_refl ltac:(cbn; lia)) as H.
  destruct H as (srv' & Hset & Hget & _ & Hother).
  exists srv'. split; [exact Hset |]. split; [exact Hget |].
  apply Hother. discriminate.
Defined.

Lemma X24_next_sync_one_interval_after_session_witness :
  exists store' t,
    query_store 1%nat Sample.world1 = Some store'
    /\ Store.sync_tier store' = Some Tier.TIER3
    /\ Store.last_sync_at store' = Some t
    /\ 5000 <= t
    /\ t <= SyncBatchResponse.next_sync_recommended_at Sample.response1 - minutes 60
    /\ SyncBatchResponse.next_sync_recommended_at Sample.response1 - minutes 60 <= 5016.
Proof.
  pose proof (X24_next_sync_one_interval_after_session 1%nat "full" Sample.batch
                Sample.world0 Sample.world1 Sample.response1 world1_run) as H.
  destruct H as (store & store' & t & Hq0 & Hq & Htier & _ & Ht & Hstart & Hlo & Hhi & _).
  assert (Hstore : store = Sample.store).
  { vm_compute in Hq0. injection Hq0 as <-. reflexivity. }
  subst store.
  exists store', t. split; [exact Hq |]. split; [exact Htier |]. split; [exact Ht |].
  split; [exact Hstart |]. split; [exact Hlo | exact Hhi].
Defined.
